(** * The CronJob reconciler of kubebuilder-tutorial

    A shallow embedding of [controllers/cronjob_controller.go]: the
    [Reconcile] method of [CronJobReconciler] together with its two inline
    closures [getNextSchedule] and [constructJobForCronJob].

    Conventions.
    - A Go [time.Time] is its instant: the number of nanoseconds elapsed
      since January 1, year 1, 00:00:00 UTC, so that the zero [Time] is [0],
      as in Go's own representation.  All times live in one location.
    - A Go [time.Duration] is an [int64] count of nanoseconds; arithmetic on
      durations wraps around, [Time.Sub] saturates.
    - A Go [map[string]string] is a [gmap string string]; a nil map is [∅].
    - A Go pointer to an optional field is an [option].
    - The API server is reached through [client.Client]; its five calls are
      parameters acting on an abstract store, and every call is recorded in
      a trace.  [Status().Update] is taken to leave the spec and the status
      of the object it was given as they were sent.
    - Calls into other packages ([cron], [sort], [ref], [ctrl]) are
      parameters; what their documentation promises is stated where a
      property needs it.  Log lines are left out. *)

From Stdlib Require Import ZArith Lia Ascii String.
From stdpp Require Import base tactics option list strings gmap fin_maps sorting pretty.

Local Open Scope Z_scope.

(** ** Machine integers *)

Definition wrap (w : Z) (z : Z) : Z := (z + 2 ^ (w - 1)) mod 2 ^ w - 2 ^ (w - 1).
Definition int32 (z : Z) : Z := wrap 32 z.
Definition int64 (z : Z) : Z := wrap 64 z.

(** ** Package [time] *)

Module time.

Definition Time := Z.
Definition Duration := Z.

Definition Nanosecond : Duration := 1.
Definition Second : Duration := 1000000000.

Definition minDuration : Duration := - 2 ^ 63.
Definition maxDuration : Duration := 2 ^ 63 - 1.

(** [time.Time{}] *)
Definition zero : Time := 0.

Definition IsZero (t : Time) : bool := t =? 0.
Definition After (t u : Time) : bool := u <? t.
Definition Before (t u : Time) : bool := t <? u.
Definition Add (t : Time) (d : Duration) : Time := t + d.

(** [t.Sub(u)]: the duration [t - u], clamped to the range of [Duration]. *)
Definition Sub (t u : Time) : Duration :=
  if t - u <? minDuration then minDuration
  else if maxDuration <? t - u then maxDuration
  else t - u.

(** Seconds between January 1, year 1 and January 1, 1970. *)
Definition unixToInternal : Z := 62135596800.

(** [t.Unix()] *)
Definition Unix (t : Time) : Z := t / Second - unixToInternal.

(** Product of two durations, as [int64] multiplication. *)
Definition mul (a b : Duration) : Duration := int64 (a * b).

End time.

Abbreviation Time := time.Time.
Abbreviation Duration := time.Duration.

(** ** Errors and results *)

(** The errors the reconciler meets.  [ErrNotFound] is the API server's
    not-found status, the only one [client.IgnoreNotFound] inspects. *)
Inductive error : Type :=
| ErrNotFound
| ErrOther (msg : string)
| ErrUnparseableSchedule (schedule : string) (cause : error)
| ErrTooManyMissedStarts.

Inductive result (A : Type) : Type :=
| Ok (a : A)
| Err (e : error).
Arguments Ok {A} a.
Arguments Err {A} e.

(** [client.IgnoreNotFound] *)
Definition IgnoreNotFound (err : option error) : option error :=
  match err with
  | Some ErrNotFound => None
  | _ => err
  end.

(** ** Kubernetes objects *)

Record ObjectReference := mkObjectReference {
  refKind : string;
  refNamespace : string;
  refName : string
}.

Record OwnerReference := mkOwnerReference {
  ownerAPIVersion : string;
  ownerKind : string;
  ownerName : string;
  ownerController : bool
}.

(** The pod template and the job parameters are opaque to the controller,
    which only copies them. *)
Record JobSpec := mkJobSpec { payload : string }.

Definition DeepCopy (s : JobSpec) : JobSpec := s.

Module kbatch.

Definition JobConditionType := string.
Definition JobComplete : JobConditionType := "Complete".
Definition JobFailed : JobConditionType := "Failed".

Record JobCondition := mkJobCondition {
  Type_ : JobConditionType;
  (** [corev1.ConditionStatus]: "True", "False" or "Unknown" *)
  Status_ : string
}.

Record JobStatus := mkJobStatus {
  StartTime : option Time;
  Conditions : list JobCondition
}.

Record Job := mkJob {
  Name : string;
  Namespace : string;
  Labels : gmap string string;
  Annotations : gmap string string;
  OwnerReferences : list OwnerReference;
  Spec : JobSpec;
  Status : JobStatus
}.

End kbatch.

Module batchv1beta1.

Record JobTemplateSpec := mkJobTemplateSpec {
  Labels : gmap string string;
  Annotations : gmap string string;
  Spec : JobSpec
}.

End batchv1beta1.

Definition ConcurrencyPolicy := string.
Definition AllowConcurrent : ConcurrencyPolicy := "Allow".
Definition ForbidConcurrent : ConcurrencyPolicy := "Forbid".
Definition ReplaceConcurrent : ConcurrencyPolicy := "Replace".

Module batch.

Record CronJobSpec := mkCronJobSpec {
  Schedule : string;
  (** [*int64] *)
  StartingDeadlineSeconds : option Z;
  ConcurrencyPolicy : ConcurrencyPolicy;
  Suspend : option bool;
  JobTemplate : batchv1beta1.JobTemplateSpec;
  (** [*int32] *)
  SuccessfulJobsHistoryLimit : option Z;
  (** [*int32] *)
  FailedJobsHistoryLimit : option Z
}.

Record CronJobStatus := mkCronJobStatus {
  Active : list ObjectReference;
  LastScheduleTime : option Time
}.

Record CronJob := mkCronJob {
  Name : string;
  Namespace : string;
  CreationTimestamp : Time;
  Spec : CronJobSpec;
  Status : CronJobStatus
}.

Definition setLastScheduleTime (t : option Time) (c : CronJob) : CronJob :=
  mkCronJob (Name c) (Namespace c) (CreationTimestamp c) (Spec c)
            (mkCronJobStatus (Active (Status c)) t).

Definition setActive (a : list ObjectReference) (c : CronJob) : CronJob :=
  mkCronJob (Name c) (Namespace c) (CreationTimestamp c) (Spec c)
            (mkCronJobStatus a (LastScheduleTime (Status c))).

End batch.

(** ** Package [cron] *)

Module cron.

(** The [cron.Schedule] interface. *)
Record Schedule := mkSchedule {
  Next : Time -> Time
}.

End cron.

Definition scheduledTimeAnnotation : string := "batch.tutorial.kubebuilder.io/scheduled-at".

(** ** Package [ctrl] *)

Module ctrl.

Record Request := mkRequest {
  Namespace : string;
  Name : string
}.

Record Result := mkResult {
  Requeue : bool;
  RequeueAfter : Duration
}.

(** [ctrl.Result{}] *)
Definition empty : Result := mkResult false 0.

End ctrl.

(** What one invocation of [Reconcile] hands back to the work queue. *)
Definition Outcome : Type := ctrl.Result * option error.

(** ** Calls that leave the process *)

(** A call to the API server, with the error it returned where the
    reconciler looks at it, or an attempt to construct a job. *)
Inductive Event : Type :=
| EvGet (namespace name : string)
| EvList (namespace owner : string)
| EvStatusUpdate (cronJob : batch.CronJob) (err : option error)
| EvDelete (job : kbatch.Job) (err : option error)
| EvConstruct (scheduledTime : Time)
| EvCreate (job : kbatch.Job) (err : option error).

Definition isConstruct (e : Event) : bool :=
  match e with EvConstruct _ => true | _ => false end.

Definition isCreate (e : Event) : bool :=
  match e with EvCreate _ _ => true | _ => false end.

(** ** The reconciler *)

Section Reconciler.

(** The state of the API server, and [client.Client] acting on it. *)
Variable Store : Type.
Variable Get : Store -> string -> string -> result batch.CronJob.
Variable List : Store -> string -> string -> result (list kbatch.Job).
Variable StatusUpdate : Store -> batch.CronJob -> Store * option error.
Variable Delete : Store -> kbatch.Job -> Store * option error.
Variable Create : Store -> kbatch.Job -> Store * option error.

(** [Clock]: the reading returned by the n-th call of [Now] in a run. *)
Variable Now : nat -> Time.

(** [cron.ParseStandard] *)
Variable ParseStandard : string -> result cron.Schedule.

(** [t.Format(time.RFC3339)] *)
Variable FormatRFC3339 : Time -> string.

(** [isJobFinished] and [getScheduledTimeForJob]: [Reconcile] calls both,
    and the source names them in a comment but leaves their bodies out.
    The first returns whether a job is finished and the type of the
    condition that says so, the empty string for a job still running; the
    second returns the scheduled time recorded on a job, none, or an
    error. *)
Variable isJobFinished : kbatch.Job -> bool * kbatch.JobConditionType.
Variable getScheduledTimeForJob : kbatch.Job -> result (option Time).

(** [sort.Slice] on a slice of jobs, with its [less] function. *)
Variable sortSlice : (kbatch.Job -> kbatch.Job -> bool) -> list kbatch.Job -> list kbatch.Job.

(** [ref.GetReference(r.Scheme, job)] *)
Variable GetReference : kbatch.Job -> result ObjectReference.

(** [ctrl.SetControllerReference(cronJob, job, r.Scheme)], which rewrites
    the owner references of [job] and nothing else. *)
Variable SetControllerReference :
  batch.CronJob -> list OwnerReference -> result (list OwnerReference).

(** *** Threading the store, the clock and the trace *)

Record World := mkWorld {
  store : Store;
  ticks : nat;
  trace : list Event
}.

Inductive step (A : Type) : Type :=
| Continue (a : A)
| Return (r : Outcome)
| OutOfFuel.
Arguments Continue {A} a.
Arguments Return {A} r.
Arguments OutOfFuel {A}.

Definition M (A : Type) : Type := World -> step A * World.

Definition ret {A} (a : A) : M A := fun w => (Continue a, w).

Definition bind {A B} (m : M A) (k : A -> M B) : M B :=
  fun w =>
    match m w with
    | (Continue a, w') => k a w'
    | (Return r, w') => (Return r, w')
    | (OutOfFuel, w') => (OutOfFuel, w')
    end.

(** [return r] from inside [Reconcile]. *)
Definition exit {A} (r : Outcome) : M A := fun w => (Return r, w).

Definition diverge {A} : M A := fun w => (OutOfFuel, w).

Notation "x <~ m ;; k" := (bind m (fun x => k))
  (at level 100, m at next level, right associativity).
Notation "m ;;; k" := (bind m (fun _ => k))
  (at level 100, k at level 200, right associativity).

Definition emit (e : Event) (w : World) : World :=
  mkWorld (store w) (ticks w) (trace w ++ [e]).

Definition note (e : Event) : M unit := fun w => (Continue tt, emit e w).

Definition callGet (namespace name : string) : M (result batch.CronJob) :=
  fun w => (Continue (Get (store w) namespace name), emit (EvGet namespace name) w).

Definition callList (namespace owner : string) : M (result (list kbatch.Job)) :=
  fun w => (Continue (List (store w) namespace owner), emit (EvList namespace owner) w).

Definition callStatusUpdate (cronJob : batch.CronJob) : M (option error) :=
  fun w =>
    let '(s, err) := StatusUpdate (store w) cronJob in
    (Continue err, mkWorld s (ticks w) (trace w ++ [EvStatusUpdate cronJob err])).

Definition callDelete (job : kbatch.Job) : M (option error) :=
  fun w =>
    let '(s, err) := Delete (store w) job in
    (Continue err, mkWorld s (ticks w) (trace w ++ [EvDelete job err])).

Definition callCreate (job : kbatch.Job) : M (option error) :=
  fun w =>
    let '(s, err) := Create (store w) job in
    (Continue err, mkWorld s (ticks w) (trace w ++ [EvCreate job err])).

(** [r.Now()] *)
Definition callNow : M Time :=
  fun w => (Continue (Now (ticks w)), mkWorld (store w) (S (ticks w)) (trace w)).

(** *** The schedule calculator *)

(** The [for] loop of [getNextSchedule], entered with [t], [lastMissed] and
    [starts] holding their current values.  [None] is returned when [fuel]
    iterations do not finish the loop. *)
Fixpoint missedStarts (sched : cron.Schedule) (now : Time) (fuel : nat)
         (t lastMissed : Time) (starts : Z) : option (Time * Time * option error) :=
  match fuel with
  | O => None
  | S fuel' =>
      if negb (time.After t now) then
        let lastMissed := t in
        let starts := starts + 1 in
        if starts >? 100 then
          Some (time.zero, time.zero, Some ErrTooManyMissedStarts)
        else
          missedStarts sched now fuel' (cron.Next sched t) lastMissed starts
      else
        Some (lastMissed, cron.Next sched now, None)
  end.

(** The bound the calculator starts from: the last observed run when the
    status has one, else the creation time. *)
Definition boundTime (cronJob : batch.CronJob) : Time :=
  match batch.LastScheduleTime (batch.Status cronJob) with
  | Some t => t
  | None => batch.CreationTimestamp cronJob
  end.

(** [earliestTime] as it stands when the loop is reached: the bound, raised
    to the scheduling deadline when one is configured. *)
Definition earliestTime (cronJob : batch.CronJob) (now : Time) : Time :=
  let earliestTime := boundTime cronJob in
  match batch.StartingDeadlineSeconds (batch.Spec cronJob) with
  | Some d =>
      let schedulingDeadline := time.Add now (time.mul (- time.Second) d) in
      if time.After schedulingDeadline earliestTime then schedulingDeadline
      else earliestTime
  | None => earliestTime
  end.

Definition getNextScheduleFuel (fuel : nat) (cronJob : batch.CronJob) (now : Time)
  : option (Time * Time * option error) :=
  match ParseStandard (batch.Schedule (batch.Spec cronJob)) with
  | Err err =>
      Some (time.zero, time.zero,
            Some (ErrUnparseableSchedule (batch.Schedule (batch.Spec cronJob)) err))
  | Ok sched =>
      let earliestTime := earliestTime cronJob now in
      if time.After earliestTime now then
        Some (time.zero, cron.Next sched now, None)
      else
        missedStarts sched now fuel (cron.Next sched earliestTime) time.zero 0
  end.

(** The loop body runs at most 101 times: the 101st run leaves through
    the [starts > 100] test. *)
Definition getNextSchedule : batch.CronJob -> Time -> option (Time * Time * option error) :=
  getNextScheduleFuel 101.

(** *** The job constructor *)

(** [for k, v := range src { dst[k] = v }] *)
Definition copyInto (src dst : gmap string string) : gmap string string :=
  map_fold (fun k v m => <[k:=v]> m) dst src.

Definition constructJobForCronJob (cronJob : batch.CronJob) (scheduledTime : Time)
  : result kbatch.Job :=
  let name := batch.Name cronJob +:+ "-" +:+ pretty (time.Unix scheduledTime) in
  let template := batch.JobTemplate (batch.Spec cronJob) in
  let annotations := copyInto (batchv1beta1.Annotations template) ∅ in
  let annotations := <[scheduledTimeAnnotation := FormatRFC3339 scheduledTime]> annotations in
  let labels := copyInto (batchv1beta1.Labels template) ∅ in
  match SetControllerReference cronJob [] with
  | Err err => Err err
  | Ok refs =>
      Ok (kbatch.mkJob name (batch.Namespace cronJob) labels annotations refs
                       (DeepCopy (batchv1beta1.Spec template))
                       (kbatch.mkJobStatus None []))
  end.

(** *** The lifecycle classifier *)

Record Classified := mkClassified {
  activeJobs : list kbatch.Job;
  successfulJobs : list kbatch.Job;
  failedJobs : list kbatch.Job;
  mostRecentTime : option Time
}.

(** One turn of the loop over [childJobs.Items]. *)
Definition classifyJob (acc : Classified) (job : kbatch.Job) : Classified :=
  let '(_, finishedType) := isJobFinished job in
  let acc :=
    if bool_decide (finishedType = "") then
      mkClassified (activeJobs acc ++ [job]) (successfulJobs acc) (failedJobs acc)
                   (mostRecentTime acc)
    else if bool_decide (finishedType = kbatch.JobFailed) then
      mkClassified (activeJobs acc) (successfulJobs acc) (failedJobs acc ++ [job])
                   (mostRecentTime acc)
    else if bool_decide (finishedType = kbatch.JobComplete) then
      mkClassified (activeJobs acc) (successfulJobs acc ++ [job]) (failedJobs acc)
                   (mostRecentTime acc)
    else acc in
  match getScheduledTimeForJob job with
  | Err _ => acc
  | Ok None => acc
  | Ok (Some scheduledTimeForJob) =>
      let mostRecentTime :=
        match mostRecentTime acc with
        | None => Some scheduledTimeForJob
        | Some mostRecent =>
            if time.Before mostRecent scheduledTimeForJob then Some scheduledTimeForJob
            else Some mostRecent
        end in
      mkClassified (activeJobs acc) (successfulJobs acc) (failedJobs acc) mostRecentTime
  end.

Definition classify (childJobs : list kbatch.Job) : Classified :=
  fold_left classifyJob childJobs (mkClassified [] [] [] None).

(** The loop that fills [cronJob.Status.Active]: a job whose reference
    cannot be made is passed over. *)
Fixpoint activeReferences (jobs : list kbatch.Job) : list ObjectReference :=
  match jobs with
  | [] => []
  | activeJob :: rest =>
      match GetReference activeJob with
      | Err _ => activeReferences rest
      | Ok jobRef => jobRef :: activeReferences rest
      end
  end.

(** *** The history pruner *)

(** The [less] function handed to [sort.Slice]. *)
Definition startTimeLess (a b : kbatch.Job) : bool :=
  match kbatch.StartTime (kbatch.Status a) with
  | None => bool_decide (kbatch.StartTime (kbatch.Status b) <> None)
  | Some ta =>
      match kbatch.StartTime (kbatch.Status b) with
      | Some tb => time.Before ta tb
      | None => false
      end
  end.

(** [for i, job := range jobs], entered at index [i], with [len] the length
    of the whole slice. *)
Fixpoint deleteOldJobs (limit len : Z) (i : Z) (jobs : list kbatch.Job) : M unit :=
  match jobs with
  | [] => ret tt
  | job :: rest =>
      if int32 i >=? int32 (int32 len - limit) then ret tt
      else callDelete job ;;; deleteOldJobs limit len (i + 1) rest
  end.

Definition pruneHistory (historyLimit : option Z) (jobs : list kbatch.Job) : M unit :=
  match historyLimit with
  | None => ret tt
  | Some limit =>
      let jobs := sortSlice startTimeLess jobs in
      deleteOldJobs limit (Z.of_nat (length jobs)) 0 jobs
  end.

(** *** The concurrency policy *)

(** The loop of the replace policy: the first delete that fails with
    anything but not-found ends the reconcile. *)
Fixpoint deleteActiveJobs (jobs : list kbatch.Job) : M unit :=
  match jobs with
  | [] => ret tt
  | activeJob :: rest =>
      err <~ callDelete activeJob ;;
      match IgnoreNotFound err with
      | Some _ => exit (ctrl.empty, err)
      | None => deleteActiveJobs rest
      end
  end.

(** *** [Reconcile] *)

(** Both history limits, the failed jobs first. *)
Definition pruneHistories (cronJob : batch.CronJob) (c : Classified) : M unit :=
  pruneHistory (batch.FailedJobsHistoryLimit (batch.Spec cronJob)) (failedJobs c) ;;;
  pruneHistory (batch.SuccessfulJobsHistoryLimit (batch.Spec cronJob)) (successfulJobs c).

(** The job is constructed and created. *)
Definition constructAndCreate (cronJob : batch.CronJob)
           (missedRun : Time) (scheduledResult : ctrl.Result) : M Outcome :=
  note (EvConstruct missedRun) ;;;
  match constructJobForCronJob cronJob missedRun with
  | Err _ => exit (scheduledResult, None)
  | Ok job =>
  err <~ callCreate job ;;
  match err with
  | Some _ => exit (ctrl.empty, err)
  | None => ret (scheduledResult, None)
  end end.

(** From the concurrency policy to the end: the policy is enforced, then
    the job is constructed and created. *)
Definition createRun (cronJob : batch.CronJob) (c : Classified)
           (missedRun : Time) (scheduledResult : ctrl.Result) : M Outcome :=
  if bool_decide (batch.ConcurrencyPolicy (batch.Spec cronJob) = ForbidConcurrent)
     && bool_decide (0 < length (activeJobs c))%nat
  then exit (scheduledResult, None) else
  (if bool_decide (batch.ConcurrencyPolicy (batch.Spec cronJob) = ReplaceConcurrent)
   then deleteActiveJobs (activeJobs c) else ret tt) ;;;
  constructAndCreate cronJob missedRun scheduledResult.

(** From the schedule calculator to the end. *)
Definition scheduleRun (cronJob : batch.CronJob) (c : Classified) : M Outcome :=
  now <~ callNow ;;
  match getNextSchedule cronJob now with
  | None => diverge
  | Some (_, _, Some _) => exit (ctrl.empty, None)
  | Some (missedRun, nextRun, None) =>
  now <~ callNow ;;
  let scheduledResult := ctrl.mkResult false (time.Sub nextRun now) in
  (* the clock is read once more for the logger *)
  callNow ;;;
  if time.IsZero missedRun then exit (scheduledResult, None) else
  tooLate <~ match batch.StartingDeadlineSeconds (batch.Spec cronJob) with
             | Some d =>
                 now <~ callNow ;;
                 ret (time.Before (time.Add missedRun (time.mul d time.Second)) now)
             | None => ret false
             end ;;
  if tooLate then exit (scheduledResult, None) else
  createRun cronJob c missedRun scheduledResult
  end.

(** The status [Reconcile] writes back: the most recent scheduled time
    and the references of the active jobs. *)
Definition observed (cronJob : batch.CronJob) (c : Classified) : batch.CronJob :=
  let cronJob := batch.setLastScheduleTime (mostRecentTime c) cronJob in
  batch.setActive (activeReferences (activeJobs c)) cronJob.

Definition reconcileBody (req : ctrl.Request) : M Outcome :=
  got <~ callGet (ctrl.Namespace req) (ctrl.Name req) ;;
  match got with
  | Err err => exit (ctrl.empty, IgnoreNotFound (Some err))
  | Ok cronJob =>
  listed <~ callList (ctrl.Namespace req) (ctrl.Name req) ;;
  match listed with
  | Err err => exit (ctrl.empty, Some err)
  | Ok childJobs =>
  let c := classify childJobs in
  let cronJob := observed cronJob c in
  err <~ callStatusUpdate cronJob ;;
  match err with
  | Some _ => exit (ctrl.empty, err)
  | None =>
  pruneHistories cronJob c ;;;
  match batch.Suspend (batch.Spec cronJob) with
  | Some true => exit (ctrl.empty, None)
  | _ => scheduleRun cronJob c
  end end end end.

(** What a finished run hands back; [None] when the model ran out of fuel. *)
Definition outcomeOf (r : step Outcome) : option Outcome :=
  match r with
  | Continue r => Some r
  | Return r => Some r
  | OutOfFuel => None
  end.

(** One invocation: the outcome and the world it leaves behind. *)
Definition Reconcile (req : ctrl.Request) (w : World) : option Outcome * World :=
  let '(r, w') := reconcileBody req w in (outcomeOf r, w').

(** *** The owner index *)

Definition apiGVStr : string := "batch.tutorial.kubebuilder.io/v1".

(** [metav1.GetControllerOf] *)
Definition GetControllerOf (job : kbatch.Job) : option OwnerReference :=
  List.find ownerController (kbatch.OwnerReferences job).

(** The function [SetupWithManager] registers under [jobOwnerKey]: the
    names a job is indexed by. *)
Definition indexJobOwner (job : kbatch.Job) : list string :=
  match GetControllerOf job with
  | None => []
  | Some owner =>
      if negb (bool_decide (ownerAPIVersion owner = apiGVStr))
         || negb (bool_decide (ownerKind owner = "CronJob"))
      then []
      else [ownerName owner]
  end.

End Reconciler.

Arguments Continue {A} a.
Arguments Return {A} r.
Arguments OutOfFuel {A}.
Arguments bind {Store A B} m k w.
Arguments ret {Store A} a w.
Arguments exit {Store A} r w.
Arguments diverge {Store A} w.
Arguments mkWorld {Store} store ticks trace.
Arguments store {Store} w.
Arguments ticks {Store} w.
Arguments trace {Store} w.

(** ** Vocabulary of the properties *)

(** What the documentation of [cron.Schedule] promises of [Next]: the next
    activation time, later than the given time. *)
Definition nextIsLater (sched : cron.Schedule) : Prop :=
  forall t, t < cron.Next sched t.

(** [Next] with respect to the set of a schedule's occurrences: the first
    occurrence strictly after the given time. *)
Definition firstAfter (occurs : Time -> Prop) (sched : cron.Schedule) : Prop :=
  forall t,
    t < cron.Next sched t /\ occurs (cron.Next sched t) /\
    forall u, occurs u -> t < u -> cron.Next sched t <= u.

(** The k-th occurrence after [t]. *)
Definition nthNext (sched : cron.Schedule) (k : nat) (t : Time) : Time :=
  Nat.iter k (cron.Next sched) t.

(** Instants with no fraction of a second, as the occurrences of a cron
    schedule are. *)
Definition wholeSecond (t : Time) : Prop := t mod time.Second = 0.

(** The condition type [isJobFinished] reports for a job. *)
Definition finishedType (isJobFinished : kbatch.Job -> bool * kbatch.JobConditionType)
           (job : kbatch.Job) : kbatch.JobConditionType :=
  snd (isJobFinished job).

(** What one more job makes of the most recent scheduled time. *)
Definition laterOf (getScheduledTimeForJob : kbatch.Job -> result (option Time))
           (mostRecent : option Time) (job : kbatch.Job) : option Time :=
  match getScheduledTimeForJob job with
  | Ok (Some t) =>
      match mostRecent with
      | None => Some t
      | Some m => if time.Before m t then Some t else Some m
      end
  | _ => mostRecent
  end.

(** [a] is not later than [b], an unset time being earlier than any other. *)
Definition notLater (a b : option Time) : Prop :=
  match a, b with
  | None, _ => True
  | Some _, None => False
  | Some x, Some y => x <= y
  end.

(** The status updates of a trace, as the last schedule time each wrote. *)
Definition lastScheduleTimes (tr : list Event) : list (option Time) :=
  flat_map (fun e => match e with
                     | EvStatusUpdate c _ => [batch.LastScheduleTime (batch.Status c)]
                     | _ => []
                     end) tr.

(** What [sort.Slice] promises for the start-time order: the slice holds the
    same jobs afterwards, and no job is less than one before it. *)
Definition sortsByStartTime
           (sortSlice : (kbatch.Job -> kbatch.Job -> bool) -> list kbatch.Job -> list kbatch.Job)
  : Prop :=
  forall l,
    sortSlice startTimeLess l ≡ₚ l /\
    StronglySorted (fun a b => startTimeLess b a = false) (sortSlice startTimeLess l).

(** Neither an attempt to construct a job nor a call to create one. *)
Definition createsNothing (evs : list Event) : Prop :=
  Forall (fun e => isConstruct e = false /\ isCreate e = false) evs.

(** Only calls to delete jobs of [jobs]. *)
Definition deletesOf (jobs : list kbatch.Job) (evs : list Event) : Prop :=
  Forall (fun e => match e with EvDelete j _ => j ∈ jobs | _ => False end) evs.

(** Only calls to delete jobs of [jobs], each answered by success or by
    not-found. *)
Definition quietDeletesOf (jobs : list kbatch.Job) (evs : list Event) : Prop :=
  Forall (fun e => match e with
                   | EvDelete j err => j ∈ jobs /\ IgnoreNotFound err = None
                   | _ => False
                   end) evs.

(** What the last stage of a reconcile may add to the trace, with the
    outcome [r] of the reconcile: nothing; or, under the replace policy,
    deletes of active jobs up to one that fails with anything but not-found,
    which is the outcome; or quiet deletes of active jobs, all of them under
    the replace policy, then the attempt to construct the job and at most
    one create. *)
Definition endsWith (policy : ConcurrencyPolicy) (actives : list kbatch.Job)
           (r : option Outcome) (tail : list Event) : Prop :=
  tail = [] \/
  (exists evs0 j e,
     policy = ReplaceConcurrent /\
     tail = evs0 ++ [EvDelete j (Some e)] /\ quietDeletesOf actives evs0 /\
     j ∈ actives /\ e <> ErrNotFound /\ r = Some (ctrl.empty, Some e)) \/
  (exists dels missedRun rest,
     tail = dels ++ EvConstruct missedRun :: rest /\
     quietDeletesOf actives dels /\
     (policy = ReplaceConcurrent ->
      forall j, j ∈ actives -> exists err, EvDelete j err ∈ dels /\ IgnoreNotFound err = None) /\
     (rest = [] \/ exists job err, rest = [EvCreate job err])).

(** ** Instances to run the model on *)

(** A [Time] from a Unix time in seconds. *)
Definition unixTime (sec : Z) : Time := (sec + time.unixToInternal) * time.Second.

(** *** Schedules *)

(** A schedule firing at every multiple of [period], such as [* * * * *]
    with a period of one minute. *)
Definition everyPeriod (period : Duration) : cron.Schedule :=
  cron.mkSchedule (fun t => (t / period + 1) * period).

Definition Minute : Duration := 60 * time.Second.
Definition Hour : Duration := 60 * Minute.

Definition occursEvery (period : Duration) (t : Time) : Prop := t mod period = 0.

Definition demoParseStandard (spec : string) : result cron.Schedule :=
  if bool_decide (spec = "* * * * *") then Ok (everyPeriod Minute)
  else if bool_decide (spec = "0 * * * *") then Ok (everyPeriod Hour)
  else Err (ErrOther "Expected exactly 5 fields").

(** *** RFC 3339 timestamps in UTC *)

(** Year, month and day of the day that lies [days] after January 1, year 1. *)
Definition civilFromDays (days : Z) : Z * Z * Z :=
  let z := days + 306 in
  let era := z / 146097 in
  let doe := z mod 146097 in
  let yoe := (doe - doe / 1460 + doe / 36524 - doe / 146096) / 365 in
  let doy := doe - (365 * yoe + yoe / 4 - yoe / 100) in
  let mp := (5 * doy + 2) / 153 in
  let d := doy - (153 * mp + 2) / 5 + 1 in
  let m := if mp <? 10 then mp + 3 else mp - 9 in
  let y := yoe + era * 400 in
  (if m <=? 2 then y + 1 else y, m, d).

Definition daysFromCivil (y m d : Z) : Z :=
  let y := if m <=? 2 then y - 1 else y in
  let era := y / 400 in
  let yoe := y mod 400 in
  let mp := (m + 9) mod 12 in
  let doy := (153 * mp + 2) / 5 + d - 1 in
  let doe := yoe * 365 + yoe / 4 - yoe / 100 + doy in
  era * 146097 + doe - 306.

Definition digit (n : Z) : ascii := ascii_of_nat (48 + Z.to_nat (n mod 10)).

Definition digits2 (n : Z) : string := String (digit (n / 10)) (String (digit n) "").

Definition digits4 (n : Z) : string := digits2 (n / 100) +:+ digits2 n.

Definition utcFormatRFC3339 (t : Time) : string :=
  let sec := t / time.Second in
  let '(y, m, d) := civilFromDays (sec / 86400) in
  let sod := sec mod 86400 in
  digits4 y +:+ "-" +:+ digits2 m +:+ "-" +:+ digits2 d +:+ "T" +:+
  digits2 (sod / 3600) +:+ ":" +:+ digits2 (sod / 60 mod 60) +:+ ":" +:+ digits2 (sod mod 60)
  +:+ "Z".

Definition digitValue (c : ascii) : option Z :=
  let n := Z.of_nat (nat_of_ascii c) in
  if (48 <=? n) && (n <=? 57) then Some (n - 48) else None.

Fixpoint number (acc : Z) (cs : list ascii) : option Z :=
  match cs with
  | [] => Some acc
  | c :: rest =>
      match digitValue c with
      | Some v => number (10 * acc + v) rest
      | None => None
      end
  end.

(** Reads back [YYYY-MM-DDTHH:MM:SSZ]. *)
Definition utcParseRFC3339 (s : string) : result Time :=
  let bad := Err (ErrOther "cannot parse as RFC 3339") in
  match list_ascii_of_string s with
  | [y1; y2; y3; y4; "-"%char; m1; m2; "-"%char; d1; d2; "T"%char;
     h1; h2; ":"%char; n1; n2; ":"%char; s1; s2; "Z"%char] =>
      match number 0 [y1; y2; y3; y4], number 0 [m1; m2], number 0 [d1; d2],
            number 0 [h1; h2], number 0 [n1; n2], number 0 [s1; s2] with
      | Some y, Some m, Some d, Some h, Some n, Some sec =>
          Ok ((daysFromCivil y m d * 86400 + h * 3600 + n * 60 + sec) * time.Second)
      | _, _, _, _, _, _ => bad
      end
  | _ => bad
  end.

(** *** The helpers of the classifier *)

(** Modelled from the spec: the scan of a job's conditions behind
    [isJobFinished].  A job is finished once it carries a "Complete" or
    "Failed" condition whose status is true; a job with no such condition
    is still running. *)
Fixpoint finishedCondition (conditions : list kbatch.JobCondition)
  : bool * kbatch.JobConditionType :=
  match conditions with
  | [] => (false, "")
  | c :: rest =>
      if (bool_decide (kbatch.Type_ c = kbatch.JobComplete)
          || bool_decide (kbatch.Type_ c = kbatch.JobFailed))
         && bool_decide (kbatch.Status_ c = "True")
      then (true, kbatch.Type_ c)
      else finishedCondition rest
  end.

(** Modelled from the spec: the helper [isJobFinished], which [Reconcile]
    calls and the source leaves out. *)
Definition specIsJobFinished (job : kbatch.Job) : bool * kbatch.JobConditionType :=
  finishedCondition (kbatch.Conditions (kbatch.Status job)).

(** Modelled from the spec: the helper [getScheduledTimeForJob], which
    [Reconcile] calls and the source leaves out.  It reads the scheduled
    time back from the annotation the constructor stamped: no annotation
    gives no time, an annotation that does not parse gives an error. *)
Definition specGetScheduledTimeForJob (ParseRFC3339 : string -> result Time)
           (job : kbatch.Job) : result (option Time) :=
  match kbatch.Annotations job !! scheduledTimeAnnotation with
  | None => Ok None
  | Some timeRaw =>
      if bool_decide (timeRaw = "") then Ok None
      else match ParseRFC3339 timeRaw with
           | Err err => Err err
           | Ok timeParsed => Ok (Some timeParsed)
           end
  end.

(** *** Sorting *)

(** A stable merge sort standing for [sort.Slice]. *)
Definition mergeSortSlice (less : kbatch.Job -> kbatch.Job -> bool) (l : list kbatch.Job)
  : list kbatch.Job :=
  merge_sort (fun a b => Is_true (negb (less b a))) l.

(** *** An API server held in memory *)

Record MemStore := mkMemStore {
  cronJobs : list batch.CronJob;
  (** the jobs the cache lists *)
  jobs : list kbatch.Job;
  (** names of the jobs the cache still lists though the server has
      deleted them already *)
  stale : list string;
  (** names of the jobs whose deletion the server refuses *)
  undeletable : list string;
  statusUpdateFails : bool;
  createFails : bool
}.

Definition sameJob (a b : kbatch.Job) : bool :=
  bool_decide (kbatch.Namespace a = kbatch.Namespace b)
  && bool_decide (kbatch.Name a = kbatch.Name b).

Definition isCronJob (namespace name : string) (c : batch.CronJob) : bool :=
  bool_decide (batch.Namespace c = namespace) && bool_decide (batch.Name c = name).

Definition memGet (s : MemStore) (namespace name : string) : result batch.CronJob :=
  match List.find (isCronJob namespace name) (cronJobs s) with
  | Some c => Ok c
  | None => Err ErrNotFound
  end.

Definition memList (s : MemStore) (namespace owner : string) : result (list kbatch.Job) :=
  Ok (List.filter (fun j => bool_decide (kbatch.Namespace j = namespace)
                            && bool_decide (owner ∈ indexJobOwner j)) (jobs s)).

Definition memStatusUpdate (s : MemStore) (c : batch.CronJob) : MemStore * option error :=
  if statusUpdateFails s then (s, Some (ErrOther "the server is currently unable to handle the request"))
  else if existsb (isCronJob (batch.Namespace c) (batch.Name c)) (cronJobs s) then
    (mkMemStore
       (map (fun c' => if isCronJob (batch.Namespace c) (batch.Name c) c'
                       then batch.mkCronJob (batch.Name c') (batch.Namespace c')
                                            (batch.CreationTimestamp c') (batch.Spec c')
                                            (batch.Status c)
                       else c') (cronJobs s))
       (jobs s) (stale s) (undeletable s) (statusUpdateFails s) (createFails s), None)
  else (s, Some ErrNotFound).

Definition memDelete (s : MemStore) (j : kbatch.Job) : MemStore * option error :=
  if bool_decide (kbatch.Name j ∈ undeletable s) then
    (s, Some (ErrOther "the server is currently unable to handle the request"))
  else if bool_decide (kbatch.Name j ∈ stale s) then (s, Some ErrNotFound)
  else if existsb (sameJob j) (jobs s) then
    (mkMemStore (cronJobs s) (List.filter (fun j' => negb (sameJob j j')) (jobs s))
                (stale s) (undeletable s) (statusUpdateFails s) (createFails s), None)
  else (s, Some ErrNotFound).

Definition memCreate (s : MemStore) (j : kbatch.Job) : MemStore * option error :=
  if createFails s then (s, Some (ErrOther "the server is currently unable to handle the request"))
  else if existsb (sameJob j) (jobs s) then (s, Some (ErrOther "already exists"))
  else (mkMemStore (cronJobs s) (jobs s ++ [j]) (stale s) (undeletable s)
                   (statusUpdateFails s) (createFails s), None).

Definition memGetReference (j : kbatch.Job) : result ObjectReference :=
  Ok (mkObjectReference "Job" (kbatch.Namespace j) (kbatch.Name j)).

Definition memSetControllerReference (owner : batch.CronJob) (refs : list OwnerReference)
  : result (list OwnerReference) :=
  Ok (refs ++ [mkOwnerReference apiGVStr "CronJob" (batch.Name owner) true]).

Definition memGetScheduledTimeForJob : kbatch.Job -> result (option Time) :=
  specGetScheduledTimeForJob utcParseRFC3339.

Definition memClassify : list kbatch.Job -> Classified :=
  classify specIsJobFinished memGetScheduledTimeForJob.

(** The reconciler wired to the in-memory server, with a clock that reads
    [now] throughout a run. *)
Definition memReconcile (now : Time) : ctrl.Request -> World MemStore -> option Outcome * World MemStore :=
  Reconcile MemStore memGet memList memStatusUpdate memDelete memCreate (fun _ => now)
            demoParseStandard utcFormatRFC3339 specIsJobFinished memGetScheduledTimeForJob
            mergeSortSlice memGetReference memSetControllerReference.

Definition memGetNextSchedule : batch.CronJob -> Time -> option (Time * Time * option error) :=
  getNextSchedule demoParseStandard.

Definition memConstructJob : batch.CronJob -> Time -> result kbatch.Job :=
  constructJobForCronJob utcFormatRFC3339 memSetControllerReference.

(** *** A cron job with a backlog *)

(** Half a minute past midnight, January 1, 2021 (UTC). *)
Definition newYear : Time := unixTime 1609459230.

(** A cron job firing every minute, created [minutes] minutes before
    [newYear] and never run since. *)
Definition cronJobBehind (minutes : Z) (deadline : option Z) : batch.CronJob :=
  batch.mkCronJob "report" "default" (newYear - minutes * Minute)
    (batch.mkCronJobSpec "* * * * *" deadline AllowConcurrent None
       (batchv1beta1.mkJobTemplateSpec ∅ ∅ (mkJobSpec "busybox date")) None None)
    (batch.mkCronJobStatus [] None).

(** The last 101 whole minutes up to [newYear]. *)
Definition lastMinutes : list Time :=
  map (fun k => unixTime (1609459200 - 60 * k)) (seqZ 0 101).

(** *** A cron job whose template is annotated *)

(** The template carries an annotation of its own under the scheduled-time
    key. *)
Definition cronJobStamped : batch.CronJob :=
  batch.mkCronJob "report" "default" (unixTime 1609455600)
    (batch.mkCronJobSpec "* * * * *" None AllowConcurrent None
       (batchv1beta1.mkJobTemplateSpec
          {[ "app" := "report" ]}
          {[ scheduledTimeAnnotation := "yesterday"; "team" := "reports" ]}
          (mkJobSpec "busybox date")) None None)
    (batch.mkCronJobStatus [] None).

(** The job the constructor builds on the in-memory server. *)
Definition builtJob (cronJob : batch.CronJob) (scheduledTime : Time) : kbatch.Job :=
  match memConstructJob cronJob scheduledTime with
  | Ok job => job
  | Err _ => kbatch.mkJob "" "" ∅ ∅ [] (mkJobSpec "") (kbatch.mkJobStatus None [])
  end.

(** *** Jobs, cron jobs and worlds of the scenarios *)

(** The jobs of a failed partition: two started a minute apart and one that
    never started. *)
Definition failedAt (name : string) (start : option Time) : kbatch.Job :=
  kbatch.mkJob name "default" ∅ ∅ [] (mkJobSpec "busybox date")
    (kbatch.mkJobStatus start [kbatch.mkJobCondition kbatch.JobFailed "True"]).

Definition threeFailed : list kbatch.Job :=
  [failedAt "report-1609459200" (Some (unixTime 1609459201));
   failedAt "report-1609459080" None;
   failedAt "report-1609459140" (Some (unixTime 1609459141))].

(** A world around an in-memory server that holds the cron jobs [cs] and
    the jobs [js], before any call. *)
Definition worldOf (cs : list batch.CronJob) (js : list kbatch.Job) : World MemStore :=
  mkWorld (mkMemStore cs js [] [] false false) 0 [].

(** The cron job "report" in namespace "default", firing every minute. *)
Definition reportCronJob (created : Time) (policy : ConcurrencyPolicy) (suspend : option bool)
           (successfulLimit failedLimit : option Z) : batch.CronJob :=
  batch.mkCronJob "report" "default" created
    (batch.mkCronJobSpec "* * * * *" None policy suspend
       (batchv1beta1.mkJobTemplateSpec ∅ ∅ (mkJobSpec "busybox date"))
       successfulLimit failedLimit)
    (batch.mkCronJobStatus [] None).

Definition reportRequest : ctrl.Request := ctrl.mkRequest "default" "report".

(** A child of [cronJob] for the run scheduled at [scheduledTime], as the
    constructor builds it, with the status the job controller gave it. *)
Definition child (cronJob : batch.CronJob) (scheduledTime : Time)
           (status : kbatch.JobStatus) : kbatch.Job :=
  let job := builtJob cronJob scheduledTime in
  kbatch.mkJob (kbatch.Name job) (kbatch.Namespace job) (kbatch.Labels job)
               (kbatch.Annotations job) (kbatch.OwnerReferences job) (kbatch.Spec job) status.

Definition running (started : Time) : kbatch.JobStatus :=
  kbatch.mkJobStatus (Some started) [].

Definition succeeded (started : Time) : kbatch.JobStatus :=
  kbatch.mkJobStatus (Some started) [kbatch.mkJobCondition kbatch.JobComplete "True"].

(** One line for each event of a trace. *)
Definition describe (e : Event) : string :=
  match e with
  | EvGet _ name => "get " +:+ name
  | EvList _ owner => "list jobs of " +:+ owner
  | EvStatusUpdate c None => "update status of " +:+ batch.Name c
  | EvStatusUpdate c (Some _) => "update status of " +:+ batch.Name c +:+ ": failed"
  | EvDelete j None => "delete " +:+ kbatch.Name j
  | EvDelete j (Some ErrNotFound) => "delete " +:+ kbatch.Name j +:+ ": not found"
  | EvDelete j (Some _) => "delete " +:+ kbatch.Name j +:+ ": failed"
  | EvConstruct t => "construct for " +:+ pretty (time.Unix t)
  | EvCreate j None => "create " +:+ kbatch.Name j
  | EvCreate j (Some _) => "create " +:+ kbatch.Name j +:+ ": failed"
  end.

(** Two minutes before [newYear]. *)
Definition created : Time := newYear - 2 * Minute.

(** A suspended cron job with two jobs running. *)
Definition suspendedCronJob : batch.CronJob :=
  reportCronJob (unixTime 1609455600) AllowConcurrent (Some true) (Some 3) (Some 1).

Definition twoRunning : list kbatch.Job :=
  [child suspendedCronJob (unixTime 1609459080) (running (unixTime 1609459081));
   child suspendedCronJob (unixTime 1609459140) (running (unixTime 1609459141))].

(** A cron job that forbids, and one that replaces, concurrent runs, each
    with the run of 23:59 still going. *)
Definition forbidCronJob : batch.CronJob :=
  reportCronJob created ForbidConcurrent None None None.

Definition replaceCronJob : batch.CronJob :=
  reportCronJob created ReplaceConcurrent None None None.

Definition stillRunning (cronJob : batch.CronJob) : list kbatch.Job :=
  [child cronJob (unixTime 1609459140) (running (unixTime 1609459141))].

(** The same, with a cache that has not yet seen the running job go. *)
Definition staleWorld : World MemStore :=
  mkWorld (mkMemStore [replaceCronJob] (stillRunning replaceCronJob)
                      ["report-1609459140"] [] false false) 0 [].

(** A cron job that keeps no successful job, with the run of midnight
    succeeded. *)
Definition forgetfulCronJob : batch.CronJob :=
  reportCronJob created AllowConcurrent None (Some 0) None.

(** A cron job that keeps every job, with the run of midnight succeeded. *)
Definition keepingCronJob : batch.CronJob :=
  reportCronJob created AllowConcurrent None None None.

Definition midnightDone (cronJob : batch.CronJob) : list kbatch.Job :=
  [child cronJob (unixTime 1609459200) (succeeded (unixTime 1609459201))].

(** The worlds the reconciler is run in below. *)
Definition suspendedWorld : World MemStore := worldOf [suspendedCronJob] twoRunning.
Definition forbidWorld : World MemStore := worldOf [forbidCronJob] (stillRunning forbidCronJob).
Definition replaceWorld : World MemStore :=
  worldOf [replaceCronJob] (stillRunning replaceCronJob).
Definition forgetfulWorld : World MemStore :=
  worldOf [forgetfulCronJob] (midnightDone forgetfulCronJob).
Definition keepingWorld : World MemStore :=
  worldOf [keepingCronJob] (midnightDone keepingCronJob).

(** The status the reconciler writes back on the in-memory server. *)
Definition memObserved (cronJob : batch.CronJob) (childJobs : list kbatch.Job) : batch.CronJob :=
  observed memGetReference cronJob (memClassify childJobs).

(** The cron job the in-memory server holds for the request. *)
Definition stored (w : World MemStore) : batch.CronJob :=
  match memGet (store w) "default" "report" with
  | Ok c => c
  | Err _ => keepingCronJob
  end.

(** ** Vocabulary of the further properties *)

(** The test for a late start, made with the reading [now] of the clock. *)
Definition tooLate (cronJob : batch.CronJob) (missedRun now : Time) : bool :=
  match batch.StartingDeadlineSeconds (batch.Spec cronJob) with
  | Some d => time.Before (time.Add missedRun (time.mul d time.Second)) now
  | None => false
  end.

(** The three calls every reconcile starts with, once the status update
    has returned [err]. *)
Definition opening (req : ctrl.Request) (written : batch.CronJob) (err : option error)
  : list Event :=
  [EvGet (ctrl.Namespace req) (ctrl.Name req);
   EvList (ctrl.Namespace req) (ctrl.Name req);
   EvStatusUpdate written err].

(** An answer to a delete that the replace policy passes over: success or
    not-found. *)
Definition quiet (err : option error) : Prop := IgnoreNotFound err = None.

(** The jobs the policy stage has to delete: the active ones under the
    replace policy, none under the others. *)
Definition replaced (cronJob : batch.CronJob) (c : Classified) : list kbatch.Job :=
  if bool_decide (batch.ConcurrencyPolicy (batch.Spec cronJob) = ReplaceConcurrent)
  then activeJobs c else [].

(** The jobs a partition loses to its history limit: with a limit, those in
    front of the last [limit] of the sorted slice; with none, no job. *)
Definition toPrune
           (sortSlice : (kbatch.Job -> kbatch.Job -> bool) -> list kbatch.Job -> list kbatch.Job)
           (historyLimit : option Z) (jobs : list kbatch.Job) : list kbatch.Job :=
  match historyLimit with
  | None => []
  | Some limit =>
      take (Z.to_nat (Z.of_nat (length jobs) - limit)) (sortSlice startTimeLess jobs)
  end.

(** The limit is an [int32], and so are the length of the partition and
    their difference: the test of the pruning loop does not wrap. *)
Definition withinInt32 (historyLimit : option Z) (jobs : list kbatch.Job) : Prop :=
  match historyLimit with
  | None => True
  | Some limit =>
      - 2 ^ 31 <= limit < 2 ^ 31 /\ Z.of_nat (length jobs) < 2 ^ 31 /\
      - 2 ^ 31 <= Z.of_nat (length jobs) - limit < 2 ^ 31
  end.

(** The deletes of both prunings, the failed jobs first, with what the
    deletes returned. *)
Definition pruningOf
           (sortSlice : (kbatch.Job -> kbatch.Job -> bool) -> list kbatch.Job -> list kbatch.Job)
           (cronJob : batch.CronJob) (c : Classified) (errs1 errs2 : list (option error))
  : list Event :=
  zip_with EvDelete
    (toPrune sortSlice (batch.FailedJobsHistoryLimit (batch.Spec cronJob)) (failedJobs c)) errs1
  ++ zip_with EvDelete
       (toPrune sortSlice (batch.SuccessfulJobsHistoryLimit (batch.Spec cronJob))
                (successfulJobs c)) errs2.

(** Every child of [earlier] is among [later], under its namespace and
    name and with the scheduled time read from it unchanged; its status, and
    what else the job controller writes to it, may differ. *)
Definition stillListed (getScheduledTimeForJob : kbatch.Job -> result (option Time))
           (earlier later : list kbatch.Job) : Prop :=
  forall j1, j1 ∈ earlier ->
    exists j2, j2 ∈ later /\
      kbatch.Namespace j2 = kbatch.Namespace j1 /\ kbatch.Name j2 = kbatch.Name j1 /\
      getScheduledTimeForJob j2 = getScheduledTimeForJob j1.

(** ** More instances *)

(** A list call the server does not answer. *)
Definition failingList (s : MemStore) (namespace owner : string) : result (list kbatch.Job) :=
  Err (ErrOther "the server is currently unable to handle the request").

(** A scheme that does not know the kind of the owner. *)
Definition failingSetControllerReference (owner : batch.CronJob) (refs : list OwnerReference)
  : result (list OwnerReference) :=
  Err (ErrOther "no kind is registered for the type CronJob").

(** A server that holds nothing. *)
Definition emptyWorld : World MemStore := worldOf [] [].

(** A server that refuses status updates, and one that refuses creates. *)
Definition readOnlyWorld : World MemStore :=
  mkWorld (mkMemStore [keepingCronJob] (midnightDone keepingCronJob) [] [] true false) 0 [].

Definition noCreateWorld : World MemStore :=
  mkWorld (mkMemStore [keepingCronJob] [] [] [] false true) 0 [].

(** A cron job with no child yet. *)
Definition freshWorld : World MemStore := worldOf [keepingCronJob] [].

(** *** A schedule that never fires *)

(** The schedule of an expression no date satisfies, as [0 0 30 2 *] for
    February 30: [Next] of robfig/cron v1.2.0 finds no time within five
    years and returns the zero time. *)
Definition never : cron.Schedule := cron.mkSchedule (fun _ => time.zero).

Definition calendarParseStandard (spec : string) : result cron.Schedule :=
  if bool_decide (spec = "0 0 30 2 *") then Ok never else demoParseStandard spec.

(** A cron job for February 30 whose creation time, set by the server,
    is a minute ahead of the controller's clock at [newYear]. *)
Definition february30CronJob : batch.CronJob :=
  batch.mkCronJob "report" "default" (newYear + Minute)
    (batch.mkCronJobSpec "0 0 30 2 *" None AllowConcurrent None
       (batchv1beta1.mkJobTemplateSpec ∅ ∅ (mkJobSpec "busybox date")) None None)
    (batch.mkCronJobStatus [] None).

(** *** Children that finish *)

Definition failed (started : Time) : kbatch.JobStatus :=
  kbatch.mkJobStatus (Some started) [kbatch.mkJobCondition kbatch.JobFailed "True"].

(** The suspended cron job, which keeps one failed job, with two jobs
    running and the runs of 23:56 and 23:57 failed. *)
Definition twoRunningTwoFailed : list kbatch.Job :=
  twoRunning
  ++ [child suspendedCronJob (unixTime 1609459020) (failed (unixTime 1609459021));
      child suspendedCronJob (unixTime 1609458960) (failed (unixTime 1609458961))].

Definition suspendedBusyWorld : World MemStore :=
  worldOf [suspendedCronJob] twoRunningTwoFailed.

(** A cron job whose schedule does not parse and which keeps no failed
    job, with the runs of 23:56 and 23:57 failed. *)
Definition brokenCronJob : batch.CronJob :=
  batch.mkCronJob "report" "default" created
    (batch.mkCronJobSpec "every minute" None AllowConcurrent None
       (batchv1beta1.mkJobTemplateSpec ∅ ∅ (mkJobSpec "busybox date")) None (Some 0))
    (batch.mkCronJobStatus [] None).

Definition twoFailed : list kbatch.Job :=
  [child brokenCronJob (unixTime 1609459020) (failed (unixTime 1609459021));
   child brokenCronJob (unixTime 1609458960) (failed (unixTime 1609458961))].

Definition brokenWorld : World MemStore := worldOf [brokenCronJob] twoFailed.

(** A cron job that keeps no finished job, with the run of 23:57 failed
    and the one of midnight succeeded, on a server that refuses to delete
    the failed one. *)
Definition tidyCronJob : batch.CronJob :=
  reportCronJob created AllowConcurrent None (Some 0) (Some 0).

Definition oneFailedOneDone : list kbatch.Job :=
  [child tidyCronJob (unixTime 1609459020) (failed (unixTime 1609459021));
   child tidyCronJob (unixTime 1609459200) (succeeded (unixTime 1609459201))].

Definition stubbornWorld : World MemStore :=
  mkWorld (mkMemStore [tidyCronJob] oneFailedOneDone [] ["report-1609459020"] false false) 0 [].

(** The run of midnight going, and a minute and a half later: the run of
    midnight has succeeded and the one of 00:01 is going. *)
Definition midnightRunning (cronJob : batch.CronJob) : list kbatch.Job :=
  [child cronJob (unixTime 1609459200) (running (unixTime 1609459201))].

Definition minuteLater (cronJob : batch.CronJob) : list kbatch.Job :=
  [child cronJob (unixTime 1609459200) (succeeded (unixTime 1609459201));
   child cronJob (unixTime 1609459260) (running (unixTime 1609459261))].

Definition earlierWorld : World MemStore :=
  worldOf [keepingCronJob] (midnightRunning keepingCronJob).

Definition laterWorld : World MemStore :=
  worldOf [keepingCronJob] (minuteLater keepingCronJob).

(** * Properties *)

(** ** Machine integers and time *)

Lemma int32_small z : - 2 ^ 31 <= z < 2 ^ 31 -> int32 z = z.
Proof.
  intros H. unfold int32, wrap.
  change (2 ^ (32 - 1)) with 2147483648 in *. change (2 ^ 32) with 4294967296.
  change (2 ^ 31) with 2147483648 in H.
  rewrite Z.mod_small; lia.
Qed.

Lemma int32_loop_test i len limit :
  0 <= limit < 2 ^ 31 -> 0 <= i <= len -> len < 2 ^ 31 ->
  int32 i = i /\ int32 (int32 len - limit) = len - limit.
Proof.
  intros Hl Hi Hlen. change (2 ^ 31) with 2147483648 in *.
  assert (Hsmall : forall z, -2147483648 <= z < 2147483648 -> int32 z = z).
  { intros z Hz. apply int32_small. change (2 ^ 31) with 2147483648. lia. }
  rewrite (Hsmall i), (Hsmall len), (Hsmall (len - limit)); lia.
Qed.

Lemma After_true t u : time.After t u = true <-> u < t.
Proof. unfold time.After. apply Z.ltb_lt. Qed.

Lemma After_false t u : time.After t u = false <-> t <= u.
Proof. unfold time.After. apply Z.ltb_ge. Qed.

(** ** The schedule calculator *)

Lemma firstAfter_later occurs sched : firstAfter occurs sched -> nextIsLater sched.
Proof. intros H t. apply H. Qed.

Lemma nthNext_S sched k t : nthNext sched (S k) t = cron.Next sched (nthNext sched k t).
Proof. reflexivity. Qed.

Lemma nthNext_shift sched k t : nthNext sched (S k) t = nthNext sched k (cron.Next sched t).
Proof. unfold nthNext. induction k as [|k IH]; simpl in *; [reflexivity|]. now rewrite IH. Qed.

Lemma nthNext_mono sched k t : nextIsLater sched -> t <= nthNext sched k t.
Proof.
  intros Hlater. induction k as [|k IH]; simpl; [reflexivity|].
  specialize (Hlater (nthNext sched k t)). unfold nthNext in *. lia.
Qed.

Section LoopFacts.

Variable sched : cron.Schedule.
Variable now : Time.

(** The loop finishes within the fuel [getNextSchedule] gives it. *)
Lemma missedStarts_total fuel t lastMissed starts :
  0 <= starts <= 100 -> 101 - starts <= Z.of_nat fuel ->
  exists r, missedStarts sched now fuel t lastMissed starts = Some r.
Proof.
  revert t lastMissed starts.
  induction fuel as [|fuel IH]; intros t lastMissed starts Hs Hf; [lia|].
  simpl. destruct (time.After t now); simpl; [eauto|].
  destruct (Z.gtb_spec (starts + 1) 100); [eauto|].
  apply IH; lia.
Qed.

(** A successful exit returns [Next now] as next run, whatever [Next]
    returns. *)
Lemma missedStarts_next fuel t lastMissed starts missedRun nextRun :
  missedStarts sched now fuel t lastMissed starts = Some (missedRun, nextRun, None) ->
  nextRun = cron.Next sched now.
Proof.
  revert t lastMissed starts.
  induction fuel as [|fuel IH]; intros t lastMissed starts; simpl; [discriminate|].
  destruct (time.After t now); simpl.
  - now intros [= _ <-].
  - destruct (starts + 1 >? 100); [discriminate|]. apply IH.
Qed.

(** A successful exit returns [Next now] and, as last missed run, either
    the value the loop was entered with or a time between [t] and [now]. *)
Lemma missedStarts_ok fuel t lastMissed starts missedRun nextRun :
  nextIsLater sched ->
  missedStarts sched now fuel t lastMissed starts = Some (missedRun, nextRun, None) ->
  nextRun = cron.Next sched now /\
  (missedRun = lastMissed /\ now < t \/ t <= missedRun <= now).
Proof.
  intros Hlater. revert t lastMissed starts.
  induction fuel as [|fuel IH]; intros t lastMissed starts; simpl; [discriminate|].
  destruct (time.After t now) eqn:Ht; simpl.
  - apply After_true in Ht. intros [= <- <-]. auto.
  - apply After_false in Ht.
    destruct (Z.gtb_spec (starts + 1) 100); [discriminate|].
    intros Hrun. apply IH in Hrun as [Hnext Hmissed]. split; [exact Hnext|].
    right. specialize (Hlater t). lia.
Qed.

(** With [n] more occurrences up to [now] than the counter leaves room
    for, the loop fails. *)
Lemma missedStarts_too_many fuel t lastMissed starts :
  0 <= starts <= 100 -> 101 - starts <= Z.of_nat fuel ->
  (forall k, Z.of_nat k < 101 - starts -> nthNext sched k t <= now) ->
  missedStarts sched now fuel t lastMissed starts
  = Some (time.zero, time.zero, Some ErrTooManyMissedStarts).
Proof.
  revert t lastMissed starts.
  induction fuel as [|fuel IH]; intros t lastMissed starts Hs Hf Hocc; [lia|].
  simpl. assert (Ht : time.After t now = false).
  { apply After_false. apply (Hocc 0%nat). lia. }
  rewrite Ht. simpl.
  destruct (Z.gtb_spec (starts + 1) 100); [reflexivity|].
  apply IH; [lia..|].
  intros k Hk. rewrite <- nthNext_shift. apply Hocc. lia.
Qed.

(** An occurrence before the (k+1)-th occurrence after [e] is one of the
    first [k]. *)
Lemma occurrence_among_first occurs e k u :
  firstAfter occurs sched ->
  occurs u -> e < u -> u < nthNext sched (S k) e ->
  u ∈ map (fun j => nthNext sched j e) (seq 1 k).
Proof.
  intros Hfirst Hu Heu. induction k as [|k IH]; intros Hlt.
  - destruct (Hfirst e) as (_ & _ & Hleast). specialize (Hleast u Hu Heu).
    simpl in Hlt. lia.
  - rewrite seq_S, map_app. apply elem_of_app.
    destruct (Z.lt_ge_cases u (nthNext sched (S k) e)) as [Hbefore|Hafter].
    + left. auto.
    + right. simpl. apply list_elem_of_singleton.
      destruct (Z.eq_dec u (nthNext sched (S k) e)) as [->|Hne]; [reflexivity|].
      destruct (Hfirst (nthNext sched (S k) e)) as (_ & _ & Hleast).
      assert (nthNext sched (S k) e < u) as Hgt by lia.
      specialize (Hleast u Hu Hgt). rewrite nthNext_S in Hlt. lia.
Qed.

(** More than 100 occurrences in [(e, now]] put the first 101 occurrences
    after [e] there. *)
Lemma occurrences_fill occurs e (l : list Time) k :
  firstAfter occurs sched ->
  (100 < length l)%nat -> NoDup l ->
  Forall (fun u => occurs u /\ e < u <= now) l ->
  (k < 101)%nat -> nthNext sched (S k) e <= now.
Proof.
  intros Hfirst Hlen Hnodup Hall Hk.
  destruct (Z.le_gt_cases (nthNext sched (S k) e) now) as [Hle|Hgt]; [exact Hle|].
  exfalso.
  assert (Hsub : l ⊆ map (fun j => nthNext sched j e) (seq 1 k)).
  { intros u Hin. rewrite Forall_forall in Hall.
    destruct (Hall u Hin) as (Hu & Heu & Hun).
    eapply occurrence_among_first; eauto. lia. }
  apply NoDup_submseteq in Hsub; [|exact Hnodup].
  apply submseteq_length in Hsub.
  rewrite length_map, length_seq in Hsub. lia.
Qed.

End LoopFacts.

Lemma everyPeriod_firstAfter period :
  0 < period -> firstAfter (occursEvery period) (everyPeriod period).
Proof.
  intros Hp t. unfold occursEvery. simpl. repeat split.
  - pose proof (Z.mul_succ_div_gt t period Hp). lia.
  - apply Z.mod_mul. lia.
  - intros u Hu Htu.
    assert (u = period * (u / period)) as Hdiv by (apply Z.div_exact; lia).
    assert (t / period < u / period) by (apply Z.div_lt_upper_bound; lia).
    nia.
Qed.

Section CalculatorFacts.

Variable ParseStandard : string -> result cron.Schedule.

(** [getNextSchedule] always returns. *)
Lemma getNextSchedule_total cronJob now :
  exists r, getNextSchedule ParseStandard cronJob now = Some r.
Proof.
  unfold getNextSchedule, getNextScheduleFuel.
  destruct (ParseStandard _); [|eauto].
  destruct (time.After _ _); [eauto|].
  apply missedStarts_total; lia.
Qed.

(** C1, as amended.  When more than 100 occurrences of the schedule lie
    after the effective earliest time (the bound, raised to [now] minus the
    deadline when a deadline is configured) and not after [now], the
    calculator returns no missed run: it fails with the too-many-missed-
    starts error. *)
Theorem getNextSchedule_too_many_missed
        (occurs : Time -> Prop) cronJob now sched (l : list Time) :
  ParseStandard (batch.Schedule (batch.Spec cronJob)) = Ok sched ->
  firstAfter occurs sched ->
  (100 < length l)%nat -> NoDup l ->
  Forall (fun u => occurs u /\ earliestTime cronJob now < u <= now) l ->
  getNextSchedule ParseStandard cronJob now
  = Some (time.zero, time.zero, Some ErrTooManyMissedStarts).
Proof.
  intros Hparse Hfirst Hlen Hnodup Hall.
  unfold getNextSchedule, getNextScheduleFuel. rewrite Hparse. cbv beta iota zeta.
  assert (Hnow : time.After (earliestTime cronJob now) now = false).
  { apply After_false. destruct l as [|u l]; [simpl in Hlen; lia|].
    apply Forall_cons in Hall as [(_ & Hu) _]. lia. }
  rewrite Hnow. apply missedStarts_too_many; [lia..|].
  intros k Hk. rewrite <- nthNext_shift.
  eapply occurrences_fill; eauto. lia.
Qed.

(** C5, as amended.  A calculator that returns without error returns as
    next run what [Next] of the parsed schedule gives for [now], whether or
    not a missed run was found; the next run is therefore later than [now]
    exactly when the schedule has an occurrence after [now] to give. *)
Theorem getNextSchedule_next_after_now cronJob now sched missedRun nextRun :
  ParseStandard (batch.Schedule (batch.Spec cronJob)) = Ok sched ->
  getNextSchedule ParseStandard cronJob now = Some (missedRun, nextRun, None) ->
  nextRun = cron.Next sched now /\
  (now < nextRun <-> now < cron.Next sched now).
Proof.
  intros Hparse. unfold getNextSchedule, getNextScheduleFuel.
  rewrite Hparse. cbv beta iota zeta.
  assert (Hnext : forall n, n = cron.Next sched now ->
                            n = cron.Next sched now /\ (now < n <-> now < cron.Next sched now)).
  { intros n ->. split; reflexivity. }
  destruct (time.After _ _).
  - intros [= _ <-]. auto.
  - intros Hrun. apply missedStarts_next in Hrun. auto.
Qed.

(** C6.  For a schedule whose [Next] is later than its argument, a missed
    run returned by the calculator lies after the effective earliest time,
    which is itself not before the bound (last schedule time, else
    creation time), and not after [now]. *)
Theorem getNextSchedule_missed_after_bound cronJob now sched missedRun nextRun :
  ParseStandard (batch.Schedule (batch.Spec cronJob)) = Ok sched ->
  nextIsLater sched ->
  getNextSchedule ParseStandard cronJob now = Some (missedRun, nextRun, None) ->
  time.IsZero missedRun = false ->
  boundTime cronJob <= earliestTime cronJob now /\
  earliestTime cronJob now < missedRun <= now.
Proof.
  intros Hparse Hlater Hrun Hmissed. split.
  { unfold earliestTime. destruct (batch.StartingDeadlineSeconds _); [|lia].
    destruct (time.After _ _) eqn:Hafter; [|lia].
    apply After_true in Hafter. lia. }
  revert Hrun. unfold getNextSchedule, getNextScheduleFuel. rewrite Hparse. cbv beta iota zeta.
  destruct (time.After _ _).
  - intros [= <- _]. discriminate.
  - intros Hrun. apply missedStarts_ok in Hrun as [_ [[-> _]|Hin]]; auto.
    + discriminate.
    + specialize (Hlater (earliestTime cronJob now)). lia.
Qed.

End CalculatorFacts.

Lemma lastMinutes_in_window minutes deadline :
  100 < minutes ->
  Forall (fun u => occursEvery Minute u /\
                   boundTime (cronJobBehind minutes deadline) < u <= newYear) lastMinutes.
Proof.
  intros Hm. unfold boundTime. simpl.
  assert (Hall : Forall (fun u => occursEvery Minute u /\ newYear - 101 * Minute < u <= newYear)
                        lastMinutes).
  { unfold occursEvery. apply (bool_decide_unpack _). vm_compute. exact I. }
  eapply Forall_impl; [exact Hall|]. simpl. intros u (Hocc & Hlo & Hhi).
  split; [exact Hocc|]. unfold Minute, time.Second in *. lia.
Qed.

Lemma lastMinutes_NoDup : NoDup lastMinutes.
Proof. apply (bool_decide_unpack _). vm_compute. exact I. Qed.

(** C1 on a cron job 500 periods behind with no deadline: the error. *)
Lemma getNextSchedule_too_many_missed_witness :
  memGetNextSchedule (cronJobBehind 500 None) newYear
  = Some (time.zero, time.zero, Some ErrTooManyMissedStarts).
Proof.
  apply (getNextSchedule_too_many_missed demoParseStandard (occursEvery Minute)
           (cronJobBehind 500 None) newYear (everyPeriod Minute) lastMinutes).
  - reflexivity.
  - apply everyPeriod_firstAfter. reflexivity.
  - vm_compute. lia.
  - apply lastMinutes_NoDup.
  - apply (lastMinutes_in_window 500 None). lia.
Defined.

(** C1, as stated, fails once a deadline is configured: the same cron job,
    500 periods behind, with a starting deadline of 90 seconds.  Its
    schedule fires at every whole minute, more than 100 occurrences lie
    between its bound and [now], and the calculator returns the last whole
    minute as missed run. *)
Lemma getNextSchedule_deadline_hides_backlog :
  demoParseStandard (batch.Schedule (batch.Spec (cronJobBehind 500 (Some 90))))
  = Ok (everyPeriod Minute) /\
  firstAfter (occursEvery Minute) (everyPeriod Minute) /\
  (100 < length lastMinutes)%nat /\ NoDup lastMinutes /\
  Forall (fun u => occursEvery Minute u /\
                   boundTime (cronJobBehind 500 (Some 90)) < u <= newYear) lastMinutes /\
  memGetNextSchedule (cronJobBehind 500 (Some 90)) newYear
  = Some (unixTime 1609459200, unixTime 1609459260, None).
Proof.
  split; [reflexivity|]. split; [apply everyPeriod_firstAfter; reflexivity|].
  split; [vm_compute; lia|]. split; [apply lastMinutes_NoDup|].
  split; [apply lastMinutes_in_window; lia|]. vm_compute. reflexivity.
Qed.

(** A minutely schedule, a bound two minutes back and no deadline: the
    missed run is the last whole minute, the next run the minute after. *)
Example getNextSchedule_minutely :
  memGetNextSchedule (cronJobBehind 2 None) newYear
  = Some (unixTime 1609459200, unixTime 1609459260, None).
Proof. vm_compute. reflexivity. Qed.

Lemma getNextSchedule_next_after_now_witness :
  unixTime 1609459260 = cron.Next (everyPeriod Minute) newYear /\
  (newYear < unixTime 1609459260 <-> newYear < cron.Next (everyPeriod Minute) newYear).
Proof.
  apply (getNextSchedule_next_after_now demoParseStandard (cronJobBehind 2 None) newYear
           (everyPeriod Minute) (unixTime 1609459200) (unixTime 1609459260)).
  - reflexivity.
  - vm_compute. reflexivity.
Defined.

(** C5, as stated, fails for an expression no date satisfies.  The
    expression [0 0 30 2 *] is valid and parses, and [Next] of its schedule
    returns the zero time.  With the cron job's creation time ahead of the
    controller's clock the calculator leaves before its loop, and returns
    without error the zero time as next run, which is not later than
    [now]. *)
Lemma getNextSchedule_next_zero_on_february30 :
  calendarParseStandard (batch.Schedule (batch.Spec february30CronJob)) = Ok never /\
  getNextSchedule calendarParseStandard february30CronJob newYear
  = Some (time.zero, time.zero, None) /\
  ~ newYear < time.zero.
Proof. split_and!; [reflexivity|vm_compute; reflexivity|vm_compute; discriminate]. Qed.

Lemma getNextSchedule_missed_after_bound_witness :
  boundTime (cronJobBehind 2 None) <= earliestTime (cronJobBehind 2 None) newYear /\
  earliestTime (cronJobBehind 2 None) newYear < unixTime 1609459200 <= newYear.
Proof.
  apply (getNextSchedule_missed_after_bound demoParseStandard (cronJobBehind 2 None) newYear
           (everyPeriod Minute) (unixTime 1609459200) (unixTime 1609459260)).
  - reflexivity.
  - apply (firstAfter_later (occursEvery Minute)). apply everyPeriod_firstAfter. reflexivity.
  - vm_compute. reflexivity.
  - reflexivity.
Defined.

(** ** The job constructor *)

Lemma copyInto_union (src dst : gmap string string) : copyInto src dst = src ∪ dst.
Proof.
  unfold copyInto.
  apply (map_fold_weak_ind (fun r m => r = m ∪ dst)).
  - now rewrite (left_id_L ∅ (∪)).
  - intros k v m r _ ->. now rewrite insert_union_l.
Qed.

Lemma copyInto_empty (src : gmap string string) : copyInto src ∅ = src.
Proof. rewrite copyInto_union. apply (right_id_L ∅ (∪)). Qed.

Lemma wholeSecond_Unix t1 t2 :
  wholeSecond t1 -> wholeSecond t2 -> time.Unix t1 = time.Unix t2 -> t1 = t2.
Proof.
  unfold wholeSecond, time.Unix, time.Second. intros H1 H2 Heq.
  apply Z.div_exact in H1; [|lia]. apply Z.div_exact in H2; [|lia]. lia.
Qed.

Section ConstructorFacts.

Variable FormatRFC3339 : Time -> string.
Variable SetControllerReference :
  batch.CronJob -> list OwnerReference -> result (list OwnerReference).

Local Abbreviation construct := (constructJobForCronJob FormatRFC3339 SetControllerReference).

Lemma constructJob_inv cronJob scheduledTime job :
  construct cronJob scheduledTime = Ok job ->
  kbatch.Name job = batch.Name cronJob +:+ "-" +:+ pretty (time.Unix scheduledTime) /\
  kbatch.Namespace job = batch.Namespace cronJob /\
  kbatch.Annotations job
  = <[scheduledTimeAnnotation := FormatRFC3339 scheduledTime]>
      (batchv1beta1.Annotations (batch.JobTemplate (batch.Spec cronJob))) /\
  kbatch.Labels job = batchv1beta1.Labels (batch.JobTemplate (batch.Spec cronJob)).
Proof.
  unfold constructJobForCronJob. destruct (SetControllerReference _ _); [|discriminate].
  intros [= <-]. simpl. now rewrite !copyInto_empty.
Qed.

(** C4.  Two constructions for parents of the same name and namespace give
    children of the same name and namespace when the scheduled times are
    the same; the name is the parent's name, a dash and the scheduled time
    in Unix seconds; and for the same parent name, scheduled times in
    different seconds, hence different scheduled times on whole seconds,
    as the occurrences of a cron schedule are, give different names. *)
Theorem constructJob_identity cronJob1 cronJob2 t1 t2 job1 job2 :
  construct cronJob1 t1 = Ok job1 ->
  construct cronJob2 t2 = Ok job2 ->
  batch.Name cronJob1 = batch.Name cronJob2 ->
  batch.Namespace cronJob1 = batch.Namespace cronJob2 ->
  kbatch.Name job1 = batch.Name cronJob1 +:+ "-" +:+ pretty (time.Unix t1) /\
  (t1 = t2 ->
   kbatch.Name job1 = kbatch.Name job2 /\ kbatch.Namespace job1 = kbatch.Namespace job2) /\
  (time.Unix t1 <> time.Unix t2 -> kbatch.Name job1 <> kbatch.Name job2) /\
  (wholeSecond t1 -> wholeSecond t2 -> t1 <> t2 -> kbatch.Name job1 <> kbatch.Name job2).
Proof.
  intros H1 H2 Hname Hns.
  apply constructJob_inv in H1 as (Hn1 & Hs1 & _).
  apply constructJob_inv in H2 as (Hn2 & Hs2 & _).
  assert (Hdiff : time.Unix t1 <> time.Unix t2 -> kbatch.Name job1 <> kbatch.Name job2).
  { intros Hne Heq. apply Hne. rewrite Hn1, Hn2, Hname in Heq.
    apply (inj (String.append _)) in Heq. apply (inj (String.append _)) in Heq.
    now apply (inj pretty) in Heq. }
  repeat split.
  - exact Hn1.
  - rewrite Hn1, Hn2. congruence.
  - congruence.
  - exact Hdiff.
  - intros Hw1 Hw2 Hne. apply Hdiff. intros Heq. apply Hne.
    now apply wholeSecond_Unix.
Qed.

(** C10.  Whatever annotations the job template carries, also one under the
    scheduled-time key, the constructed job has the RFC 3339 rendering of
    the scheduled time under that key, and the template's value under every
    other key. *)
Theorem constructJob_stamps_scheduled_time cronJob scheduledTime job :
  construct cronJob scheduledTime = Ok job ->
  kbatch.Annotations job !! scheduledTimeAnnotation = Some (FormatRFC3339 scheduledTime) /\
  forall k, k <> scheduledTimeAnnotation ->
    kbatch.Annotations job !! k
    = batchv1beta1.Annotations (batch.JobTemplate (batch.Spec cronJob)) !! k.
Proof.
  intros H. apply constructJob_inv in H as (_ & _ & -> & _). split.
  - apply lookup_insert_eq.
  - intros k Hk. now apply lookup_insert_ne.
Qed.

End ConstructorFacts.

Lemma constructJob_identity_witness :
  kbatch.Name (builtJob cronJobStamped (unixTime 1609459200))
  = "report" +:+ "-" +:+ pretty (time.Unix (unixTime 1609459200)) /\
  (unixTime 1609459200 = unixTime 1609459260 ->
   kbatch.Name (builtJob cronJobStamped (unixTime 1609459200))
   = kbatch.Name (builtJob cronJobStamped (unixTime 1609459260)) /\
   kbatch.Namespace (builtJob cronJobStamped (unixTime 1609459200))
   = kbatch.Namespace (builtJob cronJobStamped (unixTime 1609459260))) /\
  (time.Unix (unixTime 1609459200) <> time.Unix (unixTime 1609459260) ->
   kbatch.Name (builtJob cronJobStamped (unixTime 1609459200))
   <> kbatch.Name (builtJob cronJobStamped (unixTime 1609459260))) /\
  (wholeSecond (unixTime 1609459200) -> wholeSecond (unixTime 1609459260) ->
   unixTime 1609459200 <> unixTime 1609459260 ->
   kbatch.Name (builtJob cronJobStamped (unixTime 1609459200))
   <> kbatch.Name (builtJob cronJobStamped (unixTime 1609459260))).
Proof.
  apply (constructJob_identity utcFormatRFC3339 memSetControllerReference
           cronJobStamped cronJobStamped); reflexivity.
Defined.

Lemma constructJob_stamps_scheduled_time_witness :
  kbatch.Annotations (builtJob cronJobStamped (unixTime 1609459200)) !! scheduledTimeAnnotation
  = Some (utcFormatRFC3339 (unixTime 1609459200)) /\
  forall k, k <> scheduledTimeAnnotation ->
    kbatch.Annotations (builtJob cronJobStamped (unixTime 1609459200)) !! k
    = batchv1beta1.Annotations (batch.JobTemplate (batch.Spec cronJobStamped)) !! k.
Proof.
  apply (constructJob_stamps_scheduled_time utcFormatRFC3339 memSetControllerReference
           cronJobStamped (unixTime 1609459200)).
  reflexivity.
Defined.

Example builtJob_name :
  kbatch.Name (builtJob cronJobStamped (unixTime 1609459200)) = "report-1609459200".
Proof. vm_compute. reflexivity. Qed.

Example builtJob_annotations :
  kbatch.Annotations (builtJob cronJobStamped (unixTime 1609459200))
  = {[ scheduledTimeAnnotation := "2021-01-01T00:00:00Z"; "team" := "reports" ]}.
Proof. vm_compute. reflexivity. Qed.

(** ** The lifecycle classifier *)

Section ClassifierFacts.

Variable isJobFinished : kbatch.Job -> bool * kbatch.JobConditionType.
Variable getScheduledTimeForJob : kbatch.Job -> result (option Time).

Local Abbreviation scheduledTimeOf := getScheduledTimeForJob.
Local Abbreviation classifyJob' := (classifyJob isJobFinished getScheduledTimeForJob).
Local Abbreviation classify' := (classify isJobFinished getScheduledTimeForJob).
Local Abbreviation later := (laterOf getScheduledTimeForJob).
Local Abbreviation finishedType := (finishedType isJobFinished).

Lemma classifyJob_active acc job :
  activeJobs (classifyJob' acc job)
  = activeJobs acc ++ (if bool_decide (finishedType job = "") then [job] else []).
Proof.
  unfold classifyJob, finishedType. destruct (isJobFinished job) as [fin ty]. simpl.
  destruct (scheduledTimeOf job) as [[t|]|];
    repeat case_bool_decide; simpl; rewrite ?app_nil_r; congruence.
Qed.

Lemma classifyJob_failed acc job :
  failedJobs (classifyJob' acc job)
  = failedJobs acc ++ (if bool_decide (finishedType job = kbatch.JobFailed) then [job] else []).
Proof.
  unfold classifyJob, finishedType. destruct (isJobFinished job) as [fin ty]. simpl.
  destruct (scheduledTimeOf job) as [[t|]|];
    repeat case_bool_decide; simpl; rewrite ?app_nil_r; try congruence;
    subst; discriminate.
Qed.

Lemma classifyJob_successful acc job :
  successfulJobs (classifyJob' acc job)
  = successfulJobs acc
    ++ (if bool_decide (finishedType job = kbatch.JobComplete) then [job] else []).
Proof.
  unfold classifyJob, finishedType. destruct (isJobFinished job) as [fin ty]. simpl.
  destruct (scheduledTimeOf job) as [[t|]|];
    repeat case_bool_decide; simpl; rewrite ?app_nil_r; try congruence;
    subst; discriminate.
Qed.

Lemma classifyJob_mostRecent acc job :
  mostRecentTime (classifyJob' acc job) = later (mostRecentTime acc) job.
Proof.
  unfold classifyJob, laterOf. destruct (isJobFinished job) as [fin ty].
  destruct (scheduledTimeOf job) as [[t|]|];
    repeat case_bool_decide; simpl; try reflexivity;
    destruct (mostRecentTime acc); try reflexivity.
Qed.

Lemma classify_fold jobs acc :
  let c := fold_left classifyJob' jobs acc in
  activeJobs c
  = activeJobs acc ++ List.filter (fun j => bool_decide (finishedType j = "")) jobs /\
  failedJobs c
  = failedJobs acc ++ List.filter (fun j => bool_decide (finishedType j = kbatch.JobFailed)) jobs /\
  successfulJobs c
  = successfulJobs acc
    ++ List.filter (fun j => bool_decide (finishedType j = kbatch.JobComplete)) jobs /\
  mostRecentTime c = fold_left later jobs (mostRecentTime acc).
Proof.
  revert acc. induction jobs as [|job jobs IH]; intros acc; simpl.
  - now rewrite !app_nil_r.
  - destruct (IH (classifyJob' acc job)) as (Ha & Hf & Hs & Hm).
    rewrite Ha, Hf, Hs, Hm.
    rewrite classifyJob_active, classifyJob_failed, classifyJob_successful,
      classifyJob_mostRecent.
    repeat split; rewrite <- app_assoc; f_equal; now destruct (bool_decide _).
Qed.

(** The three partitions are the children by finished type, in the order
    they were listed. *)
Lemma classify_partitions jobs :
  activeJobs (classify' jobs)
  = List.filter (fun j => bool_decide (finishedType j = "")) jobs /\
  failedJobs (classify' jobs)
  = List.filter (fun j => bool_decide (finishedType j = kbatch.JobFailed)) jobs /\
  successfulJobs (classify' jobs)
  = List.filter (fun j => bool_decide (finishedType j = kbatch.JobComplete)) jobs /\
  mostRecentTime (classify' jobs) = fold_left later jobs None.
Proof. apply (classify_fold jobs (mkClassified [] [] [] None)). Qed.

Lemma finished_not_active jobs job :
  job ∈ failedJobs (classify' jobs) ++ successfulJobs (classify' jobs) ->
  job ∉ activeJobs (classify' jobs).
Proof.
  destruct (classify_partitions jobs) as (-> & -> & -> & _).
  rewrite elem_of_app, !list_elem_of_In, !filter_In.
  intros [[_ H]|[_ H]] [_ Ha]; apply bool_decide_eq_true in H, Ha;
    rewrite Ha in H; discriminate.
Qed.

Lemma later_notLater m job : notLater m (later m job).
Proof.
  unfold laterOf. destruct (scheduledTimeOf job) as [[t|]|], m as [m|]; simpl; try lia.
  unfold time.Before. destruct (Z.ltb_spec m t); simpl; lia.
Qed.

Lemma notLater_trans a b c : notLater a b -> notLater b c -> notLater a c.
Proof. destruct a, b, c; simpl; try tauto; lia. Qed.

Lemma later_fold_notLater jobs m : notLater m (fold_left later jobs m).
Proof.
  revert m. induction jobs as [|job jobs IH]; intros m; simpl.
  - destruct m; simpl; lia.
  - eapply notLater_trans; [apply later_notLater | apply IH].
Qed.

(** The most recent time is not earlier than any scheduled time read back
    from a child. *)
Lemma later_fold_upper jobs m job t :
  job ∈ jobs -> scheduledTimeOf job = Ok (Some t) ->
  notLater (Some t) (fold_left later jobs m).
Proof.
  revert m. induction jobs as [|j jobs IH]; intros m Hin Ht.
  - inversion Hin.
  - cbn [fold_left]. apply elem_of_cons in Hin as [->|Hin]; [|now apply IH].
    eapply notLater_trans; [|apply later_fold_notLater].
    unfold laterOf. rewrite Ht. destruct m as [m|]; simpl; [|lia].
    unfold time.Before. destruct (Z.ltb_spec m t); simpl; lia.
Qed.

(** The most recent time is the one the loop started from or one read back
    from a child. *)
Lemma later_fold_attained jobs m r :
  fold_left later jobs m = Some r ->
  m = Some r \/ exists job, job ∈ jobs /\ scheduledTimeOf job = Ok (Some r).
Proof.
  revert m. induction jobs as [|j jobs IH]; intros m; simpl; [auto|].
  intros Hr. apply IH in Hr as [Hr|(job & Hin & Ht)].
  - unfold laterOf in Hr. destruct (scheduledTimeOf j) as [[t|]|] eqn:Hj; auto.
    destruct m as [m|].
    + destruct (time.Before m t); [|auto].
      injection Hr as ->. right. exists j. split; [left|exact Hj].
    + injection Hr as ->. right. exists j. split; [left|exact Hj].
  - right. exists job. split; [now right|exact Ht].
Qed.

(** The most recent time does not go back, and does not become unset,
    from one listing to another that still lists every child of the first
    with its scheduled time. *)
Lemma mostRecentTime_stillListed jobs1 jobs2 :
  stillListed getScheduledTimeForJob jobs1 jobs2 ->
  notLater (mostRecentTime (classify' jobs1)) (mostRecentTime (classify' jobs2)).
Proof.
  intros Hstill.
  destruct (classify_partitions jobs1) as (_ & _ & _ & ->).
  destruct (classify_partitions jobs2) as (_ & _ & _ & ->).
  destruct (fold_left later jobs1 None) as [r|] eqn:Hr; [|exact I].
  apply later_fold_attained in Hr as [Hr|(job & Hin & Ht)]; [discriminate|].
  destruct (Hstill job Hin) as (job2 & Hin2 & _ & _ & Hsame).
  eapply later_fold_upper; [exact Hin2|]. now rewrite Hsame.
Qed.

End ClassifierFacts.

(** ** The history pruner *)

Lemma startTimeLess_nil_first a b :
  startTimeLess a b = false -> kbatch.StartTime (kbatch.Status a) = None ->
  kbatch.StartTime (kbatch.Status b) = None.
Proof.
  unfold startTimeLess. intros H Ha. rewrite Ha in H.
  apply bool_decide_eq_false in H. destruct (kbatch.StartTime _); [|reflexivity].
  exfalso. apply H. discriminate.
Qed.

Lemma startTimeLess_not_before a b ta tb :
  startTimeLess a b = false ->
  kbatch.StartTime (kbatch.Status a) = Some ta ->
  kbatch.StartTime (kbatch.Status b) = Some tb -> tb <= ta.
Proof.
  unfold startTimeLess, time.Before. intros H Ha Hb. rewrite Ha, Hb in H.
  now apply Z.ltb_ge in H.
Qed.

Lemma StronglySorted_weaken {A} (R R' : A -> A -> Prop) l :
  (forall a b, R a b -> R' a b) -> StronglySorted R l -> StronglySorted R' l.
Proof.
  intros Himp. induction 1 as [|a l Hl IH Hall]; constructor; [exact IH|].
  eapply Forall_impl; [exact Hall|]. apply Himp.
Qed.

Lemma mergeSortSlice_sorts : sortsByStartTime mergeSortSlice.
Proof.
  intros l. unfold mergeSortSlice. split; [apply merge_sort_Permutation|].
  assert (Hconv : forall a b, Is_true (negb (startTimeLess b a)) <-> startTimeLess b a = false).
  { intros a b. destruct (startTimeLess b a); simpl; intuition congruence. }
  assert (Hsorted : StronglySorted (fun a b => Is_true (negb (startTimeLess b a)))
                      (merge_sort (fun a b => Is_true (negb (startTimeLess b a))) l)).
  { apply StronglySorted_merge_sort.
    - intros a b c. rewrite !Hconv. unfold startTimeLess, time.Before.
      destruct (kbatch.StartTime (kbatch.Status a)), (kbatch.StartTime (kbatch.Status b)),
        (kbatch.StartTime (kbatch.Status c)); simpl;
        rewrite ?Z.ltb_ge; intros; try lia; congruence.
    - intros a b. rewrite !Hconv. unfold startTimeLess, time.Before.
      destruct (kbatch.StartTime (kbatch.Status a)), (kbatch.StartTime (kbatch.Status b));
        simpl; rewrite ?Z.ltb_ge; try lia; auto. }
  eapply StronglySorted_weaken; [|exact Hsorted]. intros a b. apply Hconv.
Qed.

Section PrunerFacts.

Variable Store : Type.
Variable Delete : Store -> kbatch.Job -> Store * option error.
Variable sortSlice : (kbatch.Job -> kbatch.Job -> bool) -> list kbatch.Job -> list kbatch.Job.

Local Abbreviation deleteOld := (deleteOldJobs Store Delete).
Local Abbreviation prune := (pruneHistory Store Delete sortSlice).

(** The loop deletes a prefix of the slice and carries on, whatever the
    deletes return; within the range of [int32] the prefix stops [limit]
    short of the end. *)
Lemma deleteOldJobs_run limit len i jobs (w : World Store) :
  exists n errs w',
    deleteOld limit len i jobs w = (Continue tt, w') /\
    ticks w' = ticks w /\
    trace w' = trace w ++ zip_with EvDelete (take n jobs) errs /\
    length errs = n /\ (n <= length jobs)%nat /\
    (0 <= limit < 2 ^ 31 -> 0 <= i -> i + Z.of_nat (length jobs) = len -> len < 2 ^ 31 ->
     n = Z.to_nat (len - limit - i)).
Proof.
  revert i w. induction jobs as [|job rest IH]; intros i w.
  - exists 0%nat, [], w. simpl. rewrite app_nil_r. repeat split; lia.
  - simpl. destruct (Z.geb_spec (int32 i) (int32 (int32 len - limit))) as [Hbreak|Hgo].
    + exists 0%nat, [], w. simpl. rewrite app_nil_r. repeat split; try lia.
      all: intros Hl Hi Hlen Hsmall;
        destruct (int32_loop_test i len limit) as [Ei El]; [lia..|];
        rewrite Ei, El in Hbreak; simpl in Hlen; lia.
    + unfold bind, callDelete.
      destruct (Delete (store w) job) as [s err] eqn:Hdel.
      destruct (IH (i + 1) (mkWorld s (ticks w) (trace w ++ [EvDelete job err])))
        as (n & errs & w' & Hrun & Hticks & Htrace & Herrs & Hn & Hexact).
      exists (S n), (err :: errs), w'. rewrite Hrun. simpl in *.
      rewrite Htrace, <- app_assoc. repeat split; try lia.
      all: intros Hl Hi Hlen Hsmall; rewrite Hexact by lia;
        destruct (int32_loop_test i len limit) as [Ei El]; [lia..|];
        rewrite Ei, El in Hgo; lia.
Qed.

Lemma zip_with_EvDelete_deletesOf jobs errs : deletesOf jobs (zip_with EvDelete jobs errs).
Proof.
  unfold deletesOf. revert errs. induction jobs as [|job jobs IH]; intros [|err errs]; simpl;
    try constructor.
  - left.
  - eapply Forall_impl; [apply IH|]. intros [] ; simpl; auto. now right.
Qed.

Lemma deletesOf_incl jobs1 jobs2 evs :
  jobs1 ⊆ jobs2 -> deletesOf jobs1 evs -> deletesOf jobs2 evs.
Proof.
  intros Hsub H. unfold deletesOf in *. eapply Forall_impl; [exact H|].
  intros [] ; auto.
Qed.

Lemma deletesOf_createsNothing jobs evs : deletesOf jobs evs -> createsNothing evs.
Proof.
  intros H. unfold deletesOf, createsNothing in *. eapply Forall_impl; [exact H|].
  intros []; simpl; tauto.
Qed.

(** Pruning never ends the reconcile and never reads the clock; it only
    deletes jobs of the sorted partition. *)
Lemma pruneHistory_run historyLimit jobs (w : World Store) :
  exists evs w',
    prune historyLimit jobs w = (Continue tt, w') /\
    ticks w' = ticks w /\ trace w' = trace w ++ evs /\
    deletesOf (sortSlice startTimeLess jobs) evs.
Proof.
  unfold pruneHistory. destruct historyLimit as [limit|].
  - destruct (deleteOldJobs_run limit (Z.of_nat (length (sortSlice startTimeLess jobs))) 0
                (sortSlice startTimeLess jobs) w)
      as (n & errs & w' & Hrun & Hticks & Htrace & _).
    exists (zip_with EvDelete (take n (sortSlice startTimeLess jobs)) errs), w'.
    split_and!; auto.
    eapply deletesOf_incl; [|apply zip_with_EvDelete_deletesOf].
    apply subseteq_take.
  - exists [], w. rewrite app_nil_r. split_and!; auto. constructor.
Qed.

(** Both prunings in a row. *)
Lemma pruneHistories_run cronJob c (w : World Store) :
  exists evs w',
    pruneHistories Store Delete sortSlice cronJob c w = (Continue tt, w') /\
    ticks w' = ticks w /\ trace w' = trace w ++ evs /\
    deletesOf (sortSlice startTimeLess (failedJobs c)
               ++ sortSlice startTimeLess (successfulJobs c)) evs.
Proof.
  unfold pruneHistories, bind.
  destruct (pruneHistory_run (batch.FailedJobsHistoryLimit (batch.Spec cronJob))
              (failedJobs c) w) as (evs1 & w1 & -> & Hticks1 & Htrace1 & Hdel1).
  destruct (pruneHistory_run (batch.SuccessfulJobsHistoryLimit (batch.Spec cronJob))
              (successfulJobs c) w1) as (evs2 & w2 & -> & Hticks2 & Htrace2 & Hdel2).
  exists (evs1 ++ evs2), w2. split_and!; [reflexivity|congruence| |].
  - rewrite Htrace2, Htrace1. now rewrite app_assoc.
  - apply Forall_app. split.
    + eapply deletesOf_incl; [|exact Hdel1]. intros x Hx. apply elem_of_app. now left.
    + eapply deletesOf_incl; [|exact Hdel2]. intros x Hx. apply elem_of_app. now right.
Qed.

(** C3.  With [N] finished jobs in a partition and a retention limit [L],
    [0 <= L < N], one pruning pass issues a delete for exactly [N - L] jobs
    and goes on, whatever the deletes return.  The [L] jobs it retains are
    the most recent by start time: no retained job started before a deleted
    one, and when a retained job lacks a start time so does every deleted
    one. *)
Theorem pruneHistory_deletes_oldest limit jobs (w : World Store) :
  sortsByStartTime sortSlice ->
  0 <= limit < Z.of_nat (length jobs) ->
  Z.of_nat (length jobs) < 2 ^ 31 ->
  exists deleted retained errs w',
    prune (Some limit) jobs w = (Continue tt, w') /\
    trace w' = trace w ++ zip_with EvDelete deleted errs /\
    length errs = length deleted /\
    deleted ++ retained ≡ₚ jobs /\
    Z.of_nat (length deleted) = Z.of_nat (length jobs) - limit /\
    Z.of_nat (length retained) = limit /\
    (forall d r, d ∈ deleted -> r ∈ retained ->
       (kbatch.StartTime (kbatch.Status r) = None ->
        kbatch.StartTime (kbatch.Status d) = None) /\
       (forall td tr, kbatch.StartTime (kbatch.Status d) = Some td ->
                      kbatch.StartTime (kbatch.Status r) = Some tr -> td <= tr)).
Proof.
  intros Hsort Hlimit Hsmall.
  destruct (Hsort jobs) as [Hperm Hsorted].
  set (sorted := sortSlice startTimeLess jobs) in *.
  assert (Hlen : length sorted = length jobs) by now rewrite Hperm.
  unfold pruneHistory. fold sorted.
  destruct (deleteOldJobs_run limit (Z.of_nat (length sorted)) 0 sorted w)
    as (n & errs & w' & Hrun & _ & Htrace & Herrs & Hn & Hexact).
  specialize (Hexact ltac:(lia) ltac:(lia) ltac:(lia) ltac:(lia)).
  exists (take n sorted), (drop n sorted), errs, w'.
  rewrite take_drop, length_take, length_drop.
  repeat split; auto; try lia.
  - intros Hr. eapply startTimeLess_nil_first; [|exact Hr].
    rewrite <- (take_drop n sorted) in Hsorted.
    apply (StronglySorted_app_1_elem_of _ _ _ d r Hsorted); assumption.
  - intros td tr Hd Hr.
    eapply (startTimeLess_not_before r d); eauto.
    rewrite <- (take_drop n sorted) in Hsorted.
    apply (StronglySorted_app_1_elem_of _ _ _ d r Hsorted); assumption.
Qed.

End PrunerFacts.

(** ** The reconciler *)

Lemma quietDeletesOf_deletesOf jobs evs : quietDeletesOf jobs evs -> deletesOf jobs evs.
Proof.
  intros H. unfold quietDeletesOf, deletesOf in *. eapply Forall_impl; [exact H|].
  intros []; tauto.
Qed.

Lemma quietDeletesOf_incl jobs1 jobs2 evs :
  jobs1 ⊆ jobs2 -> quietDeletesOf jobs1 evs -> quietDeletesOf jobs2 evs.
Proof.
  intros Hsub H. unfold quietDeletesOf in *. eapply Forall_impl; [exact H|].
  intros []; try tauto. intros [Hin Herr]. auto.
Qed.

Lemma IgnoreNotFound_Some err e :
  IgnoreNotFound err = Some e -> err = Some e /\ e <> ErrNotFound.
Proof. destruct err as [[]|]; simpl; intros [= <-]; split; congruence. Qed.

Lemma createsNothing_app evs1 evs2 :
  createsNothing evs1 -> createsNothing evs2 -> createsNothing (evs1 ++ evs2).
Proof. intros H1 H2. apply Forall_app. now split. Qed.

Lemma activeReferences_length GetReference jobs :
  (forall j, j ∈ jobs -> exists r, GetReference j = Ok r) ->
  length (activeReferences GetReference jobs) = length jobs.
Proof.
  induction jobs as [|job jobs IH]; intros Hall; simpl; [reflexivity|].
  destruct (Hall job) as [r ->]; [left|]. simpl. f_equal. apply IH.
  intros j Hj. apply Hall. now right.
Qed.

Section ReconcileFacts.

Variable Store : Type.
Variable Get : Store -> string -> string -> result batch.CronJob.
Variable List : Store -> string -> string -> result (list kbatch.Job).
Variable StatusUpdate : Store -> batch.CronJob -> Store * option error.
Variable Delete : Store -> kbatch.Job -> Store * option error.
Variable Create : Store -> kbatch.Job -> Store * option error.
Variable Now : nat -> Time.
Variable ParseStandard : string -> result cron.Schedule.
Variable FormatRFC3339 : Time -> string.
Variable isJobFinished : kbatch.Job -> bool * kbatch.JobConditionType.
Variable getScheduledTimeForJob : kbatch.Job -> result (option Time).
Variable sortSlice : (kbatch.Job -> kbatch.Job -> bool) -> list kbatch.Job -> list kbatch.Job.
Variable GetReference : kbatch.Job -> result ObjectReference.
Variable SetControllerReference :
  batch.CronJob -> list OwnerReference -> result (list OwnerReference).

Local Abbreviation reconcile :=
  (Reconcile Store Get List StatusUpdate Delete Create Now ParseStandard FormatRFC3339
             isJobFinished getScheduledTimeForJob sortSlice GetReference
             SetControllerReference).
Local Abbreviation body :=
  (reconcileBody Store Get List StatusUpdate Delete Create Now ParseStandard FormatRFC3339
                 isJobFinished getScheduledTimeForJob sortSlice GetReference
                 SetControllerReference).
Local Abbreviation schedule :=
  (scheduleRun Store Delete Create Now ParseStandard FormatRFC3339 SetControllerReference).
Local Abbreviation create :=
  (createRun Store Delete Create FormatRFC3339 SetControllerReference).
Local Abbreviation prunes := (pruneHistories Store Delete sortSlice).
Local Abbreviation classify' := (classify isJobFinished getScheduledTimeForJob).
Local Abbreviation observed' := (observed GetReference).
Local Abbreviation finishedType := (finishedType isJobFinished).
Local Abbreviation nextSchedule := (getNextSchedule ParseStandard).

(** *** The replace policy *)

Lemma deleteActiveJobs_run jobs (w : World Store) :
  exists evs w',
    ticks w' = ticks w /\ trace w' = trace w ++ evs /\
    ((deleteActiveJobs Store Delete jobs w = (Continue tt, w') /\
      quietDeletesOf jobs evs /\
      forall j, j ∈ jobs -> exists err, EvDelete j err ∈ evs /\ IgnoreNotFound err = None)
     \/
     (exists evs0 j e,
        deleteActiveJobs Store Delete jobs w = (Return (ctrl.empty, Some e), w') /\
        evs = evs0 ++ [EvDelete j (Some e)] /\ quietDeletesOf jobs evs0 /\
        j ∈ jobs /\ e <> ErrNotFound)).
Proof.
  revert w. induction jobs as [|job rest IH]; intros w.
  - exists [], w. rewrite app_nil_r. split_and!; [reflexivity..|].
    left. split_and!; [reflexivity|constructor|].
    intros j Hj. inversion Hj.
  - simpl. unfold bind, callDelete.
    destruct (Delete (store w) job) as [s err] eqn:Hdel.
    destruct (IgnoreNotFound err) as [e|] eqn:Hignore.
    + apply IgnoreNotFound_Some in Hignore as [-> Hne].
      exists [EvDelete job (Some e)],
        (mkWorld s (ticks w) (trace w ++ [EvDelete job (Some e)])).
      simpl. split_and!; [reflexivity..|].
      right. exists [], job, e. split_and!; auto; [constructor|left].
    + destruct (IH (mkWorld s (ticks w) (trace w ++ [EvDelete job err])))
        as (evs & w' & Hticks & Htrace & Hcases).
      assert (Hhead : quietDeletesOf (job :: rest) [EvDelete job err]).
      { constructor; [split; [left|exact Hignore]|constructor]. }
      assert (Hweaken : forall l, quietDeletesOf rest l -> quietDeletesOf (job :: rest) l).
      { intros l. apply quietDeletesOf_incl. intros x Hx. now right. }
      exists (EvDelete job err :: evs), w'. simpl in *.
      rewrite Htrace, <- app_assoc. split_and!; [assumption|reflexivity|].
      destruct Hcases as [(Hrun & Hquiet & Hall)|(evs0 & j & e & Hrun & -> & Hquiet & Hj & Hne)].
      * left. rewrite Hrun. split_and!; [reflexivity| |].
        -- apply (Forall_app _ [_] evs). split; [exact Hhead|now apply Hweaken].
        -- intros j Hj. apply elem_of_cons in Hj as [->|Hj].
           ++ exists err. split; [left|exact Hignore].
           ++ destruct (Hall j Hj) as (err' & Hin & Herr').
              exists err'. split; [now right|exact Herr'].
      * right. exists (EvDelete job err :: evs0), j, e. rewrite Hrun.
        split_and!; [reflexivity|reflexivity| |now right|exact Hne].
        apply (Forall_app _ [_] evs0). split; [exact Hhead|now apply Hweaken].
Qed.

(** *** From the policy to the end *)

(** Under the forbid policy with a job still active nothing happens. *)
Lemma createRun_forbid cronJob c missedRun scheduledResult (w : World Store) :
  batch.ConcurrencyPolicy (batch.Spec cronJob) = ForbidConcurrent ->
  activeJobs c <> [] ->
  create cronJob c missedRun scheduledResult w = (Return (scheduledResult, None), w).
Proof.
  intros Hpolicy Hactive. unfold createRun. rewrite Hpolicy.
  rewrite bool_decide_eq_true_2 by reflexivity.
  rewrite bool_decide_eq_true_2; [reflexivity|].
  destruct (activeJobs c); [congruence|simpl; lia].
Qed.

(** What the last stage adds to the trace. *)
Lemma createRun_run cronJob c missedRun scheduledResult (w : World Store) :
  exists tail,
    trace (create cronJob c missedRun scheduledResult w).2 = trace w ++ tail /\
    endsWith (batch.ConcurrencyPolicy (batch.Spec cronJob)) (activeJobs c)
             (outcomeOf (create cronJob c missedRun scheduledResult w).1) tail.
Proof.
  unfold endsWith.
  unfold createRun.
  destruct (bool_decide (batch.ConcurrencyPolicy (batch.Spec cronJob) = ForbidConcurrent)
            && bool_decide (0 < length (activeJobs c))%nat).
  { exists []. rewrite app_nil_r. auto. }
  assert (Hrest : forall (w1 : World Store) dels,
    trace w1 = trace w ++ dels ->
    exists rest,
      trace (constructAndCreate Store Create FormatRFC3339 SetControllerReference
               cronJob missedRun scheduledResult w1).2
      = trace w ++ dels ++ EvConstruct missedRun :: rest /\
      (rest = [] \/ exists job err, rest = [EvCreate job err])).
  { intros w1 dels Hw1.
    unfold constructAndCreate, bind, note, emit, callCreate, exit, ret. simpl.
    destruct (constructJobForCronJob _ _ _ _) as [job|]; simpl.
    - destruct (Create (store w1) job) as [s [e|]]; simpl;
        [exists [EvCreate job (Some e)] | exists [EvCreate job None]];
        rewrite Hw1, <- !app_assoc; simpl; eauto.
    - exists []. rewrite Hw1, <- !app_assoc. auto. }
  case_bool_decide as Hpolicy.
  - unfold bind.
    destruct (deleteActiveJobs_run (activeJobs c) w)
      as (evs & w1 & _ & Htrace & [(Hrun & Hquiet & Hall)|(evs0 & j & e & Hrun & -> & Hq & Hj & Hne)]).
    + rewrite Hrun. destruct (Hrest w1 evs Htrace) as (rest & Heq & Hshape).
      exists (evs ++ EvConstruct missedRun :: rest). split; [exact Heq|].
      right. right. exists evs, missedRun, rest. split_and!; auto.
    + rewrite Hrun. simpl. exists (evs0 ++ [EvDelete j (Some e)]). split; [exact Htrace|].
      right. left. exists evs0, j, e. split_and!; auto.
  - unfold bind, ret.
    destruct (Hrest w [] ltac:(now rewrite app_nil_r)) as (rest & Heq & Hshape).
    exists (EvConstruct missedRun :: rest). split; [exact Heq|].
    right. right. exists [], missedRun, rest. split_and!; auto; [constructor|].
    intros Hp. contradiction.
Qed.

(** *** From the calculator to the policy *)

(** The calculator stage reads the clock and touches nothing else: it ends
    the reconcile or hands over to the last stage. *)
Lemma scheduleRun_run cronJob c (w : World Store) :
  match nextSchedule cronJob (Now (ticks w)) with
  | None =>
      (schedule cronJob c w).1 = OutOfFuel /\ trace (schedule cronJob c w).2 = trace w
  | Some (_, _, Some _) =>
      (schedule cronJob c w).1 = Return (ctrl.empty, None) /\
      trace (schedule cronJob c w).2 = trace w
  | Some (missedRun, nextRun, None) =>
      let scheduledResult := ctrl.mkResult false (time.Sub nextRun (Now (S (ticks w)))) in
      ((schedule cronJob c w).1 = Return (scheduledResult, None) /\
       trace (schedule cronJob c w).2 = trace w) \/
      (exists w1, trace w1 = trace w /\
                  schedule cronJob c w = create cronJob c missedRun scheduledResult w1)
  end.
Proof.
  unfold scheduleRun, bind, callNow. simpl.
  destruct (nextSchedule cronJob (Now (ticks w))) as [[[missedRun nextRun] [e|]]|];
    simpl; auto.
  destruct (time.IsZero missedRun); simpl; auto.
  destruct (batch.StartingDeadlineSeconds (batch.Spec cronJob)) as [d|]; simpl.
  - destruct (time.Before _ _); simpl; auto.
    right. eexists. split; [|reflexivity]. reflexivity.
  - right. eexists. split; [|reflexivity]. reflexivity.
Qed.

(** *** Up to the status update *)

Lemma reconcile_body req (w : World Store) :
  reconcile req w = (outcomeOf (body req w).1, (body req w).2).
Proof. unfold Reconcile. now destruct (body req w). Qed.

(** A reconcile that fetched the cron job and listed its children writes
    the observed status back; when that fails it ends, else it prunes both
    histories and, unless suspended, goes on to the calculator. *)
Lemma reconcileBody_prefix req (w : World Store) cronJob childJobs s1 err :
  Get (store w) (ctrl.Namespace req) (ctrl.Name req) = Ok cronJob ->
  List (store w) (ctrl.Namespace req) (ctrl.Name req) = Ok childJobs ->
  StatusUpdate (store w) (observed' cronJob (classify' childJobs)) = (s1, err) ->
  body req w =
    let c := classify' childJobs in
    let cronJob' := observed' cronJob c in
    let w1 := mkWorld s1 (ticks w)
                (trace w ++ [EvGet (ctrl.Namespace req) (ctrl.Name req);
                             EvList (ctrl.Namespace req) (ctrl.Name req);
                             EvStatusUpdate cronJob' err]) in
    match err with
    | Some _ => (Return (ctrl.empty, err), w1)
    | None =>
        bind (prunes cronJob' c)
             (fun _ => match batch.Suspend (batch.Spec cronJob) with
                       | Some true => exit (ctrl.empty, None)
                       | _ => schedule cronJob' c
                       end) w1
    end.
Proof.
  intros Hget Hlist Hupdate.
  unfold reconcileBody, bind at 1, callGet. simpl. rewrite Hget.
  unfold bind at 1, callList. simpl. rewrite Hlist.
  unfold bind at 1, callStatusUpdate. simpl. rewrite Hupdate.
  rewrite <- !app_assoc. simpl. destruct err; reflexivity.
Qed.

(** *** Every run finishes *)

Lemma createRun_finishes cronJob c missedRun scheduledResult (w : World Store) :
  (create cronJob c missedRun scheduledResult w).1 <> OutOfFuel.
Proof.
  assert (Hlast : forall w1 : World Store,
            (constructAndCreate Store Create FormatRFC3339 SetControllerReference
               cronJob missedRun scheduledResult w1).1 <> OutOfFuel).
  { intros w1. unfold constructAndCreate, bind, note, callCreate, exit, ret. simpl.
    destruct (constructJobForCronJob _ _ _ _) as [job|]; simpl; [|discriminate].
    destruct (Create _ job) as [s [e|]]; simpl; discriminate. }
  unfold createRun.
  destruct (_ && _); [discriminate|].
  case_bool_decide; unfold bind; [|apply Hlast].
  destruct (deleteActiveJobs_run (activeJobs c) w)
    as (evs & w1 & _ & _ & [(-> & _)|(evs0 & j & e & -> & _)]); [apply Hlast|discriminate].
Qed.

Lemma scheduleRun_finishes cronJob c (w : World Store) :
  (schedule cronJob c w).1 <> OutOfFuel.
Proof.
  pose proof (scheduleRun_run cronJob c w) as Hrun.
  destruct (getNextSchedule_total ParseStandard cronJob (Now (ticks w)))
    as [[[missedRun nextRun] err] Hnext].
  rewrite Hnext in Hrun. destruct err as [e|].
  - destruct Hrun as [-> _]. discriminate.
  - destruct Hrun as [[-> _]|(w1 & _ & ->)]; [discriminate|apply createRun_finishes].
Qed.

(** [Reconcile] returns an outcome from every store and for every request:
    the fuel of the calculator's loop never runs out. *)
Lemma reconcile_total req (w : World Store) : exists r, (reconcile req w).1 = Some r.
Proof.
  rewrite reconcile_body. cbn [fst].
  assert (Hfinish : (body req w).1 <> OutOfFuel).
  { destruct (Get (store w) (ctrl.Namespace req) (ctrl.Name req)) as [cronJob|e] eqn:Hget.
    2: { unfold reconcileBody, bind, callGet. simpl. rewrite Hget. discriminate. }
    destruct (List (store w) (ctrl.Namespace req) (ctrl.Name req)) as [childJobs|e] eqn:Hlist.
    2: { unfold reconcileBody, bind, callGet, callList. simpl. rewrite Hget. simpl.
         rewrite Hlist. discriminate. }
    destruct (StatusUpdate (store w) (observed' cronJob (classify' childJobs)))
      as [s1 err] eqn:Hupdate.
    rewrite (reconcileBody_prefix req w cronJob childJobs s1 err Hget Hlist Hupdate).
    cbv zeta. destruct err as [e|]; [discriminate|]. unfold bind.
    destruct (pruneHistories_run Store Delete sortSlice
                (observed' cronJob (classify' childJobs)) (classify' childJobs)
                (mkWorld s1 (ticks w)
                   (trace w ++ [EvGet (ctrl.Namespace req) (ctrl.Name req);
                                EvList (ctrl.Namespace req) (ctrl.Name req);
                                EvStatusUpdate (observed' cronJob (classify' childJobs)) None])))
      as (pruned & w2 & -> & _).
    destruct (batch.Suspend (batch.Spec cronJob)) as [[|]|];
      try apply scheduleRun_finishes. discriminate. }
  destruct ((body req w).1) as [r|r|]; simpl; eauto. congruence.
Qed.

(** *** The whole run *)

(** The trace of a reconcile that fetched the cron job and listed its
    children: the three calls up to the status update, the deletes of the
    pruner, and what the last stage adds. *)
Lemma reconcile_shape req (w : World Store) cronJob childJobs s1 err :
  Get (store w) (ctrl.Namespace req) (ctrl.Name req) = Ok cronJob ->
  List (store w) (ctrl.Namespace req) (ctrl.Name req) = Ok childJobs ->
  StatusUpdate (store w) (observed' cronJob (classify' childJobs)) = (s1, err) ->
  exists pruned tail,
    trace (reconcile req w).2
    = trace w ++ [EvGet (ctrl.Namespace req) (ctrl.Name req);
                  EvList (ctrl.Namespace req) (ctrl.Name req);
                  EvStatusUpdate (observed' cronJob (classify' childJobs)) err]
              ++ pruned ++ tail /\
    deletesOf (sortSlice startTimeLess (failedJobs (classify' childJobs))
               ++ sortSlice startTimeLess (successfulJobs (classify' childJobs))) pruned /\
    endsWith (batch.ConcurrencyPolicy (batch.Spec cronJob))
             (activeJobs (classify' childJobs)) (reconcile req w).1 tail.
Proof.
  intros Hget Hlist Hupdate. rewrite reconcile_body.
  rewrite (reconcileBody_prefix req w cronJob childJobs s1 err Hget Hlist Hupdate).
  cbv zeta. set (c := classify' childJobs). set (cronJob' := observed' cronJob c).
  set (w1 := mkWorld s1 _ _).
  assert (Hnone : forall l, deletesOf l []) by (intros l; constructor).
  destruct err as [e|].
  { exists [], []. simpl. rewrite ?app_nil_r. split_and!; auto. now left. }
  unfold bind.
  destruct (pruneHistories_run Store Delete sortSlice cronJob' c w1)
    as (pruned & w2 & -> & Hticks & Htrace & Hpruned).
  assert (Hstop : forall (r : step Outcome) (w3 : World Store),
            trace w3 = trace w2 ->
            exists pruned0 tail,
              trace w3 = trace w ++ [EvGet (ctrl.Namespace req) (ctrl.Name req);
                                     EvList (ctrl.Namespace req) (ctrl.Name req);
                                     EvStatusUpdate cronJob' None] ++ pruned0 ++ tail /\
              deletesOf (sortSlice startTimeLess (failedJobs c)
                         ++ sortSlice startTimeLess (successfulJobs c)) pruned0 /\
              endsWith (batch.ConcurrencyPolicy (batch.Spec cronJob)) (activeJobs c)
                       (outcomeOf r) tail).
  { intros r w3 Hw3. exists pruned, []. rewrite Hw3, Htrace, app_nil_r. subst w1. simpl.
    rewrite <- app_assoc. split_and!; auto. now left. }
  assert (Hgo : exists pruned0 tail,
             trace (schedule cronJob' c w2).2
             = trace w ++ [EvGet (ctrl.Namespace req) (ctrl.Name req);
                           EvList (ctrl.Namespace req) (ctrl.Name req);
                           EvStatusUpdate cronJob' None] ++ pruned0 ++ tail /\
             deletesOf (sortSlice startTimeLess (failedJobs c)
                        ++ sortSlice startTimeLess (successfulJobs c)) pruned0 /\
             endsWith (batch.ConcurrencyPolicy (batch.Spec cronJob)) (activeJobs c)
                      (outcomeOf (schedule cronJob' c w2).1) tail).
  { pose proof (scheduleRun_run cronJob' c w2) as Hrun.
    destruct (nextSchedule cronJob' (Now (ticks w2))) as [[[missedRun nextRun] [e|]]|].
    - destruct Hrun as [_ Hrun]. now apply Hstop.
    - destruct Hrun as [[_ Hrun]|(w3 & Hw3 & ->)]; [now apply Hstop|].
      destruct (createRun_run cronJob' c missedRun
                  (ctrl.mkResult false (time.Sub nextRun (Now (S (ticks w2))))) w3)
        as (tail & -> & Hends).
      exists pruned, tail. rewrite Hw3, Htrace. subst w1. simpl.
      rewrite <- !app_assoc. split_and!; auto.
    - destruct Hrun as [_ Hrun]. now apply Hstop. }
  destruct (batch.Suspend (batch.Spec cronJob)) as [[|]|]; try exact Hgo.
  now apply (Hstop (Return (ctrl.empty, None)) w2).
Qed.

(** C7.  A reconcile under the forbid policy that fetched the cron job,
    listed its children, found a job still active, wrote the status back,
    is not suspended and whose calculator returned without error, be the
    missed run found and within its deadline or not: nothing is constructed
    or created, and the outcome is a requeue after the time from the clock's
    second reading to the next run, with no error. *)
Theorem reconcile_forbid_skips req (w : World Store) cronJob childJobs s1 missedRun nextRun :
  Get (store w) (ctrl.Namespace req) (ctrl.Name req) = Ok cronJob ->
  List (store w) (ctrl.Namespace req) (ctrl.Name req) = Ok childJobs ->
  StatusUpdate (store w) (observed' cronJob (classify' childJobs)) = (s1, None) ->
  batch.Suspend (batch.Spec cronJob) <> Some true ->
  nextSchedule (observed' cronJob (classify' childJobs)) (Now (ticks w))
  = Some (missedRun, nextRun, None) ->
  batch.ConcurrencyPolicy (batch.Spec cronJob) = ForbidConcurrent ->
  activeJobs (classify' childJobs) <> [] ->
  (reconcile req w).1
  = Some (ctrl.mkResult false (time.Sub nextRun (Now (S (ticks w)))), None) /\
  exists evs, trace (reconcile req w).2 = trace w ++ evs /\ createsNothing evs.
Proof.
  intros Hget Hlist Hupdate Hsuspend Hnext Hpolicy Hactive.
  rewrite reconcile_body.
  rewrite (reconcileBody_prefix req w cronJob childJobs s1 None Hget Hlist Hupdate).
  cbv zeta. set (c := classify' childJobs) in *. set (cronJob' := observed' cronJob c) in *.
  set (w1 := mkWorld s1 _ _). unfold bind.
  destruct (pruneHistories_run Store Delete sortSlice cronJob' c w1)
    as (pruned & w2 & -> & Hticks & Htrace & Hpruned).
  assert (Hrun : (schedule cronJob' c w2).1
                 = Return (ctrl.mkResult false (time.Sub nextRun (Now (S (ticks w)))), None) /\
                 trace (schedule cronJob' c w2).2 = trace w2).
  { pose proof (scheduleRun_run cronJob' c w2) as Hrun.
    rewrite Hticks in Hrun. subst w1. simpl in Hrun. rewrite Hnext in Hrun.
    destruct Hrun as [Hrun|(w3 & Hw3 & Hrun)]; [exact Hrun|].
    rewrite Hrun, createRun_forbid; auto. }
  destruct Hrun as [Hout Htr].
  assert (Hgo : match batch.Suspend (batch.Spec cronJob) with
                | Some true => exit (ctrl.empty, None)
                | _ => schedule cronJob' c
                end w2 = schedule cronJob' c w2).
  { destruct (batch.Suspend (batch.Spec cronJob)) as [[|]|]; congruence. }
  rewrite Hgo. cbn [fst snd]. rewrite Hout, Htr. simpl. split; [reflexivity|].
  eexists. rewrite Htrace. subst w1. simpl. rewrite <- app_assoc. split; [reflexivity|].
  apply createsNothing_app.
  - repeat constructor.
  - eapply deletesOf_createsNothing; eauto.
Qed.

(** C2, as amended.  Each reconcile that fetched the cron job and listed
    its children writes back, as last schedule time, the most recent
    scheduled time it read from the listed children.  Between two
    reconciles, the second of which still lists every child the first
    listed, by namespace and name and with the same scheduled time read
    from it, the time written does not go back and does not become unset;
    the status of a child may have changed in between, and children may
    have been added. *)
Theorem lastScheduleTime_monotone_while_children_stay
        req (w1 w2 : World Store) cronJob1 cronJob2 childJobs1 childJobs2 :
  Get (store w1) (ctrl.Namespace req) (ctrl.Name req) = Ok cronJob1 ->
  List (store w1) (ctrl.Namespace req) (ctrl.Name req) = Ok childJobs1 ->
  Get (store w2) (ctrl.Namespace req) (ctrl.Name req) = Ok cronJob2 ->
  List (store w2) (ctrl.Namespace req) (ctrl.Name req) = Ok childJobs2 ->
  stillListed getScheduledTimeForJob childJobs1 childJobs2 ->
  exists written1 err1 rest1 written2 err2 rest2,
    trace (reconcile req w1).2
    = trace w1 ++ [EvGet (ctrl.Namespace req) (ctrl.Name req);
                   EvList (ctrl.Namespace req) (ctrl.Name req);
                   EvStatusUpdate written1 err1] ++ rest1 /\
    trace (reconcile req w2).2
    = trace w2 ++ [EvGet (ctrl.Namespace req) (ctrl.Name req);
                   EvList (ctrl.Namespace req) (ctrl.Name req);
                   EvStatusUpdate written2 err2] ++ rest2 /\
    batch.LastScheduleTime (batch.Status written1) = mostRecentTime (classify' childJobs1) /\
    batch.LastScheduleTime (batch.Status written2) = mostRecentTime (classify' childJobs2) /\
    notLater (batch.LastScheduleTime (batch.Status written1))
             (batch.LastScheduleTime (batch.Status written2)).
Proof.
  intros Hget1 Hlist1 Hget2 Hlist2 Hstill.
  destruct (StatusUpdate (store w1) (observed' cronJob1 (classify' childJobs1)))
    as [s1 err1] eqn:Hupdate1.
  destruct (StatusUpdate (store w2) (observed' cronJob2 (classify' childJobs2)))
    as [s2 err2] eqn:Hupdate2.
  destruct (reconcile_shape req w1 cronJob1 childJobs1 s1 err1 Hget1 Hlist1 Hupdate1)
    as (pruned1 & tail1 & Htrace1 & _).
  destruct (reconcile_shape req w2 cronJob2 childJobs2 s2 err2 Hget2 Hlist2 Hupdate2)
    as (pruned2 & tail2 & Htrace2 & _).
  exists (observed' cronJob1 (classify' childJobs1)), err1, (pruned1 ++ tail1),
         (observed' cronJob2 (classify' childJobs2)), err2, (pruned2 ++ tail2).
  split_and!; [exact Htrace1|exact Htrace2|reflexivity|reflexivity|].
  apply (mostRecentTime_stillListed isJobFinished getScheduledTimeForJob
           childJobs1 childJobs2 Hstill).
Qed.

End ReconcileFacts.

(** ** The reconciler on the in-memory server *)

Lemma pruneHistory_deletes_oldest_witness :
  exists deleted retained errs w',
    pruneHistory MemStore memDelete mergeSortSlice (Some 1) threeFailed (worldOf [] threeFailed)
    = (Continue tt, w') /\
    trace w' = trace (worldOf [] threeFailed) ++ zip_with EvDelete deleted errs /\
    length errs = length deleted /\
    deleted ++ retained ≡ₚ threeFailed /\
    Z.of_nat (length deleted) = Z.of_nat (length threeFailed) - 1 /\
    Z.of_nat (length retained) = 1 /\
    (forall d r, d ∈ deleted -> r ∈ retained ->
       (kbatch.StartTime (kbatch.Status r) = None ->
        kbatch.StartTime (kbatch.Status d) = None) /\
       (forall td tr, kbatch.StartTime (kbatch.Status d) = Some td ->
                      kbatch.StartTime (kbatch.Status r) = Some tr -> td <= tr)).
Proof.
  apply (pruneHistory_deletes_oldest MemStore memDelete mergeSortSlice 1 threeFailed
           (worldOf [] threeFailed)).
  - apply mergeSortSlice_sorts.
  - simpl. lia.
  - vm_compute. reflexivity.
Defined.

(** Three failed jobs and a limit of one: the job that never started and
    the older of the two others are deleted. *)
Example pruneHistory_three_failed :
  map describe
      (trace (pruneHistory MemStore memDelete mergeSortSlice (Some 1) threeFailed
                (worldOf [] threeFailed)).2)
  = ["delete report-1609459080"; "delete report-1609459140"].
Proof. vm_compute. reflexivity. Qed.

(** Suspended with two jobs running: the status names both, nothing else
    happens, and no requeue is asked for. *)
Example suspended_two_running :
  (memReconcile newYear reportRequest suspendedWorld).1 = Some (ctrl.empty, None) /\
  map describe (trace (memReconcile newYear reportRequest suspendedWorld).2)
  = ["get report"; "list jobs of report"; "update status of report"] /\
  map refName (batch.Active (batch.Status (stored (memReconcile newYear reportRequest
                                                     suspendedWorld).2)))
  = ["report-1609459080"; "report-1609459140"].
Proof. vm_compute. repeat split. Qed.

Lemma reconcile_forbid_skips_witness :
  (memReconcile newYear reportRequest forbidWorld).1
  = Some (ctrl.mkResult false (time.Sub (unixTime 1609459260) newYear), None) /\
  exists evs,
    trace (memReconcile newYear reportRequest forbidWorld).2 = trace forbidWorld ++ evs /\
    createsNothing evs.
Proof.
  apply (reconcile_forbid_skips MemStore memGet memList memStatusUpdate memDelete memCreate
           (fun _ => newYear) demoParseStandard utcFormatRFC3339 specIsJobFinished memGetScheduledTimeForJob mergeSortSlice
           memGetReference memSetControllerReference reportRequest forbidWorld
           forbidCronJob (stillRunning forbidCronJob)
           (memStatusUpdate (store forbidWorld)
              (memObserved forbidCronJob (stillRunning forbidCronJob))).1
           (unixTime 1609459200) (unixTime 1609459260)).
  - reflexivity.
  - vm_compute. reflexivity.
  - vm_compute. reflexivity.
  - discriminate.
  - vm_compute. reflexivity.
  - reflexivity.
  - vm_compute. discriminate.
Defined.

(** C8, as stated, fails for a delete that finds the job gone: under the
    replace policy the delete of the running job returns not-found, and the
    reconcile goes on to construct and create the next job and asks for a
    requeue. *)
Lemma reconcile_replace_ignores_not_found :
  batch.ConcurrencyPolicy (batch.Spec replaceCronJob) = ReplaceConcurrent /\
  map describe (trace (memReconcile newYear reportRequest staleWorld).2)
  = ["get report"; "list jobs of report"; "update status of report";
     "delete report-1609459140: not found"; "construct for 1609459200";
     "create report-1609459200"] /\
  (memReconcile newYear reportRequest staleWorld).1
  = Some (ctrl.mkResult false (30 * time.Second), None).
Proof. vm_compute. repeat split. Qed.

(** C2 on a child whose status changes between the reconciles: the run
    of midnight is going at the first one; at the second it has succeeded
    and the run of 00:01 is going.  The last schedule time goes from
    midnight to 00:01. *)
Lemma lastScheduleTime_monotone_while_children_stay_witness :
  mostRecentTime (memClassify (midnightRunning keepingCronJob)) = Some (unixTime 1609459200) /\
  mostRecentTime (memClassify (minuteLater keepingCronJob)) = Some (unixTime 1609459260) /\
  ~ midnightRunning keepingCronJob ⊆ minuteLater keepingCronJob /\
  notLater
    (mostRecentTime (memClassify (midnightRunning keepingCronJob)))
    (mostRecentTime (memClassify (minuteLater keepingCronJob))).
Proof.
  split; [vm_compute; reflexivity|]. split; [vm_compute; reflexivity|].
  split.
  { intros Hsub.
    specialize (Hsub (child keepingCronJob (unixTime 1609459200)
                            (running (unixTime 1609459201))) ltac:(left)).
    repeat (apply elem_of_cons in Hsub as [Hsub|Hsub];
            [apply (f_equal kbatch.Status) in Hsub; vm_compute in Hsub; discriminate|]).
    inversion Hsub. }
  destruct (lastScheduleTime_monotone_while_children_stay
              MemStore memGet memList memStatusUpdate memDelete memCreate
              (fun _ => newYear) demoParseStandard utcFormatRFC3339 specIsJobFinished
              memGetScheduledTimeForJob
              mergeSortSlice memGetReference memSetControllerReference reportRequest
              earlierWorld laterWorld keepingCronJob keepingCronJob
              (midnightRunning keepingCronJob) (minuteLater keepingCronJob))
    as (written1 & err1 & rest1 & written2 & err2 & rest2 & _ & _ & H1 & H2 & H).
  - reflexivity.
  - vm_compute. reflexivity.
  - reflexivity.
  - vm_compute. reflexivity.
  - intros j1 Hj1. apply list_elem_of_singleton in Hj1 as ->.
    exists (child keepingCronJob (unixTime 1609459200) (succeeded (unixTime 1609459201))).
    split_and!; [left|vm_compute; reflexivity..].
  - rewrite H1, H2 in H. exact H.
Defined.

(** The two reconciles write midnight, then 00:01. *)
Example status_follows_children :
  lastScheduleTimes (trace (memReconcile newYear reportRequest earlierWorld).2)
  = [Some (unixTime 1609459200)] /\
  lastScheduleTimes (trace (memReconcile (unixTime 1609459290) reportRequest laterWorld).2)
  = [Some (unixTime 1609459260)].
Proof. vm_compute. split; reflexivity. Qed.

(** C2, as stated, fails once the pruner deletes the child that carries
    the most recent scheduled time.  A cron job keeps no successful job and
    its run of midnight has succeeded: the first reconcile writes midnight
    as last schedule time and prunes that job; the second, run on the store
    the first left behind, finds no child, writes an unset last schedule
    time, and creates the job of midnight once more. *)
Lemma lastScheduleTime_unset_after_pruning :
  lastScheduleTimes
    (trace (memReconcile newYear reportRequest
              (memReconcile newYear reportRequest forgetfulWorld).2).2)
  = [Some (unixTime 1609459200); None] /\
  map describe
    (trace (memReconcile newYear reportRequest
              (memReconcile newYear reportRequest forgetfulWorld).2).2)
  = ["get report"; "list jobs of report"; "update status of report";
     "delete report-1609459200";
     "get report"; "list jobs of report"; "update status of report";
     "construct for 1609459200"; "create report-1609459200"].
Proof. vm_compute. repeat split. Qed.

(** * Further properties *)

(** ** More on the schedule calculator *)

Lemma int64_small z : - 2 ^ 63 <= z < 2 ^ 63 -> int64 z = z.
Proof.
  intros H. unfold int64, wrap.
  change (2 ^ (64 - 1)) with 9223372036854775808 in *.
  change (2 ^ 64) with 18446744073709551616.
  change (2 ^ 63) with 9223372036854775808 in H.
  rewrite Z.mod_small; lia.
Qed.

Section CalculatorMore.

Variable ParseStandard : string -> result cron.Schedule.

(** A loop that fails has found every occurrence the counter left room
    for not after [now]. *)
Lemma missedStarts_error_inv sched now fuel t lastMissed starts missedRun nextRun err :
  0 <= starts <= 100 ->
  missedStarts sched now fuel t lastMissed starts = Some (missedRun, nextRun, Some err) ->
  missedRun = time.zero /\ nextRun = time.zero /\ err = ErrTooManyMissedStarts /\
  forall k, Z.of_nat k < 101 - starts -> nthNext sched k t <= now.
Proof.
  revert t lastMissed starts.
  induction fuel as [|fuel IH]; intros t lastMissed starts Hs; simpl; [discriminate|].
  destruct (time.After t now) eqn:Ht; simpl; [discriminate|].
  apply After_false in Ht.
  destruct (Z.gtb_spec (starts + 1) 100) as [Hfull|Hroom].
  - intros [= <- <- <-]. split_and!; try reflexivity.
    intros k Hk. assert (k = 0%nat) as -> by lia. exact Ht.
  - intros Hrun. apply IH in Hrun as (Hm & Hn & He & Hall); [|lia].
    split_and!; auto. intros [|k] Hk; [exact Ht|].
    rewrite nthNext_shift. apply Hall. lia.
Qed.

(** A loop that ends well returns the value it was entered with, or the
    last occurrence not after [now]. *)
Lemma missedStarts_latest sched now fuel t lastMissed starts missedRun nextRun :
  missedStarts sched now fuel t lastMissed starts = Some (missedRun, nextRun, None) ->
  (missedRun = lastMissed /\ now < t) \/
  (missedRun <= now /\ now < cron.Next sched missedRun /\
   exists k, missedRun = nthNext sched k t).
Proof.
  revert t lastMissed starts.
  induction fuel as [|fuel IH]; intros t lastMissed starts; simpl; [discriminate|].
  destruct (time.After t now) eqn:Ht; simpl.
  - apply After_true in Ht. intros [= <- _]. auto.
  - apply After_false in Ht.
    destruct (Z.gtb_spec (starts + 1) 100); [discriminate|].
    intros Hrun. right. apply IH in Hrun as [[-> Hnext]|(Hle & Hgt & k & ->)].
    + split_and!; auto. now exists 0%nat.
    + split_and!; auto. exists (S k). now rewrite nthNext_shift.
Qed.

(** X1.  The calculator fails in two cases only, and returns zero times
    with the error: the schedule does not parse, and the error carries the
    schedule and the parser's error; or the effective earliest time is not
    after [now] and the first 101 occurrences after it are all not after
    [now], and the error is the too-many-missed-starts error.  With at most
    100 occurrences due it does not fail. *)
Theorem getNextSchedule_error_iff cronJob now missedRun nextRun err :
  getNextSchedule ParseStandard cronJob now = Some (missedRun, nextRun, Some err) <->
  missedRun = time.zero /\ nextRun = time.zero /\
  ((exists cause,
      ParseStandard (batch.Schedule (batch.Spec cronJob)) = Err cause /\
      err = ErrUnparseableSchedule (batch.Schedule (batch.Spec cronJob)) cause) \/
   (exists sched,
      ParseStandard (batch.Schedule (batch.Spec cronJob)) = Ok sched /\
      err = ErrTooManyMissedStarts /\
      earliestTime cronJob now <= now /\
      forall k, (k < 101)%nat -> nthNext sched (S k) (earliestTime cronJob now) <= now)).
Proof.
  unfold getNextSchedule, getNextScheduleFuel.
  destruct (ParseStandard (batch.Schedule (batch.Spec cronJob))) as [sched|cause].
  - cbv beta iota zeta.
    destruct (time.After (earliestTime cronJob now) now) eqn:Hafter.
    + split; [discriminate|].
      intros (_ & _ & [(cause & Hc & _)|(s & _ & _ & Hle & _)]); [discriminate|].
      apply After_true in Hafter. lia.
    + apply After_false in Hafter. split.
      * intros Hrun. apply missedStarts_error_inv in Hrun as (-> & -> & -> & Hall); [|lia].
        split_and!; try reflexivity. right. exists sched. split_and!; auto.
        intros k Hk. rewrite nthNext_shift. apply Hall. lia.
      * intros (-> & -> & [(cause & Hc & _)|(s & [= <-] & -> & _ & Hall)]); [discriminate|].
        apply missedStarts_too_many; [lia..|].
        intros k Hk. rewrite <- nthNext_shift. apply Hall. lia.
  - split.
    + intros [= <- <- <-]. split_and!; try reflexivity. left. eauto.
    + intros (-> & -> & [(c & [= <-] & ->)|(s & Hs & _)]); [reflexivity|discriminate].
Qed.

(** X2.  For a schedule whose [Next] is the first occurrence after its
    argument: when the calculator returns without error and some occurrence
    lies after the effective earliest time and not after [now], the missed
    run it returns is the latest such occurrence.  Earlier missed
    occurrences are passed over. *)
Theorem getNextSchedule_latest_due
        (occurs : Time -> Prop) cronJob now sched missedRun nextRun u :
  ParseStandard (batch.Schedule (batch.Spec cronJob)) = Ok sched ->
  firstAfter occurs sched ->
  getNextSchedule ParseStandard cronJob now = Some (missedRun, nextRun, None) ->
  occurs u -> earliestTime cronJob now < u <= now ->
  occurs missedRun /\ earliestTime cronJob now < missedRun <= now /\ u <= missedRun /\
  now < cron.Next sched missedRun.
Proof.
  intros Hparse Hfirst Hrun Hu Hdue.
  unfold getNextSchedule, getNextScheduleFuel in Hrun. rewrite Hparse in Hrun.
  cbv beta iota zeta in Hrun.
  destruct (time.After (earliestTime cronJob now) now) eqn:Hafter.
  { apply After_true in Hafter. lia. }
  destruct (Hfirst (earliestTime cronJob now)) as (Hlater & _ & Hleast).
  apply missedStarts_latest in Hrun as [[_ Hnone]|(Hle & Hgt & k & Hk)].
  { specialize (Hleast u Hu ltac:(lia)). lia. }
  assert (Hocc : occurs missedRun /\ earliestTime cronJob now < missedRun).
  { rewrite Hk, <- nthNext_shift. split.
    - rewrite nthNext_S. apply Hfirst.
    - rewrite nthNext_S.
      pose proof (nthNext_mono sched k (earliestTime cronJob now)
                    (firstAfter_later occurs sched Hfirst)).
      destruct (Hfirst (nthNext sched k (earliestTime cronJob now))) as (Hl & _). lia. }
  destruct Hocc as [Hocc Hlo]. split_and!; auto; try lia.
  destruct (Z.le_gt_cases u missedRun) as [Hin|Hout]; [exact Hin|].
  destruct (Hfirst missedRun) as (_ & _ & Hleast'). specialize (Hleast' u Hu ltac:(lia)). lia.
Qed.

(** X3.  For a schedule whose [Next] is later than its argument and a
    starting deadline of [d] seconds that fits a duration: a missed run the
    calculator returns for the reading [now] has not passed its deadline at
    [now] or at any earlier reading.  The test for a late start can only
    succeed when the clock has moved on since the calculator read it. *)
Theorem missed_run_within_deadline cronJob now sched missedRun nextRun d now' :
  ParseStandard (batch.Schedule (batch.Spec cronJob)) = Ok sched ->
  nextIsLater sched ->
  getNextSchedule ParseStandard cronJob now = Some (missedRun, nextRun, None) ->
  time.IsZero missedRun = false ->
  batch.StartingDeadlineSeconds (batch.Spec cronJob) = Some d ->
  0 <= d -> d * time.Second < 2 ^ 63 ->
  now' <= now ->
  time.Before (time.Add missedRun (time.mul d time.Second)) now' = false.
Proof.
  intros Hparse Hlater Hrun Hmissed Hd Hpos Hfit Hnow.
  assert (Hearliest : now - d * time.Second <= earliestTime cronJob now).
  { unfold earliestTime. rewrite Hd. unfold time.mul, time.Add.
    rewrite int64_small by (unfold time.Second in *; lia).
    destruct (time.After _ _) eqn:Hafter; [lia|].
    apply After_false in Hafter. lia. }
  assert (Hafter : earliestTime cronJob now < missedRun).
  { unfold getNextSchedule, getNextScheduleFuel in Hrun. rewrite Hparse in Hrun.
    cbv beta iota zeta in Hrun. destruct (time.After _ _).
    - injection Hrun as <- _. discriminate.
    - apply missedStarts_ok in Hrun as [_ [[-> _]|Hin]]; auto; [discriminate|].
      specialize (Hlater (earliestTime cronJob now)). lia. }
  unfold time.Before, time.Add, time.mul.
  rewrite int64_small by (unfold time.Second in *; lia).
  apply Z.ltb_ge. lia.
Qed.

End CalculatorMore.

Lemma getNextSchedule_latest_due_witness :
  occursEvery Minute (unixTime 1609459200) /\
  earliestTime (cronJobBehind 2 None) newYear < unixTime 1609459200 <= newYear /\
  unixTime 1609459140 <= unixTime 1609459200 /\
  newYear < cron.Next (everyPeriod Minute) (unixTime 1609459200).
Proof.
  apply (getNextSchedule_latest_due demoParseStandard (occursEvery Minute)
           (cronJobBehind 2 None) newYear (everyPeriod Minute)
           (unixTime 1609459200) (unixTime 1609459260) (unixTime 1609459140)).
  - reflexivity.
  - apply everyPeriod_firstAfter. reflexivity.
  - vm_compute. reflexivity.
  - reflexivity.
  - vm_compute. split; [reflexivity|discriminate].
Defined.

Lemma missed_run_within_deadline_witness :
  time.Before (time.Add (unixTime 1609459200) (time.mul 90 time.Second)) newYear = false.
Proof.
  apply (missed_run_within_deadline demoParseStandard (cronJobBehind 500 (Some 90)) newYear
           (everyPeriod Minute) (unixTime 1609459200) (unixTime 1609459260) 90 newYear).
  - reflexivity.
  - apply (firstAfter_later (occursEvery Minute)). apply everyPeriod_firstAfter. reflexivity.
  - vm_compute. reflexivity.
  - reflexivity.
  - reflexivity.
  - lia.
  - vm_compute. reflexivity.
  - lia.
Defined.

(** ** More on the lifecycle classifier *)

Lemma filter_sublist {A} (f : A -> bool) (l : list A) : List.filter f l `sublist_of` l.
Proof.
  induction l as [|x l IH]; simpl; [constructor|].
  destruct (f x); [now apply sublist_skip|now apply sublist_cons].
Qed.

Lemma filter_three_length {A} (f g h : A -> bool) (l : list A) :
  (forall x, f x = true -> g x = false /\ h x = false) ->
  (forall x, g x = true -> h x = false) ->
  (length (List.filter f l) + length (List.filter g l) + length (List.filter h l)
   <= length l)%nat.
Proof.
  intros Hf Hg. induction l as [|x l IH]; simpl; [lia|].
  destruct (f x) eqn:Efx.
  - destruct (Hf x Efx) as [-> ->]. simpl. lia.
  - destruct (g x) eqn:Egx.
    + rewrite (Hg x Egx). simpl. lia.
    + destruct (h x); simpl; lia.
Qed.

Section ClassifierMore.

Variable isJobFinished : kbatch.Job -> bool * kbatch.JobConditionType.
Variable getScheduledTimeForJob : kbatch.Job -> result (option Time).

Local Abbreviation classify' := (classify isJobFinished getScheduledTimeForJob).
Local Abbreviation finishedType := (finishedType isJobFinished).

(** X4.  The loop over the children sorts each child by the condition type
    [isJobFinished] reports and by nothing else: the active jobs are the
    children with the empty type, the failed ones those with "Failed", the
    successful ones those with "Complete", each partition in listing order.
    No child is in two partitions, and a child with any other type is in
    none; whether its scheduled time can be read plays no part. *)
Theorem classify_by_finished_type childJobs :
  (forall j, j ∈ activeJobs (classify' childJobs)
             <-> j ∈ childJobs /\ finishedType j = "") /\
  (forall j, j ∈ failedJobs (classify' childJobs)
             <-> j ∈ childJobs /\ finishedType j = kbatch.JobFailed) /\
  (forall j, j ∈ successfulJobs (classify' childJobs)
             <-> j ∈ childJobs /\ finishedType j = kbatch.JobComplete) /\
  activeJobs (classify' childJobs) `sublist_of` childJobs /\
  failedJobs (classify' childJobs) `sublist_of` childJobs /\
  successfulJobs (classify' childJobs) `sublist_of` childJobs /\
  (length (activeJobs (classify' childJobs)) + length (failedJobs (classify' childJobs))
   + length (successfulJobs (classify' childJobs)) <= length childJobs)%nat.
Proof.
  destruct (classify_partitions isJobFinished getScheduledTimeForJob childJobs)
    as (-> & -> & -> & _).
  assert (Hin : forall ty j,
            j ∈ List.filter (fun j => bool_decide (finishedType j = ty)) childJobs
            <-> j ∈ childJobs /\ finishedType j = ty).
  { intros ty j. rewrite !list_elem_of_In, filter_In, bool_decide_eq_true. tauto. }
  split_and!; try apply Hin; try apply filter_sublist.
  apply filter_three_length.
  - intros j Hj. apply bool_decide_eq_true in Hj. rewrite Hj.
    split; apply bool_decide_eq_false; discriminate.
  - intros j Hj. apply bool_decide_eq_true in Hj. rewrite Hj.
    apply bool_decide_eq_false. discriminate.
Qed.

(** X5.  The most recent time the loop ends with is the latest scheduled
    time read back from a child: it is not earlier than the time of any
    child whose time can be read, it is the time of one of them, and it is
    unset exactly when no child's time can be read.  A child whose time
    cannot be read, be it absent or in error, does not count. *)
Theorem mostRecentTime_is_latest childJobs :
  let c := classify isJobFinished getScheduledTimeForJob childJobs in
  (forall j t, j ∈ childJobs -> getScheduledTimeForJob j = Ok (Some t) ->
               exists m, mostRecentTime c = Some m /\ t <= m) /\
  (forall m, mostRecentTime c = Some m ->
             exists j, j ∈ childJobs /\ getScheduledTimeForJob j = Ok (Some m)) /\
  (mostRecentTime c = None <->
   forall j, j ∈ childJobs -> forall t, getScheduledTimeForJob j <> Ok (Some t)).
Proof.
  cbv zeta.
  destruct (classify_partitions isJobFinished getScheduledTimeForJob childJobs)
    as (_ & _ & _ & ->).
  assert (Hupper : forall j t, j ∈ childJobs -> getScheduledTimeForJob j = Ok (Some t) ->
            exists m, fold_left (laterOf getScheduledTimeForJob) childJobs None = Some m
                      /\ t <= m).
  { intros j t Hj Ht.
    pose proof (later_fold_upper getScheduledTimeForJob childJobs None j t Hj Ht) as H.
    destruct (fold_left _ childJobs None) as [m|]; [|contradiction]. eauto. }
  assert (Hattained : forall m,
            fold_left (laterOf getScheduledTimeForJob) childJobs None = Some m ->
            exists j, j ∈ childJobs /\ getScheduledTimeForJob j = Ok (Some m)).
  { intros m Hm. apply later_fold_attained in Hm as [Hm|Hm]; [discriminate|exact Hm]. }
  split_and!; [exact Hupper|exact Hattained|]. split.
  - intros Hnone j Hj t Ht. destruct (Hupper j t Hj Ht) as (m & Hm & _). congruence.
  - intros Hall. destruct (fold_left _ childJobs None) as [m|] eqn:Hm; [|reflexivity].
    destruct (Hattained m eq_refl) as (j & Hj & Ht). now apply Hall in Ht.
Qed.

End ClassifierMore.

(** ** More on the history pruner *)

Section PrunerMore.

Variable Store : Type.
Variable Delete : Store -> kbatch.Job -> Store * option error.
Variable sortSlice : (kbatch.Job -> kbatch.Job -> bool) -> list kbatch.Job -> list kbatch.Job.

Local Abbreviation deleteOld := (deleteOldJobs Store Delete).
Local Abbreviation prune := (pruneHistory Store Delete sortSlice).

(** The loop over a slice, for any limit the [int32] test does not wrap
    on: it deletes the jobs in front of the last [limit]. *)
Lemma deleteOldJobs_count limit len i jobs (w : World Store) :
  - 2 ^ 31 <= limit < 2 ^ 31 -> 0 <= i -> i + Z.of_nat (length jobs) = len ->
  len < 2 ^ 31 -> - 2 ^ 31 <= len - limit < 2 ^ 31 ->
  exists errs w',
    deleteOld limit len i jobs w = (Continue tt, w') /\
    trace w' = trace w ++ zip_with EvDelete (take (Z.to_nat (len - limit - i)) jobs) errs /\
    length errs = length (take (Z.to_nat (len - limit - i)) jobs) /\
    (len - limit - i <= 0 -> w' = w).
Proof.
  intros Hlimit. revert i w. induction jobs as [|job rest IH]; intros i w Hi Hlen Hsmall Hdiff.
  - exists [], w. rewrite take_nil. simpl. rewrite app_nil_r. split_and!; auto.
  - simpl.
    assert (Ei : int32 i = i).
    { apply int32_small. simpl in Hlen. lia. }
    assert (El : int32 (int32 len - limit) = len - limit).
    { rewrite (int32_small len) by (simpl in Hlen; lia). now apply int32_small. }
    rewrite Ei, El.
    destruct (Z.geb_spec i (len - limit)) as [Hbreak|Hgo].
    + exists [], w. replace (Z.to_nat (len - limit - i)) with 0%nat by lia.
      simpl. rewrite app_nil_r. split_and!; auto.
    + unfold bind, callDelete.
      destruct (Delete (store w) job) as [s err] eqn:Hdel.
      destruct (IH (i + 1) (mkWorld s (ticks w) (trace w ++ [EvDelete job err])))
        as (errs & w' & Hrun & Htrace & Herrs & _); [simpl in Hlen; lia..|].
      exists (err :: errs), w'. rewrite Hrun.
      replace (Z.to_nat (len - limit - i)) with (S (Z.to_nat (len - limit - (i + 1)))) by lia.
      simpl in *. rewrite Htrace, <- app_assoc. split_and!; auto; lia.
Qed.

(** X6.  With no limit configured pruning does nothing.  With a limit [L]
    and [N] jobs, as long as [N - L] fits an [int32], pruning deletes the
    first [N - L] jobs of the sorted slice, one delete each, whatever the
    deletes return: none of them when [L >= N], in which case the store is
    left alone, and all of them when [L <= 0]. *)
Theorem pruneHistory_count limit jobs (w : World Store) :
  (forall l, sortSlice startTimeLess l ≡ₚ l) ->
  - 2 ^ 31 <= limit < 2 ^ 31 ->
  Z.of_nat (length jobs) < 2 ^ 31 ->
  - 2 ^ 31 <= Z.of_nat (length jobs) - limit < 2 ^ 31 ->
  prune None jobs w = (Continue tt, w) /\
  exists deleted errs w',
    prune (Some limit) jobs w = (Continue tt, w') /\
    trace w' = trace w ++ zip_with EvDelete deleted errs /\
    length errs = length deleted /\
    deleted = take (Z.to_nat (Z.of_nat (length jobs) - limit)) (sortSlice startTimeLess jobs) /\
    Z.of_nat (length deleted)
    = Z.min (Z.of_nat (length jobs)) (Z.max 0 (Z.of_nat (length jobs) - limit)) /\
    (Z.of_nat (length jobs) <= limit -> w' = w).
Proof.
  intros Hperm Hlimit Hsmall Hdiff. split; [reflexivity|].
  assert (Hlen : length (sortSlice startTimeLess jobs) = length jobs) by now rewrite Hperm.
  unfold pruneHistory.
  destruct (deleteOldJobs_count limit (Z.of_nat (length (sortSlice startTimeLess jobs))) 0
              (sortSlice startTimeLess jobs) w)
    as (errs & w' & Hrun & Htrace & Herrs & Hsame); rewrite ?Hlen; try lia.
  rewrite Hlen, Z.sub_0_r in *.
  exists (take (Z.to_nat (Z.of_nat (length jobs) - limit)) (sortSlice startTimeLess jobs)),
    errs, w'.
  split_and!; auto.
  - rewrite length_take, Hlen. lia.
  - intros Hge. apply Hsame. lia.
Qed.

(** One partition, pruned: the deletes are those of the jobs the limit
    leaves no room for, in the order of the sorted slice, whatever the
    deletes return. *)
Lemma pruneHistory_exact historyLimit jobs (w : World Store) :
  (forall l, sortSlice startTimeLess l ≡ₚ l) ->
  withinInt32 historyLimit jobs ->
  exists errs w',
    prune historyLimit jobs w = (Continue tt, w') /\
    ticks w' = ticks w /\
    trace w' = trace w ++ zip_with EvDelete (toPrune sortSlice historyLimit jobs) errs /\
    length errs = length (toPrune sortSlice historyLimit jobs).
Proof.
  intros Hperm Hfit.
  destruct (pruneHistory_run Store Delete sortSlice historyLimit jobs w)
    as (evs & w0 & Hrun0 & Hticks & _).
  destruct historyLimit as [limit|]; simpl in Hfit |- *.
  - destruct Hfit as (Hlimit & Hsmall & Hdiff).
    assert (Hlen : length (sortSlice startTimeLess jobs) = length jobs) by now rewrite Hperm.
    unfold pruneHistory in *.
    destruct (deleteOldJobs_count limit (Z.of_nat (length (sortSlice startTimeLess jobs))) 0
                (sortSlice startTimeLess jobs) w)
      as (errs & w' & Hrun & Htrace & Herrs & _); rewrite ?Hlen; try lia.
    rewrite Hlen, Z.sub_0_r in *.
    exists errs, w'. split_and!; auto. congruence.
  - exists [], w. simpl. rewrite app_nil_r. auto.
Qed.

(** Both partitions, pruned in a row. *)
Lemma pruneHistories_exact cronJob c (w : World Store) :
  (forall l, sortSlice startTimeLess l ≡ₚ l) ->
  withinInt32 (batch.FailedJobsHistoryLimit (batch.Spec cronJob)) (failedJobs c) ->
  withinInt32 (batch.SuccessfulJobsHistoryLimit (batch.Spec cronJob)) (successfulJobs c) ->
  exists errs1 errs2 w',
    pruneHistories Store Delete sortSlice cronJob c w = (Continue tt, w') /\
    ticks w' = ticks w /\
    trace w'
    = trace w
      ++ zip_with EvDelete
           (toPrune sortSlice (batch.FailedJobsHistoryLimit (batch.Spec cronJob))
                    (failedJobs c)) errs1
      ++ zip_with EvDelete
           (toPrune sortSlice (batch.SuccessfulJobsHistoryLimit (batch.Spec cronJob))
                    (successfulJobs c)) errs2 /\
    length errs1
    = length (toPrune sortSlice (batch.FailedJobsHistoryLimit (batch.Spec cronJob))
                      (failedJobs c)) /\
    length errs2
    = length (toPrune sortSlice (batch.SuccessfulJobsHistoryLimit (batch.Spec cronJob))
                      (successfulJobs c)).
Proof.
  intros Hperm Hfit1 Hfit2. unfold pruneHistories, bind.
  destruct (pruneHistory_exact _ _ w Hperm Hfit1)
    as (errs1 & w1 & -> & Hticks1 & Htrace1 & Hlen1).
  destruct (pruneHistory_exact _ _ w1 Hperm Hfit2)
    as (errs2 & w2 & -> & Hticks2 & Htrace2 & Hlen2).
  exists errs1, errs2, w2. split_and!; auto; [congruence|].
  rewrite Htrace2, Htrace1. now rewrite app_assoc.
Qed.

Lemma toPrune_incl historyLimit jobs :
  (forall l, sortSlice startTimeLess l ≡ₚ l) ->
  toPrune sortSlice historyLimit jobs ⊆ jobs.
Proof.
  intros Hperm j Hj. destruct historyLimit as [limit|]; simpl in Hj; [|inversion Hj].
  apply subseteq_take in Hj. now rewrite Hperm in Hj.
Qed.

(** X7.  The two prunings of a reconcile never end it and never read the
    clock.  Where the [int32] test of the loops does not wrap, they issue
    one delete for each failed job its limit leaves no room for, then one
    for each such successful job, in the order of the sorted slices and
    whatever the deletes return: a delete that fails among the failed jobs
    does not keep the successful ones from being pruned. *)
Theorem pruneHistories_failed_then_successful cronJob c (w : World Store) :
  (forall l, sortSlice startTimeLess l ≡ₚ l) ->
  withinInt32 (batch.FailedJobsHistoryLimit (batch.Spec cronJob)) (failedJobs c) ->
  withinInt32 (batch.SuccessfulJobsHistoryLimit (batch.Spec cronJob)) (successfulJobs c) ->
  exists errs1 errs2 w',
    let evs1 := zip_with EvDelete
                  (toPrune sortSlice (batch.FailedJobsHistoryLimit (batch.Spec cronJob))
                           (failedJobs c)) errs1 in
    let evs2 := zip_with EvDelete
                  (toPrune sortSlice (batch.SuccessfulJobsHistoryLimit (batch.Spec cronJob))
                           (successfulJobs c)) errs2 in
    pruneHistories Store Delete sortSlice cronJob c w = (Continue tt, w') /\
    ticks w' = ticks w /\
    trace w' = trace w ++ evs1 ++ evs2 /\
    length errs1
    = length (toPrune sortSlice (batch.FailedJobsHistoryLimit (batch.Spec cronJob))
                      (failedJobs c)) /\
    length errs2
    = length (toPrune sortSlice (batch.SuccessfulJobsHistoryLimit (batch.Spec cronJob))
                      (successfulJobs c)) /\
    deletesOf (failedJobs c) evs1 /\ deletesOf (successfulJobs c) evs2 /\
    (pruneHistory Store Delete sortSlice
       (batch.FailedJobsHistoryLimit (batch.Spec cronJob)) (failedJobs c) w).1 = Continue tt /\
    trace (pruneHistory Store Delete sortSlice
             (batch.FailedJobsHistoryLimit (batch.Spec cronJob)) (failedJobs c) w).2
    = trace w ++ evs1.
Proof.
  intros Hperm Hfit1 Hfit2. unfold pruneHistories, bind.
  destruct (pruneHistory_exact _ _ w Hperm Hfit1)
    as (errs1 & w1 & -> & Hticks1 & Htrace1 & Hlen1).
  destruct (pruneHistory_exact _ _ w1 Hperm Hfit2)
    as (errs2 & w2 & -> & Hticks2 & Htrace2 & Hlen2).
  exists errs1, errs2, w2. cbv zeta. split_and!; auto; [congruence| | |].
  - rewrite Htrace2, Htrace1. now rewrite app_assoc.
  - eapply deletesOf_incl; [|apply zip_with_EvDelete_deletesOf]. now apply toPrune_incl.
  - eapply deletesOf_incl; [|apply zip_with_EvDelete_deletesOf]. now apply toPrune_incl.
Qed.

End PrunerMore.

Lemma pruneHistory_count_witness :
  pruneHistory MemStore memDelete mergeSortSlice None threeFailed (worldOf [] threeFailed)
  = (Continue tt, worldOf [] threeFailed) /\
  exists deleted errs w',
    pruneHistory MemStore memDelete mergeSortSlice (Some 5) threeFailed (worldOf [] threeFailed)
    = (Continue tt, w') /\
    trace w' = trace (worldOf [] threeFailed) ++ zip_with EvDelete deleted errs /\
    length errs = length deleted /\
    deleted = take (Z.to_nat (Z.of_nat (length threeFailed) - 5))
                (mergeSortSlice startTimeLess threeFailed) /\
    Z.of_nat (length deleted)
    = Z.min (Z.of_nat (length threeFailed)) (Z.max 0 (Z.of_nat (length threeFailed) - 5)) /\
    (Z.of_nat (length threeFailed) <= 5 -> w' = worldOf [] threeFailed).
Proof.
  apply (pruneHistory_count MemStore memDelete mergeSortSlice 5 threeFailed
           (worldOf [] threeFailed)).
  - intros l. apply mergeSortSlice_sorts.
  - vm_compute. split; [discriminate|reflexivity].
  - vm_compute. reflexivity.
  - vm_compute. split; [discriminate|reflexivity].
Defined.

(** X7 on a server that refuses to delete the failed job: the successful
    one is deleted all the same. *)
Lemma pruneHistories_failed_then_successful_witness :
  exists errs1 errs2 w',
    let evs1 := zip_with EvDelete
                  (toPrune mergeSortSlice (batch.FailedJobsHistoryLimit (batch.Spec tidyCronJob))
                           (failedJobs (memClassify oneFailedOneDone))) errs1 in
    let evs2 := zip_with EvDelete
                  (toPrune mergeSortSlice
                           (batch.SuccessfulJobsHistoryLimit (batch.Spec tidyCronJob))
                           (successfulJobs (memClassify oneFailedOneDone))) errs2 in
    pruneHistories MemStore memDelete mergeSortSlice tidyCronJob
      (memClassify oneFailedOneDone) stubbornWorld = (Continue tt, w') /\
    ticks w' = ticks stubbornWorld /\
    trace w' = trace stubbornWorld ++ evs1 ++ evs2 /\
    length errs1
    = length (toPrune mergeSortSlice (batch.FailedJobsHistoryLimit (batch.Spec tidyCronJob))
                      (failedJobs (memClassify oneFailedOneDone))) /\
    length errs2
    = length (toPrune mergeSortSlice
                      (batch.SuccessfulJobsHistoryLimit (batch.Spec tidyCronJob))
                      (successfulJobs (memClassify oneFailedOneDone))) /\
    deletesOf (failedJobs (memClassify oneFailedOneDone)) evs1 /\
    deletesOf (successfulJobs (memClassify oneFailedOneDone)) evs2 /\
    (pruneHistory MemStore memDelete mergeSortSlice
       (batch.FailedJobsHistoryLimit (batch.Spec tidyCronJob))
       (failedJobs (memClassify oneFailedOneDone)) stubbornWorld).1
    = Continue tt /\
    trace (pruneHistory MemStore memDelete mergeSortSlice
             (batch.FailedJobsHistoryLimit (batch.Spec tidyCronJob))
             (failedJobs (memClassify oneFailedOneDone)) stubbornWorld).2
    = trace stubbornWorld ++ evs1.
Proof.
  apply (pruneHistories_failed_then_successful MemStore memDelete mergeSortSlice
           tidyCronJob (memClassify oneFailedOneDone) stubbornWorld).
  - intros l. apply mergeSortSlice_sorts.
  - vm_compute. split_and!; (discriminate || reflexivity).
  - vm_compute. split_and!; (discriminate || reflexivity).
Defined.

(** The failed job stays, the successful one goes. *)
Example stubborn_failed_job :
  map describe
      (trace (pruneHistories MemStore memDelete mergeSortSlice tidyCronJob
                (memClassify oneFailedOneDone) stubbornWorld).2)
  = ["delete report-1609459020: failed"; "delete report-1609459200"] /\
  map kbatch.Name
      (jobs (store (pruneHistories MemStore memDelete mergeSortSlice tidyCronJob
                      (memClassify oneFailedOneDone) stubbornWorld).2))
  = ["report-1609459020"].
Proof. vm_compute. split; reflexivity. Qed.

(** ** More on the job constructor and the owner index *)

Section ConstructorMore.

Variable FormatRFC3339 : Time -> string.
Variable SetControllerReference :
  batch.CronJob -> list OwnerReference -> result (list OwnerReference).

Local Abbreviation construct := (constructJobForCronJob FormatRFC3339 SetControllerReference).

(** X8.  The constructor fails exactly when [SetControllerReference] fails
    on a job with no owner yet, and with its error.  Otherwise the job it
    builds has the parent's namespace, the labels and the spec of the
    template, the template's annotations with the scheduled time stamped
    over them, the owner references [SetControllerReference] set, and an
    empty status; nothing of the parent's status or of its other settings
    enters the job. *)
Theorem constructJob_iff cronJob scheduledTime :
  (forall err, construct cronJob scheduledTime = Err err
               <-> SetControllerReference cronJob [] = Err err) /\
  (forall job, construct cronJob scheduledTime = Ok job <->
     exists refs,
       SetControllerReference cronJob [] = Ok refs /\
       job = kbatch.mkJob
               (batch.Name cronJob +:+ "-" +:+ pretty (time.Unix scheduledTime))
               (batch.Namespace cronJob)
               (batchv1beta1.Labels (batch.JobTemplate (batch.Spec cronJob)))
               (<[scheduledTimeAnnotation := FormatRFC3339 scheduledTime]>
                  (batchv1beta1.Annotations (batch.JobTemplate (batch.Spec cronJob))))
               refs
               (batchv1beta1.Spec (batch.JobTemplate (batch.Spec cronJob)))
               (kbatch.mkJobStatus None [])).
Proof.
  unfold constructJobForCronJob. rewrite !copyInto_empty.
  destruct (SetControllerReference cronJob []) as [refs|e]; split.
  - intros err. split; discriminate.
  - intros job. split.
    + intros [= <-]. exists refs. split; reflexivity.
    + intros (refs' & [= <-] & ->). reflexivity.
  - intros err. split; intros [= <-]; reflexivity.
  - intros job. split; [discriminate|]. intros (refs & Hrefs & _). discriminate.
Qed.

(** X9.  The owner index files a job under at most one name, and under
    the name [n] exactly when the first of its owner references that is a
    controller has the API version of this group, the kind "CronJob" and the
    name [n].  A job with no controller, or with a controller of another
    kind or group, is filed under no name. *)
Theorem indexJobOwner_spec job :
  (length (indexJobOwner job) <= 1)%nat /\
  (forall n, n ∈ indexJobOwner job <->
     exists owner,
       GetControllerOf job = Some owner /\
       ownerAPIVersion owner = apiGVStr /\ ownerKind owner = "CronJob" /\
       ownerName owner = n) /\
  (forall owner, GetControllerOf job = Some owner ->
     owner ∈ kbatch.OwnerReferences job /\ ownerController owner = true) /\
  (GetControllerOf job = None <->
   forall owner, owner ∈ kbatch.OwnerReferences job -> ownerController owner = false).
Proof.
  unfold indexJobOwner, GetControllerOf. split_and!.
  - destruct (List.find _ _) as [owner|]; [|simpl; lia].
    destruct (_ || _); simpl; lia.
  - intros n. destruct (List.find _ _) as [owner|].
    + repeat case_bool_decide; simpl; split.
      * intros Hn. apply list_elem_of_singleton in Hn. exists owner. auto.
      * intros (o & [= <-] & _ & _ & <-). left.
      * intros Hn. inversion Hn.
      * intros (o & [= <-] & Hv & Hk & _). contradiction.
      * intros Hn. inversion Hn.
      * intros (o & [= <-] & Hv & Hk & _). contradiction.
      * intros Hn. inversion Hn.
      * intros (o & [= <-] & Hv & Hk & _). contradiction.
    + split; [intros Hn; inversion Hn|]. intros (o & Ho & _). discriminate.
  - intros owner Hfind. apply find_some in Hfind as [Hin Hc].
    split; [now apply list_elem_of_In|exact Hc].
  - split.
    + intros Hnone owner Hin. apply list_elem_of_In in Hin.
      apply (find_none _ _ Hnone) in Hin. exact Hin.
    + intros Hall. destruct (List.find _ _) as [owner|] eqn:Hfind; [|reflexivity].
      apply find_some in Hfind as [Hin Hc]. apply list_elem_of_In, Hall in Hin. congruence.
Qed.

(** X10.  A job the constructor builds is filed by the owner index under
    its parent's name, and under no other, once [SetControllerReference]
    answers with a controller reference to the parent in front: the children
    a reconcile lists by that name include the jobs earlier reconciles
    built. *)
Theorem constructed_job_indexed cronJob scheduledTime job owner refs :
  construct cronJob scheduledTime = Ok job ->
  SetControllerReference cronJob [] = Ok (owner :: refs) ->
  ownerController owner = true ->
  ownerAPIVersion owner = apiGVStr ->
  ownerKind owner = "CronJob" ->
  ownerName owner = batch.Name cronJob ->
  indexJobOwner job = [batch.Name cronJob].
Proof.
  intros Hjob Hrefs Hc Hv Hk Hn.
  unfold constructJobForCronJob in Hjob. rewrite Hrefs in Hjob. injection Hjob as <-.
  unfold indexJobOwner, GetControllerOf. simpl. rewrite Hc, Hv, Hk, Hn.
  rewrite !bool_decide_eq_true_2 by reflexivity. reflexivity.
Qed.

End ConstructorMore.

Lemma constructed_job_indexed_witness :
  indexJobOwner (builtJob keepingCronJob (unixTime 1609459200)) = [batch.Name keepingCronJob].
Proof.
  apply (constructed_job_indexed utcFormatRFC3339 memSetControllerReference keepingCronJob
           (unixTime 1609459200) (builtJob keepingCronJob (unixTime 1609459200))
           (mkOwnerReference apiGVStr "CronJob" "report" true) []); reflexivity.
Defined.

(** ** More on the reconciler *)

Lemma none_filtered {A} (P : A -> bool) (l : list A) :
  Forall (fun x => P x = false) l -> List.filter P l = [].
Proof.
  induction 1 as [|x l Hx _ IH]; simpl; [reflexivity|]. now rewrite Hx.
Qed.

Lemma deletesOf_no_create jobs evs :
  deletesOf jobs evs -> Forall (fun e => isCreate e = false) evs.
Proof. intros H. eapply Forall_impl; [exact H|]. now intros []. Qed.

Lemma deletesOf_no_construct jobs evs :
  deletesOf jobs evs -> Forall (fun e => isConstruct e = false) evs.
Proof. intros H. eapply Forall_impl; [exact H|]. now intros []. Qed.

Lemma deletesOf_elem jobs evs j err : deletesOf jobs evs -> EvDelete j err ∈ evs -> j ∈ jobs.
Proof.
  intros H Hin. unfold deletesOf in H. rewrite Forall_forall in H. now apply H in Hin.
Qed.

Section ReconcileMore.

Variable Store : Type.
Variable Get : Store -> string -> string -> result batch.CronJob.
Variable List : Store -> string -> string -> result (list kbatch.Job).
Variable StatusUpdate : Store -> batch.CronJob -> Store * option error.
Variable Delete : Store -> kbatch.Job -> Store * option error.
Variable Create : Store -> kbatch.Job -> Store * option error.
Variable Now : nat -> Time.
Variable ParseStandard : string -> result cron.Schedule.
Variable FormatRFC3339 : Time -> string.
Variable isJobFinished : kbatch.Job -> bool * kbatch.JobConditionType.
Variable getScheduledTimeForJob : kbatch.Job -> result (option Time).
Variable sortSlice : (kbatch.Job -> kbatch.Job -> bool) -> list kbatch.Job -> list kbatch.Job.
Variable GetReference : kbatch.Job -> result ObjectReference.
Variable SetControllerReference :
  batch.CronJob -> list OwnerReference -> result (list OwnerReference).

Local Abbreviation reconcile :=
  (Reconcile Store Get List StatusUpdate Delete Create Now ParseStandard FormatRFC3339
             isJobFinished getScheduledTimeForJob sortSlice GetReference
             SetControllerReference).
Local Abbreviation body :=
  (reconcileBody Store Get List StatusUpdate Delete Create Now ParseStandard FormatRFC3339
                 isJobFinished getScheduledTimeForJob sortSlice GetReference
                 SetControllerReference).
Local Abbreviation schedule :=
  (scheduleRun Store Delete Create Now ParseStandard FormatRFC3339 SetControllerReference).
Local Abbreviation create :=
  (createRun Store Delete Create FormatRFC3339 SetControllerReference).
Local Abbreviation lastStage :=
  (constructAndCreate Store Create FormatRFC3339 SetControllerReference).
Local Abbreviation construct := (constructJobForCronJob FormatRFC3339 SetControllerReference).
Local Abbreviation prunes := (pruneHistories Store Delete sortSlice).
Local Abbreviation classify' := (classify isJobFinished getScheduledTimeForJob).
Local Abbreviation observed' := (observed GetReference).
Local Abbreviation finishedType := (finishedType isJobFinished).
Local Abbreviation nextSchedule := (getNextSchedule ParseStandard).

(** *** The stages, case by case *)

Lemma reconcile_of_body req (w : World Store) :
  reconcile req w = (outcomeOf (body req w).1, (body req w).2).
Proof. unfold Reconcile. now destruct (body req w). Qed.

Lemma body_get_fails req (w : World Store) err :
  Get (store w) (ctrl.Namespace req) (ctrl.Name req) = Err err ->
  body req w = (Return (ctrl.empty, IgnoreNotFound (Some err)),
                emit Store (EvGet (ctrl.Namespace req) (ctrl.Name req)) w).
Proof.
  intros Hget. unfold reconcileBody, bind, callGet. simpl. now rewrite Hget.
Qed.

Lemma body_list_fails req (w : World Store) cronJob err :
  Get (store w) (ctrl.Namespace req) (ctrl.Name req) = Ok cronJob ->
  List (store w) (ctrl.Namespace req) (ctrl.Name req) = Err err ->
  body req w = (Return (ctrl.empty, Some err),
                mkWorld (store w) (ticks w)
                        (trace w ++ [EvGet (ctrl.Namespace req) (ctrl.Name req);
                                     EvList (ctrl.Namespace req) (ctrl.Name req)])).
Proof.
  intros Hget Hlist. unfold reconcileBody, bind, callGet, callList. simpl.
  rewrite Hget. simpl. rewrite Hlist. unfold exit, emit. simpl.
  now rewrite <- app_assoc.
Qed.

(** The calculator stage with a result in hand: it reads the clock, then
    ends the reconcile or hands over to the last stage. *)
Lemma scheduleRun_cases cronJob c (w : World Store) missedRun nextRun :
  nextSchedule cronJob (Now (ticks w)) = Some (missedRun, nextRun, None) ->
  exists w3,
    store w3 = store w /\ trace w3 = trace w /\
    schedule cronJob c w =
      if time.IsZero missedRun || tooLate cronJob missedRun (Now (3 + ticks w))
      then (Return (ctrl.mkResult false (time.Sub nextRun (Now (S (ticks w)))), None), w3)
      else create cronJob c missedRun
                  (ctrl.mkResult false (time.Sub nextRun (Now (S (ticks w))))) w3.
Proof.
  intros Hnext. unfold scheduleRun, bind, callNow, tooLate. simpl. rewrite Hnext.
  destruct (time.IsZero missedRun); simpl.
  - eexists. split_and!; [| |reflexivity]; reflexivity.
  - destruct (batch.StartingDeadlineSeconds (batch.Spec cronJob)) as [d|]; simpl.
    + destruct (time.Before _ _); simpl; eexists; (split_and!; [| |reflexivity]; reflexivity).
    + eexists. split_and!; [| |reflexivity]; reflexivity.
Qed.

(** The last stage: the attempt to construct, then the create. *)
Lemma constructAndCreate_cases cronJob missedRun scheduledResult (w : World Store) :
  match construct cronJob missedRun with
  | Err _ =>
      lastStage cronJob missedRun scheduledResult w
      = (Return (scheduledResult, None),
         mkWorld (store w) (ticks w) (trace w ++ [EvConstruct missedRun]))
  | Ok job =>
      lastStage cronJob missedRun scheduledResult w
      = (match (Create (store w) job).2 with
         | Some _ => Return (ctrl.empty, (Create (store w) job).2)
         | None => Continue (scheduledResult, None)
         end,
         mkWorld (Create (store w) job).1 (ticks w)
                 (trace w ++ [EvConstruct missedRun; EvCreate job (Create (store w) job).2]))
  end.
Proof.
  unfold constructAndCreate, bind, note, emit, callCreate, exit, ret. simpl.
  destruct (construct cronJob missedRun) as [job|e]; simpl; [|reflexivity].
  destruct (Create (store w) job) as [s [e|]]; simpl; now rewrite <- app_assoc.
Qed.

(** With a policy that neither forbids nor replaces, the policy stage does
    nothing. *)
Lemma createRun_plain cronJob c missedRun scheduledResult (w : World Store) :
  batch.ConcurrencyPolicy (batch.Spec cronJob) <> ReplaceConcurrent ->
  (batch.ConcurrencyPolicy (batch.Spec cronJob) = ForbidConcurrent -> activeJobs c = []) ->
  create cronJob c missedRun scheduledResult w
  = lastStage cronJob missedRun scheduledResult w.
Proof.
  intros Hreplace Hforbid. unfold createRun.
  assert (bool_decide (batch.ConcurrencyPolicy (batch.Spec cronJob) = ForbidConcurrent)
          && bool_decide (0 < length (activeJobs c))%nat = false) as ->.
  { case_bool_decide as Hf; [|reflexivity]. rewrite (Hforbid Hf). reflexivity. }
  rewrite bool_decide_eq_false_2 by exact Hreplace. reflexivity.
Qed.

(** A reconcile that wrote the status back and is not suspended is the
    calculator stage run after the pruning. *)
Lemma body_reaches_schedule req (w : World Store) cronJob childJobs s1 :
  Get (store w) (ctrl.Namespace req) (ctrl.Name req) = Ok cronJob ->
  List (store w) (ctrl.Namespace req) (ctrl.Name req) = Ok childJobs ->
  StatusUpdate (store w) (observed' cronJob (classify' childJobs)) = (s1, None) ->
  batch.Suspend (batch.Spec cronJob) <> Some true ->
  exists pruned w2,
    prunes (observed' cronJob (classify' childJobs)) (classify' childJobs)
           (mkWorld s1 (ticks w)
              (trace w ++ opening req (observed' cronJob (classify' childJobs)) None))
    = (Continue tt, w2) /\
    ticks w2 = ticks w /\
    trace w2 = trace w ++ opening req (observed' cronJob (classify' childJobs)) None ++ pruned /\
    deletesOf (sortSlice startTimeLess (failedJobs (classify' childJobs))
               ++ sortSlice startTimeLess (successfulJobs (classify' childJobs))) pruned /\
    body req w
    = schedule (observed' cronJob (classify' childJobs)) (classify' childJobs) w2.
Proof.
  intros Hget Hlist Hupdate Hsuspend.
  rewrite (reconcileBody_prefix Store Get List StatusUpdate Delete Create Now ParseStandard
             FormatRFC3339 isJobFinished getScheduledTimeForJob sortSlice GetReference
             SetControllerReference req w cronJob childJobs s1 None Hget Hlist Hupdate).
  cbv zeta. unfold bind, opening.
  destruct (pruneHistories_run Store Delete sortSlice
              (observed' cronJob (classify' childJobs)) (classify' childJobs)
              (mkWorld s1 (ticks w)
                 (trace w ++ [EvGet (ctrl.Namespace req) (ctrl.Name req);
                              EvList (ctrl.Namespace req) (ctrl.Name req);
                              EvStatusUpdate (observed' cronJob (classify' childJobs)) None])))
    as (pruned & w2 & Hrun & Hticks & Htrace & Hpruned).
  exists pruned, w2. rewrite Hrun. split_and!; auto.
  - rewrite Htrace. simpl. now rewrite <- app_assoc.
  - destruct (batch.Suspend (batch.Spec cronJob)) as [[|]|]; congruence.
Qed.

(** *** The calls of one reconcile, in order *)

(** A missed run the calculator returns lies after the bound it started
    from and not after [now]. *)
Lemma missed_run_in_window cronJob now sched missedRun nextRun :
  ParseStandard (batch.Schedule (batch.Spec cronJob)) = Ok sched ->
  nextIsLater sched ->
  nextSchedule cronJob now = Some (missedRun, nextRun, None) ->
  time.IsZero missedRun = false ->
  boundTime cronJob < missedRun <= now.
Proof.
  intros Hparse Hlater Hrun Hmissed.
  assert (Hbound : boundTime cronJob <= earliestTime cronJob now).
  { unfold earliestTime. destruct (batch.StartingDeadlineSeconds _); [|lia].
    destruct (time.After _ _) eqn:Hafter; [|lia].
    apply After_true in Hafter. lia. }
  revert Hrun. unfold getNextSchedule, getNextScheduleFuel. rewrite Hparse. cbv beta iota zeta.
  destruct (time.After _ _).
  - intros [= <- _]. discriminate.
  - intros Hrun. apply missedStarts_ok in Hrun as [_ [[-> _]|Hin]]; auto.
    + discriminate.
    + specialize (Hlater (earliestTime cronJob now)). lia.
Qed.

(** The policy stage and the last one: deletes of active jobs, under the
    replace policy only, then at most the attempt to construct the job and
    the create of what was constructed. *)
Lemma createRun_anatomy cronJob c missedRun scheduledResult (w : World Store) :
  exists dels tail,
    trace (create cronJob c missedRun scheduledResult w).2 = trace w ++ dels ++ tail /\
    deletesOf (activeJobs c) dels /\
    (dels <> [] -> batch.ConcurrencyPolicy (batch.Spec cronJob) = ReplaceConcurrent) /\
    (tail = [] \/ tail = [EvConstruct missedRun] \/
     exists job err,
       construct cronJob missedRun = Ok job /\
       tail = [EvConstruct missedRun; EvCreate job err]).
Proof.
  assert (Hlast : forall (w1 : World Store) dels,
            trace w1 = trace w ++ dels ->
            exists tail,
              trace (lastStage cronJob missedRun scheduledResult w1).2
              = trace w ++ dels ++ tail /\
              (tail = [] \/ tail = [EvConstruct missedRun] \/
               exists job err,
                 construct cronJob missedRun = Ok job /\
                 tail = [EvConstruct missedRun; EvCreate job err])).
  { intros w1 dels Hw1.
    pose proof (constructAndCreate_cases cronJob missedRun scheduledResult w1) as Hcases.
    destruct (construct cronJob missedRun) as [job|e]; rewrite Hcases; cbn [snd trace];
      rewrite Hw1, <- app_assoc.
    - exists [EvConstruct missedRun; EvCreate job (Create (store w1) job).2].
      split; [reflexivity|]. right. right. now exists job, (Create (store w1) job).2.
    - exists [EvConstruct missedRun]. auto. }
  unfold createRun.
  destruct (_ && _).
  { exists [], []. simpl. rewrite app_nil_r. split_and!; auto; [constructor|congruence]. }
  case_bool_decide as Hpolicy; unfold bind.
  - destruct (deleteActiveJobs_run Store Delete (activeJobs c) w)
      as (evs & w1 & _ & Htrace & [(-> & Hquiet & _)|(evs0 & j & e & -> & -> & Hquiet & Hj & _)]).
    + destruct (Hlast w1 evs Htrace) as (tail & Htail & Hshape).
      exists evs, tail. split_and!; auto. now apply quietDeletesOf_deletesOf.
    + exists (evs0 ++ [EvDelete j (Some e)]), []. cbn [snd]. rewrite Htrace, app_nil_r.
      split_and!; auto. apply Forall_app. split; [now apply quietDeletesOf_deletesOf|].
      repeat constructor. exact Hj.
  - destruct (Hlast w [] (eq_sym (app_nil_r _))) as (tail & Htail & Hshape).
    exists [], tail. split_and!; auto; [constructor|congruence].
Qed.

(** One reconcile that fetched the cron job and listed its children: the
    three opening calls, the deletes of the pruner, the deletes of the
    replace policy, and, for a missed run the calculator returned, the
    attempt to construct its job and the create. *)
Lemma reconcile_anatomy req (w : World Store) cronJob childJobs :
  Get (store w) (ctrl.Namespace req) (ctrl.Name req) = Ok cronJob ->
  List (store w) (ctrl.Namespace req) (ctrl.Name req) = Ok childJobs ->
  exists err pruned dels tail,
    trace (reconcile req w).2
    = trace w ++ opening req (observed' cronJob (classify' childJobs)) err
              ++ pruned ++ dels ++ tail /\
    deletesOf (sortSlice startTimeLess (failedJobs (classify' childJobs))
               ++ sortSlice startTimeLess (successfulJobs (classify' childJobs))) pruned /\
    deletesOf (activeJobs (classify' childJobs)) dels /\
    (dels <> [] -> batch.ConcurrencyPolicy (batch.Spec cronJob) = ReplaceConcurrent) /\
    (tail = [] \/
     exists missedRun nextRun,
       nextSchedule (observed' cronJob (classify' childJobs)) (Now (ticks w))
       = Some (missedRun, nextRun, None) /\
       time.IsZero missedRun = false /\
       tooLate (observed' cronJob (classify' childJobs)) missedRun (Now (3 + ticks w)) = false /\
       (tail = [EvConstruct missedRun] \/
        exists job e,
          construct (observed' cronJob (classify' childJobs)) missedRun = Ok job /\
          tail = [EvConstruct missedRun; EvCreate job e])).
Proof.
  intros Hget Hlist.
  set (c := classify' childJobs). set (cronJob' := observed' cronJob c).
  assert (Hnone : forall l, deletesOf l []) by (intros l; constructor).
  destruct (StatusUpdate (store w) cronJob') as [s1 err] eqn:Hupdate.
  rewrite reconcile_of_body.
  destruct err as [e|].
  { rewrite (reconcileBody_prefix Store Get List StatusUpdate Delete Create Now ParseStandard
               FormatRFC3339 isJobFinished getScheduledTimeForJob sortSlice GetReference
               SetControllerReference req w cronJob childJobs s1 (Some e) Hget Hlist Hupdate).
    exists (Some e), [], [], []. cbn. split_and!; auto. congruence. }
  destruct (decide (batch.Suspend (batch.Spec cronJob) = Some true)) as [Hsuspend|Hsuspend].
  { rewrite (reconcileBody_prefix Store Get List StatusUpdate Delete Create Now ParseStandard
               FormatRFC3339 isJobFinished getScheduledTimeForJob sortSlice GetReference
               SetControllerReference req w cronJob childJobs s1 None Hget Hlist Hupdate).
    cbv zeta. unfold bind. fold c. fold cronJob'.
    destruct (pruneHistories_run Store Delete sortSlice cronJob' c
                (mkWorld s1 (ticks w)
                   (trace w ++ [EvGet (ctrl.Namespace req) (ctrl.Name req);
                                EvList (ctrl.Namespace req) (ctrl.Name req);
                                EvStatusUpdate cronJob' None])))
      as (pruned & w2 & -> & _ & Htrace & Hpruned).
    rewrite Hsuspend. exists None, pruned, [], []. cbn [snd exit]. rewrite Htrace. cbn [trace].
    rewrite <- app_assoc, !app_nil_r. split_and!; auto. congruence. }
  destruct (body_reaches_schedule req w cronJob childJobs s1 Hget Hlist Hupdate Hsuspend)
    as (pruned & w2 & _ & Hticks & Htrace & Hpruned & ->).
  fold c in Htrace, Hpruned |- *. fold cronJob' in Htrace |- *. cbn [snd].
  destruct (getNextSchedule_total ParseStandard cronJob' (Now (ticks w)))
    as [[[missedRun nextRun] err] Hnext].
  assert (Hquiet : forall w3 : World Store,
            trace w3 = trace w2 ->
            exists err pruned0 dels tail,
              trace w3 = trace w ++ opening req cronJob' err ++ pruned0 ++ dels ++ tail /\
              deletesOf (sortSlice startTimeLess (failedJobs c)
                         ++ sortSlice startTimeLess (successfulJobs c)) pruned0 /\
              deletesOf (activeJobs c) dels /\
              (dels <> [] ->
               batch.ConcurrencyPolicy (batch.Spec cronJob) = ReplaceConcurrent) /\
              (tail = [] \/
               exists missedRun nextRun,
                 nextSchedule cronJob' (Now (ticks w)) = Some (missedRun, nextRun, None) /\
                 time.IsZero missedRun = false /\
                 tooLate cronJob' missedRun (Now (3 + ticks w)) = false /\
                 (tail = [EvConstruct missedRun] \/
                  exists job e,
                    construct cronJob' missedRun = Ok job /\
                    tail = [EvConstruct missedRun; EvCreate job e]))).
  { intros w3 Hw3. exists None, pruned, [], []. rewrite Hw3, Htrace, !app_nil_r.
    split_and!; auto. congruence. }
  destruct err as [e|].
  { apply Hquiet. unfold scheduleRun, bind, callNow. simpl. now rewrite Hticks, Hnext. }
  rewrite <- Hticks in Hnext.
  destruct (scheduleRun_cases cronJob' c w2 missedRun nextRun Hnext)
    as (w3 & _ & Htrace3 & ->).
  rewrite Hticks in Hnext |- *.
  destruct (time.IsZero missedRun || tooLate cronJob' missedRun (Now (3 + ticks w)))
    eqn:Hstart.
  { apply Hquiet. exact Htrace3. }
  apply orb_false_iff in Hstart as [Hzero Hlate].
  destruct (createRun_anatomy cronJob' c missedRun
              (ctrl.mkResult false (time.Sub nextRun (Now (S (ticks w))))) w3)
    as (dels & tail & Htail & Hdels & Hpolicy & Hshape).
  exists None, pruned, dels, tail. rewrite Htail, Htrace3, Htrace, <- !app_assoc.
  split_and!; auto.
  destruct Hshape as [->|Hshape]; [now left|]. right. exists missedRun, nextRun. auto.
Qed.

(** *** The stages, call by call *)

(** The loop of the replace policy deletes the jobs in order: all of them,
    each delete answered by success or not-found; or up to the first one
    answered by another error, which ends the reconcile. *)
Lemma deleteActiveJobs_exact jobs (w : World Store) :
  exists errs w',
    ticks w' = ticks w /\
    trace w' = trace w ++ zip_with EvDelete jobs errs /\
    (length errs <= length jobs)%nat /\
    ((deleteActiveJobs Store Delete jobs w = (Continue tt, w') /\
      length errs = length jobs /\ Forall quiet errs) \/
     (exists errs0 e,
        deleteActiveJobs Store Delete jobs w = (Return (ctrl.empty, Some e), w') /\
        errs = errs0 ++ [Some e] /\ Forall quiet errs0 /\ e <> ErrNotFound)).
Proof.
  revert w. induction jobs as [|job rest IH]; intros w.
  - exists [], w. simpl. rewrite app_nil_r. split_and!; [reflexivity..|]. left. auto.
  - simpl. unfold bind, callDelete.
    destruct (Delete (store w) job) as [s err] eqn:Hdel.
    destruct (IgnoreNotFound err) as [e|] eqn:Hignore.
    + apply IgnoreNotFound_Some in Hignore as [-> Hne].
      exists [Some e], (mkWorld s (ticks w) (trace w ++ [EvDelete job (Some e)])).
      simpl. split_and!; auto; [destruct rest; reflexivity|lia|].
      right. exists [], e. split_and!; auto.
    + destruct (IH (mkWorld s (ticks w) (trace w ++ [EvDelete job err])))
        as (errs & w' & Hticks & Htrace & Hlen & Hcases).
      exists (err :: errs), w'. simpl in *. rewrite Htrace, <- app_assoc.
      split_and!; auto; [lia|].
      destruct Hcases as [(Hrun & Hall & Hquiet)|(errs0 & e & Hrun & -> & Hquiet & Hne)].
      * left. split_and!; auto.
      * right. exists (err :: errs0), e. split_and!; auto.
Qed.

(** The policy stage, when it is not the forbid policy with a job
    active: the jobs to replace are deleted, and the last stage follows
    unless a delete fails with another error than not-found. *)
Lemma createRun_exact cronJob c missedRun scheduledResult (w : World Store) :
  (batch.ConcurrencyPolicy (batch.Spec cronJob) = ForbidConcurrent -> activeJobs c = []) ->
  exists errs w1,
    ticks w1 = ticks w /\
    trace w1 = trace w ++ zip_with EvDelete (replaced cronJob c) errs /\
    (length errs <= length (replaced cronJob c))%nat /\
    ((length errs = length (replaced cronJob c) /\ Forall quiet errs /\
      create cronJob c missedRun scheduledResult w
      = lastStage cronJob missedRun scheduledResult w1) \/
     (exists errs0 e,
        batch.ConcurrencyPolicy (batch.Spec cronJob) = ReplaceConcurrent /\
        errs = errs0 ++ [Some e] /\ Forall quiet errs0 /\ e <> ErrNotFound /\
        create cronJob c missedRun scheduledResult w = (Return (ctrl.empty, Some e), w1))).
Proof.
  intros Hforbid. unfold createRun, replaced.
  assert (bool_decide (batch.ConcurrencyPolicy (batch.Spec cronJob) = ForbidConcurrent)
          && bool_decide (0 < length (activeJobs c))%nat = false) as ->.
  { case_bool_decide as Hf; [|reflexivity]. rewrite (Hforbid Hf). reflexivity. }
  case_bool_decide as Hpolicy; unfold bind.
  - destruct (deleteActiveJobs_exact (activeJobs c) w)
      as (errs & w1 & Hticks & Htrace & Hlen
          & [(-> & Hall & Hquiet)|(errs0 & e & -> & -> & Hquiet & Hne)]).
    + exists errs, w1. split_and!; auto.
    + exists (errs0 ++ [Some e]), w1. split_and!; auto.
      right. exists errs0, e. split_and!; auto.
  - exists [], w. simpl. rewrite app_nil_r. split_and!; auto.
Qed.

(** A reconcile that wrote the status back, with the deletes of its
    prunings, and what it goes on with. *)
Lemma body_prunes req (w : World Store) cronJob childJobs s1 :
  Get (store w) (ctrl.Namespace req) (ctrl.Name req) = Ok cronJob ->
  List (store w) (ctrl.Namespace req) (ctrl.Name req) = Ok childJobs ->
  StatusUpdate (store w) (observed' cronJob (classify' childJobs)) = (s1, None) ->
  (forall l, sortSlice startTimeLess l ≡ₚ l) ->
  withinInt32 (batch.FailedJobsHistoryLimit (batch.Spec cronJob))
              (failedJobs (classify' childJobs)) ->
  withinInt32 (batch.SuccessfulJobsHistoryLimit (batch.Spec cronJob))
              (successfulJobs (classify' childJobs)) ->
  exists errs1 errs2 w2,
    prunes (observed' cronJob (classify' childJobs)) (classify' childJobs)
           (mkWorld s1 (ticks w)
              (trace w ++ opening req (observed' cronJob (classify' childJobs)) None))
    = (Continue tt, w2) /\
    ticks w2 = ticks w /\
    trace w2 = trace w ++ opening req (observed' cronJob (classify' childJobs)) None
                       ++ pruningOf sortSlice cronJob (classify' childJobs) errs1 errs2 /\
    length errs1
    = length (toPrune sortSlice (batch.FailedJobsHistoryLimit (batch.Spec cronJob))
                      (failedJobs (classify' childJobs))) /\
    length errs2
    = length (toPrune sortSlice (batch.SuccessfulJobsHistoryLimit (batch.Spec cronJob))
                      (successfulJobs (classify' childJobs))) /\
    body req w
    = match batch.Suspend (batch.Spec cronJob) with
      | Some true => (Return (ctrl.empty, None), w2)
      | _ => schedule (observed' cronJob (classify' childJobs)) (classify' childJobs) w2
      end.
Proof.
  intros Hget Hlist Hupdate Hperm Hfit1 Hfit2.
  rewrite (reconcileBody_prefix Store Get List StatusUpdate Delete Create Now ParseStandard
             FormatRFC3339 isJobFinished getScheduledTimeForJob sortSlice GetReference
             SetControllerReference req w cronJob childJobs s1 None Hget Hlist Hupdate).
  cbv zeta. unfold bind, opening.
  destruct (pruneHistories_exact Store Delete sortSlice
              (observed' cronJob (classify' childJobs)) (classify' childJobs)
              (mkWorld s1 (ticks w)
                 (trace w ++ [EvGet (ctrl.Namespace req) (ctrl.Name req);
                              EvList (ctrl.Namespace req) (ctrl.Name req);
                              EvStatusUpdate (observed' cronJob (classify' childJobs)) None]))
              Hperm Hfit1 Hfit2)
    as (errs1 & errs2 & w2 & Hrun & Hticks & Htrace & Hlen1 & Hlen2).
  exists errs1, errs2, w2. rewrite Hrun. split_and!; auto.
  - rewrite Htrace. cbn [trace]. unfold pruningOf. now rewrite <- !app_assoc.
  - destruct (batch.Suspend (batch.Spec cronJob)) as [[|]|]; reflexivity.
Qed.

Lemma pruningOf_createsNothing cronJob c errs1 errs2 :
  createsNothing (pruningOf sortSlice cronJob c errs1 errs2).
Proof.
  apply createsNothing_app; eapply deletesOf_createsNothing, zip_with_EvDelete_deletesOf.
Qed.

(** *** Errors of the store *)

(** X11.  When the cron job cannot be fetched the reconcile stops there: it
    has made the one call, the store and the clock are untouched, and the
    outcome is the empty result with the error of the fetch, except that
    not-found is no error at all. *)
Theorem reconcile_get_fails req (w : World Store) err :
  Get (store w) (ctrl.Namespace req) (ctrl.Name req) = Err err ->
  reconcile req w
  = (Some (ctrl.empty, IgnoreNotFound (Some err)),
     mkWorld (store w) (ticks w)
             (trace w ++ [EvGet (ctrl.Namespace req) (ctrl.Name req)])) /\
  (err = ErrNotFound -> (reconcile req w).1 = Some (ctrl.empty, None)) /\
  (err <> ErrNotFound -> (reconcile req w).1 = Some (ctrl.empty, Some err)).
Proof.
  intros Hget. rewrite reconcile_of_body, (body_get_fails req w err Hget). simpl.
  split_and!; [reflexivity| |].
  - now intros ->.
  - intros Hne. destruct err; [congruence|reflexivity..].
Qed.

(** X12.  When the children cannot be listed the reconcile stops with the
    error of the list call as outcome, not-found included; no status is
    written and nothing is deleted or created. *)
Theorem reconcile_list_fails req (w : World Store) cronJob err :
  Get (store w) (ctrl.Namespace req) (ctrl.Name req) = Ok cronJob ->
  List (store w) (ctrl.Namespace req) (ctrl.Name req) = Err err ->
  reconcile req w
  = (Some (ctrl.empty, Some err),
     mkWorld (store w) (ticks w)
             (trace w ++ [EvGet (ctrl.Namespace req) (ctrl.Name req);
                          EvList (ctrl.Namespace req) (ctrl.Name req)])).
Proof.
  intros Hget Hlist.
  now rewrite reconcile_of_body, (body_list_fails req w cronJob err Hget Hlist).
Qed.

(** X13.  When the status update fails the reconcile stops with that error
    as outcome: no history is pruned, the clock is not read, and nothing is
    constructed or created. *)
Theorem reconcile_update_fails req (w : World Store) cronJob childJobs s1 err :
  Get (store w) (ctrl.Namespace req) (ctrl.Name req) = Ok cronJob ->
  List (store w) (ctrl.Namespace req) (ctrl.Name req) = Ok childJobs ->
  StatusUpdate (store w) (observed' cronJob (classify' childJobs)) = (s1, Some err) ->
  reconcile req w
  = (Some (ctrl.empty, Some err),
     mkWorld s1 (ticks w)
             (trace w ++ opening req (observed' cronJob (classify' childJobs)) (Some err))).
Proof.
  intros Hget Hlist Hupdate. rewrite reconcile_of_body.
  now rewrite (reconcileBody_prefix Store Get List StatusUpdate Delete Create Now
                 ParseStandard FormatRFC3339 isJobFinished getScheduledTimeForJob sortSlice
                 GetReference SetControllerReference req w cronJob childJobs s1 (Some err)
                 Hget Hlist Hupdate).
Qed.

(** *** Ways a reconcile ends without a job *)

(** X14.  When the calculator fails, be it on the schedule or on too many
    missed starts, the reconcile ends with the empty result and no error, so
    that no requeue is asked for.  It has written the status and pruned the
    histories: with a [sort.Slice] that permutes its slice and limits the
    [int32] test does not wrap on, one delete for each finished job its
    limit leaves no room for.  It has read the clock once, and constructed
    and created nothing. *)
Theorem reconcile_calculator_error
        req (w : World Store) cronJob childJobs s1 missedRun nextRun err :
  Get (store w) (ctrl.Namespace req) (ctrl.Name req) = Ok cronJob ->
  List (store w) (ctrl.Namespace req) (ctrl.Name req) = Ok childJobs ->
  StatusUpdate (store w) (observed' cronJob (classify' childJobs)) = (s1, None) ->
  batch.Suspend (batch.Spec cronJob) <> Some true ->
  nextSchedule (observed' cronJob (classify' childJobs)) (Now (ticks w))
  = Some (missedRun, nextRun, Some err) ->
  sortsByStartTime sortSlice ->
  withinInt32 (batch.FailedJobsHistoryLimit (batch.Spec cronJob))
              (failedJobs (classify' childJobs)) ->
  withinInt32 (batch.SuccessfulJobsHistoryLimit (batch.Spec cronJob))
              (successfulJobs (classify' childJobs)) ->
  (reconcile req w).1 = Some (ctrl.empty, None) /\
  ticks (reconcile req w).2 = S (ticks w) /\
  exists errs1 errs2,
    trace (reconcile req w).2
    = trace w ++ opening req (observed' cronJob (classify' childJobs)) None
              ++ pruningOf sortSlice cronJob (classify' childJobs) errs1 errs2 /\
    length errs1
    = length (toPrune sortSlice (batch.FailedJobsHistoryLimit (batch.Spec cronJob))
                      (failedJobs (classify' childJobs))) /\
    length errs2
    = length (toPrune sortSlice (batch.SuccessfulJobsHistoryLimit (batch.Spec cronJob))
                      (successfulJobs (classify' childJobs))).
Proof.
  intros Hget Hlist Hupdate Hsuspend Hnext Hsort Hfit1 Hfit2. rewrite reconcile_of_body.
  destruct (body_prunes req w cronJob childJobs s1 Hget Hlist Hupdate
              (fun l => proj1 (Hsort l)) Hfit1 Hfit2)
    as (errs1 & errs2 & w2 & _ & Hticks & Htrace & Hlen1 & Hlen2 & ->).
  assert (Hgo : forall A (x y : A),
            match batch.Suspend (batch.Spec cronJob) with Some true => x | _ => y end = y).
  { intros A x y. destruct (batch.Suspend (batch.Spec cronJob)) as [[|]|]; congruence. }
  rewrite Hgo.
  unfold scheduleRun, bind, callNow. simpl. rewrite Hticks, Hnext. simpl.
  split_and!; auto. exists errs1, errs2. auto.
Qed.

(** X15.  When the calculator returns no missed run, or a missed run that
    the test with the clock's fourth reading finds past its starting
    deadline, the reconcile ends with a requeue after the time from the
    clock's second reading to the next run, and no error: beyond the status
    update and the pruning it has called nothing, whatever the policy. *)
Theorem reconcile_nothing_to_start
        req (w : World Store) cronJob childJobs s1 missedRun nextRun :
  Get (store w) (ctrl.Namespace req) (ctrl.Name req) = Ok cronJob ->
  List (store w) (ctrl.Namespace req) (ctrl.Name req) = Ok childJobs ->
  StatusUpdate (store w) (observed' cronJob (classify' childJobs)) = (s1, None) ->
  batch.Suspend (batch.Spec cronJob) <> Some true ->
  nextSchedule (observed' cronJob (classify' childJobs)) (Now (ticks w))
  = Some (missedRun, nextRun, None) ->
  time.IsZero missedRun
  || tooLate (observed' cronJob (classify' childJobs)) missedRun (Now (3 + ticks w)) = true ->
  (reconcile req w).1
  = Some (ctrl.mkResult false (time.Sub nextRun (Now (S (ticks w)))), None) /\
  exists pruned,
    trace (reconcile req w).2
    = trace w ++ opening req (observed' cronJob (classify' childJobs)) None ++ pruned /\
    deletesOf (sortSlice startTimeLess (failedJobs (classify' childJobs))
               ++ sortSlice startTimeLess (successfulJobs (classify' childJobs))) pruned.
Proof.
  intros Hget Hlist Hupdate Hsuspend Hnext Hnone. rewrite reconcile_of_body.
  destruct (body_reaches_schedule req w cronJob childJobs s1 Hget Hlist Hupdate Hsuspend)
    as (pruned & w2 & _ & Hticks & Htrace & Hpruned & ->).
  rewrite <- Hticks in Hnext.
  destruct (scheduleRun_cases (observed' cronJob (classify' childJobs)) (classify' childJobs)
              w2 missedRun nextRun Hnext) as (w3 & _ & Htrace3 & ->).
  rewrite Hticks, Hnone. simpl. split; [reflexivity|].
  exists pruned. rewrite Htrace3. auto.
Qed.

(** *** The job is created *)

(** X16.  When a missed run is to be started, the policy is neither
    replace nor forbid with a job active, and the job can be constructed,
    the reconcile issues, after the status update and the pruning, exactly
    one create, for the constructed job, as its last call.  If the create
    fails, with whatever error, the outcome is the empty result with that
    error; if it succeeds, a requeue after the time to the next run.  No
    active job is deleted. *)
Theorem reconcile_creates_job
        req (w : World Store) cronJob childJobs s1 missedRun nextRun job :
  Get (store w) (ctrl.Namespace req) (ctrl.Name req) = Ok cronJob ->
  List (store w) (ctrl.Namespace req) (ctrl.Name req) = Ok childJobs ->
  StatusUpdate (store w) (observed' cronJob (classify' childJobs)) = (s1, None) ->
  batch.Suspend (batch.Spec cronJob) <> Some true ->
  nextSchedule (observed' cronJob (classify' childJobs)) (Now (ticks w))
  = Some (missedRun, nextRun, None) ->
  time.IsZero missedRun
  || tooLate (observed' cronJob (classify' childJobs)) missedRun (Now (3 + ticks w)) = false ->
  batch.ConcurrencyPolicy (batch.Spec cronJob) <> ReplaceConcurrent ->
  (batch.ConcurrencyPolicy (batch.Spec cronJob) = ForbidConcurrent ->
   activeJobs (classify' childJobs) = []) ->
  construct (observed' cronJob (classify' childJobs)) missedRun = Ok job ->
  exists pruned err,
    trace (reconcile req w).2
    = trace w ++ opening req (observed' cronJob (classify' childJobs)) None ++ pruned
              ++ [EvConstruct missedRun; EvCreate job err] /\
    deletesOf (sortSlice startTimeLess (failedJobs (classify' childJobs))
               ++ sortSlice startTimeLess (successfulJobs (classify' childJobs))) pruned /\
    (reconcile req w).1
    = Some (match err with
            | Some _ => (ctrl.empty, err)
            | None => (ctrl.mkResult false (time.Sub nextRun (Now (S (ticks w)))), None)
            end).
Proof.
  intros Hget Hlist Hupdate Hsuspend Hnext Hstart Hreplace Hforbid Hjob.
  rewrite reconcile_of_body.
  destruct (body_reaches_schedule req w cronJob childJobs s1 Hget Hlist Hupdate Hsuspend)
    as (pruned & w2 & _ & Hticks & Htrace & Hpruned & ->).
  rewrite <- Hticks in Hnext.
  destruct (scheduleRun_cases (observed' cronJob (classify' childJobs)) (classify' childJobs)
              w2 missedRun nextRun Hnext) as (w3 & _ & Htrace3 & ->).
  rewrite Hticks, Hstart.
  rewrite createRun_plain by assumption.
  pose proof (constructAndCreate_cases (observed' cronJob (classify' childJobs)) missedRun
                (ctrl.mkResult false (time.Sub nextRun (Now (S (ticks w))))) w3) as Hlast.
  rewrite Hjob in Hlast. rewrite Hlast. cbn [fst snd trace].
  exists pruned, (Create (store w3) job).2. rewrite Htrace3, Htrace, <- !app_assoc.
  split_and!; auto. now destruct ((Create (store w3) job).2).
Qed.

(** X17.  When a missed run is to be started, the policy is not forbid
    with a job active, and the job cannot be constructed, which is when
    [SetControllerReference] fails, no create is issued under any policy.
    Once the jobs to replace are deleted, each delete answered by success or
    not-found, the attempt to construct is the last step, and the outcome is
    a requeue after the time to the next run with no error.  Under the
    replace policy a delete answered by another error ends the reconcile
    before the attempt, with that error. *)
Theorem reconcile_construct_fails
        req (w : World Store) cronJob childJobs s1 missedRun nextRun err :
  Get (store w) (ctrl.Namespace req) (ctrl.Name req) = Ok cronJob ->
  List (store w) (ctrl.Namespace req) (ctrl.Name req) = Ok childJobs ->
  StatusUpdate (store w) (observed' cronJob (classify' childJobs)) = (s1, None) ->
  batch.Suspend (batch.Spec cronJob) <> Some true ->
  nextSchedule (observed' cronJob (classify' childJobs)) (Now (ticks w))
  = Some (missedRun, nextRun, None) ->
  time.IsZero missedRun
  || tooLate (observed' cronJob (classify' childJobs)) missedRun (Now (3 + ticks w)) = false ->
  (batch.ConcurrencyPolicy (batch.Spec cronJob) = ForbidConcurrent ->
   activeJobs (classify' childJobs) = []) ->
  SetControllerReference (observed' cronJob (classify' childJobs)) [] = Err err ->
  exists pruned errs,
    let deletes := zip_with EvDelete (replaced cronJob (classify' childJobs)) errs in
    deletesOf (sortSlice startTimeLess (failedJobs (classify' childJobs))
               ++ sortSlice startTimeLess (successfulJobs (classify' childJobs))) pruned /\
    (length errs <= length (replaced cronJob (classify' childJobs)))%nat /\
    ((length errs = length (replaced cronJob (classify' childJobs)) /\
      Forall quiet errs /\
      trace (reconcile req w).2
      = trace w ++ opening req (observed' cronJob (classify' childJobs)) None ++ pruned
                ++ deletes ++ [EvConstruct missedRun] /\
      (reconcile req w).1
      = Some (ctrl.mkResult false (time.Sub nextRun (Now (S (ticks w)))), None)) \/
     (exists errs0 e,
        batch.ConcurrencyPolicy (batch.Spec cronJob) = ReplaceConcurrent /\
        errs = errs0 ++ [Some e] /\ Forall quiet errs0 /\ e <> ErrNotFound /\
        trace (reconcile req w).2
        = trace w ++ opening req (observed' cronJob (classify' childJobs)) None ++ pruned
                  ++ deletes /\
        (reconcile req w).1 = Some (ctrl.empty, Some e))).
Proof.
  intros Hget Hlist Hupdate Hsuspend Hnext Hstart Hforbid Hscheme.
  rewrite reconcile_of_body.
  destruct (body_reaches_schedule req w cronJob childJobs s1 Hget Hlist Hupdate Hsuspend)
    as (pruned & w2 & _ & Hticks & Htrace & Hpruned & ->).
  rewrite <- Hticks in Hnext.
  destruct (scheduleRun_cases (observed' cronJob (classify' childJobs)) (classify' childJobs)
              w2 missedRun nextRun Hnext) as (w3 & _ & Htrace3 & ->).
  rewrite Hticks, Hstart.
  destruct (createRun_exact (observed' cronJob (classify' childJobs)) (classify' childJobs)
              missedRun (ctrl.mkResult false (time.Sub nextRun (Now (S (ticks w))))) w3 Hforbid)
    as (errs & w4 & _ & Htrace4 & Hlen
        & [(Hall & Hquiet & ->)|(errs0 & e & Hpolicy & -> & Hquiet & Hne & ->)]).
  - pose proof (constructAndCreate_cases (observed' cronJob (classify' childJobs)) missedRun
                  (ctrl.mkResult false (time.Sub nextRun (Now (S (ticks w))))) w4) as Hlast.
    assert (Hjob : construct (observed' cronJob (classify' childJobs)) missedRun = Err err).
    { unfold constructJobForCronJob. now rewrite Hscheme. }
    rewrite Hjob in Hlast. rewrite Hlast. cbn [fst snd trace outcomeOf].
    exists pruned, errs. cbv zeta. split_and!; auto. left.
    rewrite Htrace4, Htrace3, Htrace, <- !app_assoc. auto.
  - exists pruned, (errs0 ++ [Some e]). cbv zeta. split_and!; auto. right.
    exists errs0, e. cbn [fst snd outcomeOf].
    rewrite Htrace4, Htrace3, Htrace, <- !app_assoc. split_and!; auto.
Qed.

(** *** Suspension and the replace policy *)

(** C9.  A reconcile of a suspended cron job that fetched it, listed its
    children and wrote its status back: the status it wrote holds the
    references of the children with no finished condition and their most
    recent scheduled time.  Both histories are pruned: with a [sort.Slice]
    that sorts by start time and limits the [int32] test does not wrap on,
    the reconcile issues, after the status update, one delete for each
    failed job and then for each successful job its limit leaves no room
    for, and nothing else.  Nothing is constructed or created; the clock is
    not read; and the outcome is the empty result with no error, which asks
    for no requeue. *)
Theorem reconcile_suspended req (w : World Store) cronJob childJobs s1 :
  Get (store w) (ctrl.Namespace req) (ctrl.Name req) = Ok cronJob ->
  List (store w) (ctrl.Namespace req) (ctrl.Name req) = Ok childJobs ->
  batch.Suspend (batch.Spec cronJob) = Some true ->
  StatusUpdate (store w) (observed' cronJob (classify' childJobs)) = (s1, None) ->
  sortsByStartTime sortSlice ->
  withinInt32 (batch.FailedJobsHistoryLimit (batch.Spec cronJob))
              (failedJobs (classify' childJobs)) ->
  withinInt32 (batch.SuccessfulJobsHistoryLimit (batch.Spec cronJob))
              (successfulJobs (classify' childJobs)) ->
  let c := classify' childJobs in
  let cronJob' := observed' cronJob c in
  let w1 := mkWorld s1 (ticks w) (trace w ++ opening req cronJob' None) in
  activeJobs c = List.filter (fun j => bool_decide (finishedType j = "")) childJobs /\
  batch.Active (batch.Status cronJob') = activeReferences GetReference (activeJobs c) /\
  ((forall j, j ∈ activeJobs c -> exists r, GetReference j = Ok r) ->
   length (batch.Active (batch.Status cronJob')) = length (activeJobs c)) /\
  batch.LastScheduleTime (batch.Status cronJob') = mostRecentTime c /\
  reconcile req w = (Some (ctrl.empty, None), (prunes cronJob' c w1).2) /\
  exists errs1 errs2,
    trace (reconcile req w).2
    = trace w ++ opening req cronJob' None ++ pruningOf sortSlice cronJob c errs1 errs2 /\
    length errs1
    = length (toPrune sortSlice (batch.FailedJobsHistoryLimit (batch.Spec cronJob))
                      (failedJobs c)) /\
    length errs2
    = length (toPrune sortSlice (batch.SuccessfulJobsHistoryLimit (batch.Spec cronJob))
                      (successfulJobs c)) /\
    createsNothing (pruningOf sortSlice cronJob c errs1 errs2) /\
    ticks (reconcile req w).2 = ticks w.
Proof.
  intros Hget Hlist Hsuspend Hupdate Hsort Hfit1 Hfit2 c cronJob' w1.
  destruct (body_prunes req w cronJob childJobs s1 Hget Hlist Hupdate
              (fun l => proj1 (Hsort l)) Hfit1 Hfit2)
    as (errs1 & errs2 & w2 & Hprunes & Hticks & Htrace & Hlen1 & Hlen2 & Hbody).
  fold c in Hprunes, Htrace, Hlen1, Hlen2, Hbody. fold cronJob' in Hprunes, Htrace, Hbody.
  fold w1 in Hprunes. rewrite Hsuspend in Hbody.
  assert (Hrun : reconcile req w = (Some (ctrl.empty, None), w2)).
  { rewrite reconcile_of_body, Hbody. reflexivity. }
  split_and!.
  - apply (classify_partitions isJobFinished getScheduledTimeForJob childJobs).
  - reflexivity.
  - intros Hall. now apply activeReferences_length.
  - reflexivity.
  - rewrite Hrun, Hprunes. reflexivity.
  - exists errs1, errs2. rewrite Hrun. cbn [snd]. split_and!; auto.
    apply pruningOf_createsNothing.
Qed.

(** C8, as amended.  A reconcile under the replace policy that has a
    missed run to start deletes the active jobs in the order they were
    listed, after the status update and the pruning.  Either every active
    job gets its delete, each answered by success or by not-found, and the
    attempt to construct the job follows at once, with the create after it
    when the job could be constructed: a not-found answer does not stop the
    reconcile.  Or a delete is answered by another error: it is the last
    call, nothing is constructed or created, and the outcome is the empty
    result with that error. *)
Theorem reconcile_replace_deletes_first
        req (w : World Store) cronJob childJobs s1 missedRun nextRun :
  Get (store w) (ctrl.Namespace req) (ctrl.Name req) = Ok cronJob ->
  List (store w) (ctrl.Namespace req) (ctrl.Name req) = Ok childJobs ->
  StatusUpdate (store w) (observed' cronJob (classify' childJobs)) = (s1, None) ->
  batch.Suspend (batch.Spec cronJob) <> Some true ->
  nextSchedule (observed' cronJob (classify' childJobs)) (Now (ticks w))
  = Some (missedRun, nextRun, None) ->
  time.IsZero missedRun
  || tooLate (observed' cronJob (classify' childJobs)) missedRun (Now (3 + ticks w)) = false ->
  batch.ConcurrencyPolicy (batch.Spec cronJob) = ReplaceConcurrent ->
  let c := classify' childJobs in
  let cronJob' := observed' cronJob c in
  let scheduledResult := ctrl.mkResult false (time.Sub nextRun (Now (S (ticks w)))) in
  exists pruned errs,
    let deletes := zip_with EvDelete (activeJobs c) errs in
    deletesOf (sortSlice startTimeLess (failedJobs c)
               ++ sortSlice startTimeLess (successfulJobs c)) pruned /\
    (length errs <= length (activeJobs c))%nat /\
    ((length errs = length (activeJobs c) /\ Forall quiet errs /\
      exists rest,
        trace (reconcile req w).2
        = trace w ++ opening req cronJob' None ++ pruned ++ deletes
                  ++ EvConstruct missedRun :: rest /\
        match construct cronJob' missedRun with
        | Err _ => rest = [] /\ (reconcile req w).1 = Some (scheduledResult, None)
        | Ok job =>
            exists err,
              rest = [EvCreate job err] /\
              (reconcile req w).1
              = Some (match err with
                      | Some _ => (ctrl.empty, err)
                      | None => (scheduledResult, None)
                      end)
        end) \/
     (exists errs0 e,
        errs = errs0 ++ [Some e] /\ Forall quiet errs0 /\ e <> ErrNotFound /\
        trace (reconcile req w).2
        = trace w ++ opening req cronJob' None ++ pruned ++ deletes /\
        createsNothing (opening req cronJob' None ++ pruned ++ deletes) /\
        (reconcile req w).1 = Some (ctrl.empty, Some e))).
Proof.
  intros Hget Hlist Hupdate Hsuspend Hnext Hstart Hreplace c cronJob' scheduledResult.
  rewrite reconcile_of_body.
  destruct (body_reaches_schedule req w cronJob childJobs s1 Hget Hlist Hupdate Hsuspend)
    as (pruned & w2 & _ & Hticks & Htrace & Hpruned & ->).
  fold c in Htrace, Hpruned, Hnext, Hstart |- *.
  fold cronJob' in Htrace, Hnext, Hstart |- *.
  rewrite <- Hticks in Hnext.
  destruct (scheduleRun_cases cronJob' c w2 missedRun nextRun Hnext)
    as (w3 & _ & Htrace3 & ->).
  rewrite Hticks, Hstart. fold scheduledResult.
  assert (Hforbid : batch.ConcurrencyPolicy (batch.Spec cronJob') = ForbidConcurrent ->
                    activeJobs c = []).
  { cbn. rewrite Hreplace. discriminate. }
  assert (Hactive : replaced cronJob' c = activeJobs c).
  { unfold replaced. cbn. now rewrite bool_decide_eq_true_2. }
  destruct (createRun_exact cronJob' c missedRun scheduledResult w3 Hforbid)
    as (errs & w4 & _ & Htrace4 & Hlen
        & [(Hall & Hquiet & ->)|(errs0 & e & _ & -> & Hquiet & Hne & ->)]);
    rewrite Hactive in *.
  - exists pruned, errs. cbv zeta. split_and!; auto. left. split_and!; auto.
    pose proof (constructAndCreate_cases cronJob' missedRun scheduledResult w4) as Hlast.
    destruct (construct cronJob' missedRun) as [job|e]; rewrite Hlast; cbn [fst snd trace].
    + exists [EvCreate job (Create (store w4) job).2].
      rewrite Htrace4, Htrace3, Htrace, <- !app_assoc. split; [reflexivity|].
      exists (Create (store w4) job).2. split; [reflexivity|].
      now destruct ((Create (store w4) job).2).
    + exists []. rewrite Htrace4, Htrace3, Htrace, <- !app_assoc. auto.
  - exists pruned, (errs0 ++ [Some e]). cbv zeta. split_and!; auto. right.
    exists errs0, e. cbn [fst snd outcomeOf].
    rewrite Htrace4, Htrace3, Htrace, <- !app_assoc. split_and!; auto.
    apply createsNothing_app; [repeat constructor|].
    apply createsNothing_app; [eapply deletesOf_createsNothing; eassumption|].
    eapply deletesOf_createsNothing, zip_with_EvDelete_deletesOf.
Qed.

(** *** What no reconcile does *)

(** X18.  Whatever the store holds and answers, one reconcile attempts to
    construct at most one job and issues at most one create.  A create is
    its last call and follows the attempt directly; what it creates is the
    job constructed from the cron job as written back, in the cron job's
    namespace and named after the cron job and the Unix time of the run. *)
Theorem reconcile_creates_at_most_one req (w : World Store) :
  exists evs,
    trace (reconcile req w).2 = trace w ++ evs /\
    (length (List.filter isConstruct evs) <= 1)%nat /\
    (length (List.filter isCreate evs) <= 1)%nat /\
    forall job err,
      EvCreate job err ∈ evs ->
      exists pre missedRun cronJob childJobs,
        evs = pre ++ [EvConstruct missedRun; EvCreate job err] /\
        createsNothing pre /\
        Get (store w) (ctrl.Namespace req) (ctrl.Name req) = Ok cronJob /\
        List (store w) (ctrl.Namespace req) (ctrl.Name req) = Ok childJobs /\
        construct (observed' cronJob (classify' childJobs)) missedRun = Ok job /\
        kbatch.Name job = batch.Name cronJob +:+ "-" +:+ pretty (time.Unix missedRun) /\
        kbatch.Namespace job = batch.Namespace cronJob.
Proof.
  destruct (Get (store w) (ctrl.Namespace req) (ctrl.Name req)) as [cronJob|e] eqn:Hget.
  2: { rewrite reconcile_of_body, (body_get_fails req w e Hget). cbn [snd trace].
       eexists. split; [reflexivity|]. split_and!; [simpl; lia..|].
       intros job err Hin. apply list_elem_of_singleton in Hin. discriminate. }
  destruct (List (store w) (ctrl.Namespace req) (ctrl.Name req)) as [childJobs|e] eqn:Hlist.
  2: { rewrite reconcile_of_body, (body_list_fails req w cronJob e Hget Hlist). cbn [snd trace].
       eexists. split; [reflexivity|]. split_and!; [simpl; lia..|].
       intros job err Hin. repeat (apply elem_of_cons in Hin as [Hin|Hin]; [discriminate|]).
       inversion Hin. }
  destruct (reconcile_anatomy req w cronJob childJobs Hget Hlist)
    as (err & pruned & dels & tail & Htrace & Hpruned & Hdels & _ & Htail).
  set (cronJob' := observed' cronJob (classify' childJobs)) in *.
  assert (Hquiet : createsNothing (opening req cronJob' err ++ pruned ++ dels)).
  { apply createsNothing_app; [repeat constructor|].
    apply createsNothing_app; eapply deletesOf_createsNothing; eassumption. }
  set (pre := opening req cronJob' err ++ pruned ++ dels) in *.
  exists (pre ++ tail).
  split; [rewrite Htrace; unfold pre; now rewrite <- !app_assoc|].
  assert (Hconstructs : List.filter isConstruct pre = []).
  { apply none_filtered. eapply Forall_impl; [exact Hquiet|]. now intros x [? _]. }
  assert (Hcreates : List.filter isCreate pre = []).
  { apply none_filtered. eapply Forall_impl; [exact Hquiet|]. now intros x [_ ?]. }
  rewrite !List.filter_app, Hconstructs, Hcreates. cbn [app].
  assert (Hpre : forall job e, EvCreate job e ∈ pre -> False).
  { intros job e Hin. unfold createsNothing in Hquiet.
    rewrite Forall_forall in Hquiet. apply Hquiet in Hin as [_ Hin]. discriminate. }
  destruct Htail as [->|(missedRun & nextRun & _ & _ & _ & [->|(job & e & Hjob & ->)])].
  - split_and!; [simpl; lia..|]. intros job e Hin. rewrite app_nil_r in Hin.
    destruct (Hpre job e Hin).
  - split_and!; [simpl; lia..|]. intros job e Hin.
    apply elem_of_app in Hin as [Hin|Hin]; [destruct (Hpre job e Hin)|].
    apply list_elem_of_singleton in Hin. discriminate.
  - split_and!; [simpl; lia..|]. intros job0 e0 Hin.
    apply elem_of_app in Hin as [Hin|Hin]; [destruct (Hpre job0 e0 Hin)|].
    apply elem_of_cons in Hin as [Hin|Hin]; [discriminate|].
    apply list_elem_of_singleton in Hin. injection Hin as -> ->.
    exists pre, missedRun, cronJob, childJobs. split_and!; auto;
      now destruct (constructJob_inv FormatRFC3339 SetControllerReference
                      cronJob' missedRun job Hjob) as (? & ? & _).
Qed.

(** X19.  With a [sort.Slice] that returns the jobs it was given, one
    reconcile deletes only children it has listed: finished ones, and
    active ones only under the replace policy. *)
Theorem reconcile_deletes_only_listed req (w : World Store) :
  sortsByStartTime sortSlice ->
  exists evs,
    trace (reconcile req w).2 = trace w ++ evs /\
    forall job err,
      EvDelete job err ∈ evs ->
      exists cronJob childJobs,
        Get (store w) (ctrl.Namespace req) (ctrl.Name req) = Ok cronJob /\
        List (store w) (ctrl.Namespace req) (ctrl.Name req) = Ok childJobs /\
        job ∈ childJobs /\
        (finishedType job = kbatch.JobFailed \/
         finishedType job = kbatch.JobComplete \/
         finishedType job = "" /\
         batch.ConcurrencyPolicy (batch.Spec cronJob) = ReplaceConcurrent).
Proof.
  intros Hsort.
  destruct (Get (store w) (ctrl.Namespace req) (ctrl.Name req)) as [cronJob|e] eqn:Hget.
  2: { rewrite reconcile_of_body, (body_get_fails req w e Hget). cbn [snd trace].
       eexists. split; [reflexivity|].
       intros job err Hin. apply list_elem_of_singleton in Hin. discriminate. }
  destruct (List (store w) (ctrl.Namespace req) (ctrl.Name req)) as [childJobs|e] eqn:Hlist.
  2: { rewrite reconcile_of_body, (body_list_fails req w cronJob e Hget Hlist). cbn [snd trace].
       eexists. split; [reflexivity|].
       intros job err Hin. repeat (apply elem_of_cons in Hin as [Hin|Hin]; [discriminate|]).
       inversion Hin. }
  destruct (reconcile_anatomy req w cronJob childJobs Hget Hlist)
    as (err & pruned & dels & tail & Htrace & Hpruned & Hdels & Hpolicy & Htail).
  eexists. split; [exact Htrace|].
  destruct (classify_partitions isJobFinished getScheduledTimeForJob childJobs)
    as (Hactive & Hfailed & Hsuccessful & _).
  intros job e Hin. exists cronJob, childJobs. split; [reflexivity|]. split; [reflexivity|].
  apply elem_of_app in Hin as [Hin|Hin].
  { repeat (apply elem_of_cons in Hin as [Hin|Hin]; [discriminate|]). inversion Hin. }
  apply elem_of_app in Hin as [Hin|Hin].
  { apply (deletesOf_elem _ _ _ _ Hpruned) in Hin.
    apply elem_of_app in Hin as [Hin|Hin].
    - rewrite (proj1 (Hsort _)), Hfailed, list_elem_of_In, filter_In in Hin.
      destruct Hin as [Hin Htype]. apply bool_decide_eq_true in Htype.
      rewrite <- list_elem_of_In in Hin. auto.
    - rewrite (proj1 (Hsort _)), Hsuccessful, list_elem_of_In, filter_In in Hin.
      destruct Hin as [Hin Htype]. apply bool_decide_eq_true in Htype.
      rewrite <- list_elem_of_In in Hin. auto. }
  apply elem_of_app in Hin as [Hin|Hin].
  { assert (Hsome : dels <> []) by (intros ->; inversion Hin).
    apply (deletesOf_elem _ _ _ _ Hdels) in Hin.
    rewrite Hactive, list_elem_of_In, filter_In in Hin.
    destruct Hin as [Hin Htype]. apply bool_decide_eq_true in Htype.
    rewrite <- list_elem_of_In in Hin. split; [exact Hin|]. right. right. auto. }
  destruct Htail as [->|(missedRun & nextRun & _ & _ & _ & [->|(job0 & e0 & _ & ->)])].
  - inversion Hin.
  - apply list_elem_of_singleton in Hin. discriminate.
  - repeat (apply elem_of_cons in Hin as [Hin|Hin]; [discriminate|]). inversion Hin.
Qed.

(** X20.  With a schedule whose [Next] is later than its argument, the run
    a reconcile constructs a job for is not after the clock's first reading,
    within its starting deadline at the clock's fourth, and later than the
    scheduled time of every child it has listed and could read the time
    of: a run that has a listed child is not started again. *)
Theorem reconcile_starts_only_new_runs req (w : World Store) cronJob childJobs sched :
  Get (store w) (ctrl.Namespace req) (ctrl.Name req) = Ok cronJob ->
  List (store w) (ctrl.Namespace req) (ctrl.Name req) = Ok childJobs ->
  ParseStandard (batch.Schedule (batch.Spec cronJob)) = Ok sched ->
  nextIsLater sched ->
  exists evs,
    trace (reconcile req w).2 = trace w ++ evs /\
    forall missedRun,
      EvConstruct missedRun ∈ evs ->
      missedRun <= Now (ticks w) /\
      tooLate cronJob missedRun (Now (3 + ticks w)) = false /\
      (forall job t, job ∈ childJobs -> getScheduledTimeForJob job = Ok (Some t) ->
                     t < missedRun) /\
      (mostRecentTime (classify' childJobs) = None ->
       batch.CreationTimestamp cronJob < missedRun).
Proof.
  intros Hget Hlist Hparse Hlater.
  destruct (reconcile_anatomy req w cronJob childJobs Hget Hlist)
    as (err & pruned & dels & tail & Htrace & Hpruned & Hdels & _ & Htail).
  eexists. split; [exact Htrace|]. intros m Hin.
  assert (Hm : exists nextRun,
            nextSchedule (observed' cronJob (classify' childJobs)) (Now (ticks w))
            = Some (m, nextRun, None) /\
            time.IsZero m = false /\
            tooLate (observed' cronJob (classify' childJobs)) m (Now (3 + ticks w)) = false).
  { apply elem_of_app in Hin as [Hin|Hin].
    { repeat (apply elem_of_cons in Hin as [Hin|Hin]; [discriminate|]). inversion Hin. }
    apply elem_of_app in Hin as [Hin|Hin].
    { apply deletesOf_no_construct in Hpruned. rewrite Forall_forall in Hpruned.
      apply Hpruned in Hin. discriminate. }
    apply elem_of_app in Hin as [Hin|Hin].
    { apply deletesOf_no_construct in Hdels. rewrite Forall_forall in Hdels.
      apply Hdels in Hin. discriminate. }
    destruct Htail
      as [->|(missedRun & nextRun & Hnext & Hzero & Hlate & [->|(job0 & e0 & _ & ->)])].
    - inversion Hin.
    - apply list_elem_of_singleton in Hin. injection Hin as ->. eauto.
    - apply elem_of_cons in Hin as [Hin|Hin]; [injection Hin as ->; eauto|].
      apply list_elem_of_singleton in Hin. discriminate. }
  destruct Hm as (nextRun & Hnext & Hzero & Hlate).
  destruct (missed_run_in_window (observed' cronJob (classify' childJobs)) (Now (ticks w))
              sched m nextRun Hparse Hlater Hnext Hzero) as [Hbound Hnow].
  split_and!; [exact Hnow|exact Hlate| |].
  - intros job t Hjob Ht.
    destruct (classify_partitions isJobFinished getScheduledTimeForJob childJobs)
      as (_ & _ & _ & Hrecent).
    pose proof (later_fold_upper getScheduledTimeForJob childJobs None job t Hjob Ht) as Hle.
    unfold boundTime in Hbound. cbn in Hbound. rewrite Hrecent in Hbound.
    destruct (fold_left _ childJobs None) as [r|]; [|contradiction]. simpl in Hle. lia.
  - intros Hnone. unfold boundTime in Hbound. cbn in Hbound. now rewrite Hnone in Hbound.
Qed.

End ReconcileMore.

(** *** On the in-memory server *)

Lemma everyMinute_later : nextIsLater (everyPeriod Minute).
Proof. apply (firstAfter_later (occursEvery Minute)), everyPeriod_firstAfter. reflexivity. Qed.

(** X11 on a server that holds nothing: the request is dropped. *)
Lemma reconcile_get_fails_witness :
  memReconcile newYear reportRequest emptyWorld
  = (Some (ctrl.empty, IgnoreNotFound (Some ErrNotFound)),
     mkWorld (store emptyWorld) (ticks emptyWorld)
             (trace emptyWorld ++ [EvGet (ctrl.Namespace reportRequest)
                                         (ctrl.Name reportRequest)])) /\
  (ErrNotFound = ErrNotFound ->
   (memReconcile newYear reportRequest emptyWorld).1 = Some (ctrl.empty, None)) /\
  (ErrNotFound <> ErrNotFound ->
   (memReconcile newYear reportRequest emptyWorld).1 = Some (ctrl.empty, Some ErrNotFound)).
Proof.
  apply (reconcile_get_fails MemStore memGet memList memStatusUpdate memDelete memCreate
           (fun _ => newYear) demoParseStandard utcFormatRFC3339 specIsJobFinished
           memGetScheduledTimeForJob mergeSortSlice memGetReference memSetControllerReference
           reportRequest emptyWorld ErrNotFound).
  reflexivity.
Defined.

(** X12 on a server that does not answer the list call. *)
Lemma reconcile_list_fails_witness :
  Reconcile MemStore memGet failingList memStatusUpdate memDelete memCreate
            (fun _ => newYear) demoParseStandard utcFormatRFC3339 specIsJobFinished
            memGetScheduledTimeForJob mergeSortSlice memGetReference memSetControllerReference
            reportRequest keepingWorld
  = (Some (ctrl.empty,
           Some (ErrOther "the server is currently unable to handle the request")),
     mkWorld (store keepingWorld) (ticks keepingWorld)
             (trace keepingWorld
              ++ [EvGet (ctrl.Namespace reportRequest) (ctrl.Name reportRequest);
                  EvList (ctrl.Namespace reportRequest) (ctrl.Name reportRequest)])).
Proof.
  apply (reconcile_list_fails MemStore memGet failingList memStatusUpdate memDelete memCreate
           (fun _ => newYear) demoParseStandard utcFormatRFC3339 specIsJobFinished
           memGetScheduledTimeForJob mergeSortSlice memGetReference memSetControllerReference
           reportRequest keepingWorld keepingCronJob).
  - reflexivity.
  - reflexivity.
Defined.

(** X13 on a server that refuses the status update. *)
Lemma reconcile_update_fails_witness :
  memReconcile newYear reportRequest readOnlyWorld
  = (Some (ctrl.empty,
           Some (ErrOther "the server is currently unable to handle the request")),
     mkWorld (store readOnlyWorld) (ticks readOnlyWorld)
             (trace readOnlyWorld
              ++ opening reportRequest
                   (memObserved keepingCronJob (midnightDone keepingCronJob))
                   (Some (ErrOther "the server is currently unable to handle the request")))).
Proof.
  apply (reconcile_update_fails MemStore memGet memList memStatusUpdate memDelete memCreate
           (fun _ => newYear) demoParseStandard utcFormatRFC3339 specIsJobFinished
           memGetScheduledTimeForJob mergeSortSlice memGetReference memSetControllerReference
           reportRequest readOnlyWorld keepingCronJob (midnightDone keepingCronJob)).
  - reflexivity.
  - vm_compute. reflexivity.
  - reflexivity.
Defined.

(** X14 on a cron job whose schedule does not parse and which keeps no
    failed job: both failed jobs are deleted, and nothing else happens. *)
Lemma reconcile_calculator_error_witness :
  (memReconcile newYear reportRequest brokenWorld).1 = Some (ctrl.empty, None) /\
  ticks (memReconcile newYear reportRequest brokenWorld).2 = S (ticks brokenWorld) /\
  exists errs1 errs2,
    trace (memReconcile newYear reportRequest brokenWorld).2
    = trace brokenWorld
      ++ opening reportRequest (memObserved brokenCronJob twoFailed) None
      ++ pruningOf mergeSortSlice brokenCronJob (memClassify twoFailed) errs1 errs2 /\
    length errs1
    = length (toPrune mergeSortSlice (batch.FailedJobsHistoryLimit (batch.Spec brokenCronJob))
                      (failedJobs (memClassify twoFailed))) /\
    length errs2
    = length (toPrune mergeSortSlice
                      (batch.SuccessfulJobsHistoryLimit (batch.Spec brokenCronJob))
                      (successfulJobs (memClassify twoFailed))).
Proof.
  apply (reconcile_calculator_error MemStore memGet memList memStatusUpdate memDelete memCreate
           (fun _ => newYear) demoParseStandard utcFormatRFC3339 specIsJobFinished
           memGetScheduledTimeForJob mergeSortSlice memGetReference memSetControllerReference
           reportRequest brokenWorld brokenCronJob twoFailed
           (memStatusUpdate (store brokenWorld) (memObserved brokenCronJob twoFailed)).1
           time.zero time.zero
           (ErrUnparseableSchedule "every minute" (ErrOther "Expected exactly 5 fields"))).
  - reflexivity.
  - vm_compute. reflexivity.
  - vm_compute. reflexivity.
  - discriminate.
  - vm_compute. reflexivity.
  - exact mergeSortSlice_sorts.
  - vm_compute. split_and!; (discriminate || reflexivity).
  - exact I.
Defined.

(** The two failed jobs go, the older start first. *)
Example broken_schedule_still_prunes :
  map describe (trace (memReconcile newYear reportRequest brokenWorld).2)
  = ["get report"; "list jobs of report"; "update status of report";
     "delete report-1609458960"; "delete report-1609459020"] /\
  length (toPrune mergeSortSlice (batch.FailedJobsHistoryLimit (batch.Spec brokenCronJob))
                  (failedJobs (memClassify twoFailed))) = 2%nat.
Proof. vm_compute. split; reflexivity. Qed.

(** X15 half a minute after the run of midnight: nothing is due, and the
    reconciler asks to be called again at 00:01. *)
Lemma reconcile_nothing_to_start_witness :
  (memReconcile newYear reportRequest keepingWorld).1
  = Some (ctrl.mkResult false (time.Sub (unixTime 1609459260) newYear), None) /\
  exists pruned,
    trace (memReconcile newYear reportRequest keepingWorld).2
    = trace keepingWorld
      ++ opening reportRequest (memObserved keepingCronJob (midnightDone keepingCronJob)) None
      ++ pruned /\
    deletesOf (mergeSortSlice startTimeLess
                 (failedJobs (memClassify (midnightDone keepingCronJob)))
               ++ mergeSortSlice startTimeLess
                    (successfulJobs (memClassify (midnightDone keepingCronJob)))) pruned.
Proof.
  apply (reconcile_nothing_to_start MemStore memGet memList memStatusUpdate memDelete memCreate
           (fun _ => newYear) demoParseStandard utcFormatRFC3339 specIsJobFinished
           memGetScheduledTimeForJob mergeSortSlice memGetReference memSetControllerReference
           reportRequest keepingWorld keepingCronJob (midnightDone keepingCronJob)
           (memStatusUpdate (store keepingWorld)
              (memObserved keepingCronJob (midnightDone keepingCronJob))).1
           time.zero (unixTime 1609459260)).
  - reflexivity.
  - vm_compute. reflexivity.
  - vm_compute. reflexivity.
  - discriminate.
  - vm_compute. reflexivity.
  - reflexivity.
Defined.

(** X16 on a cron job with no child yet: the run of midnight is created. *)
Lemma reconcile_creates_job_witness :
  exists pruned err,
    trace (memReconcile newYear reportRequest freshWorld).2
    = trace freshWorld
      ++ opening reportRequest (memObserved keepingCronJob []) None ++ pruned
      ++ [EvConstruct (unixTime 1609459200);
          EvCreate (builtJob (memObserved keepingCronJob []) (unixTime 1609459200)) err] /\
    deletesOf (mergeSortSlice startTimeLess (failedJobs (memClassify []))
               ++ mergeSortSlice startTimeLess (successfulJobs (memClassify []))) pruned /\
    (memReconcile newYear reportRequest freshWorld).1
    = Some (match err with
            | Some _ => (ctrl.empty, err)
            | None => (ctrl.mkResult false (time.Sub (unixTime 1609459260) newYear), None)
            end).
Proof.
  apply (reconcile_creates_job MemStore memGet memList memStatusUpdate memDelete memCreate
           (fun _ => newYear) demoParseStandard utcFormatRFC3339 specIsJobFinished
           memGetScheduledTimeForJob mergeSortSlice memGetReference memSetControllerReference
           reportRequest freshWorld keepingCronJob []
           (memStatusUpdate (store freshWorld) (memObserved keepingCronJob [])).1
           (unixTime 1609459200) (unixTime 1609459260)
           (builtJob (memObserved keepingCronJob []) (unixTime 1609459200))).
  - reflexivity.
  - reflexivity.
  - vm_compute. reflexivity.
  - discriminate.
  - vm_compute. reflexivity.
  - reflexivity.
  - discriminate.
  - discriminate.
  - reflexivity.
Defined.

(** A server that refuses the create: the error is the outcome. *)
Example create_refused :
  (memReconcile newYear reportRequest noCreateWorld).1
  = Some (ctrl.empty, Some (ErrOther "the server is currently unable to handle the request")) /\
  map describe (trace (memReconcile newYear reportRequest noCreateWorld).2)
  = ["get report"; "list jobs of report"; "update status of report";
     "construct for 1609459200"; "create report-1609459200: failed"].
Proof. vm_compute. split; reflexivity. Qed.

(** X17 under the replace policy, with a scheme that does not know the
    cron job's kind: the running job is deleted, the job of midnight cannot
    be constructed, and nothing is created. *)
Lemma reconcile_construct_fails_witness :
  exists pruned errs,
    let deletes :=
      zip_with EvDelete
        (replaced replaceCronJob (memClassify (stillRunning replaceCronJob))) errs in
    deletesOf
      (mergeSortSlice startTimeLess (failedJobs (memClassify (stillRunning replaceCronJob)))
       ++ mergeSortSlice startTimeLess
            (successfulJobs (memClassify (stillRunning replaceCronJob)))) pruned /\
    (length errs
     <= length (replaced replaceCronJob (memClassify (stillRunning replaceCronJob))))%nat /\
    ((length errs
      = length (replaced replaceCronJob (memClassify (stillRunning replaceCronJob))) /\
      Forall quiet errs /\
      trace (Reconcile MemStore memGet memList memStatusUpdate memDelete memCreate
                       (fun _ => newYear) demoParseStandard utcFormatRFC3339
                       specIsJobFinished memGetScheduledTimeForJob mergeSortSlice
                       memGetReference failingSetControllerReference
                       reportRequest replaceWorld).2
      = trace replaceWorld
        ++ opening reportRequest (memObserved replaceCronJob (stillRunning replaceCronJob)) None
        ++ pruned ++ deletes ++ [EvConstruct (unixTime 1609459200)] /\
      (Reconcile MemStore memGet memList memStatusUpdate memDelete memCreate
                 (fun _ => newYear) demoParseStandard utcFormatRFC3339
                 specIsJobFinished memGetScheduledTimeForJob mergeSortSlice
                 memGetReference failingSetControllerReference
                 reportRequest replaceWorld).1
      = Some (ctrl.mkResult false (time.Sub (unixTime 1609459260) newYear), None)) \/
     (exists errs0 e,
        batch.ConcurrencyPolicy (batch.Spec replaceCronJob) = ReplaceConcurrent /\
        errs = errs0 ++ [Some e] /\ Forall quiet errs0 /\ e <> ErrNotFound /\
        trace (Reconcile MemStore memGet memList memStatusUpdate memDelete memCreate
                         (fun _ => newYear) demoParseStandard utcFormatRFC3339
                         specIsJobFinished memGetScheduledTimeForJob mergeSortSlice
                         memGetReference failingSetControllerReference
                         reportRequest replaceWorld).2
        = trace replaceWorld
          ++ opening reportRequest (memObserved replaceCronJob (stillRunning replaceCronJob))
               None
          ++ pruned ++ deletes /\
        (Reconcile MemStore memGet memList memStatusUpdate memDelete memCreate
                   (fun _ => newYear) demoParseStandard utcFormatRFC3339
                   specIsJobFinished memGetScheduledTimeForJob mergeSortSlice
                   memGetReference failingSetControllerReference
                   reportRequest replaceWorld).1
        = Some (ctrl.empty, Some e))).
Proof.
  apply (reconcile_construct_fails MemStore memGet memList memStatusUpdate memDelete memCreate
           (fun _ => newYear) demoParseStandard utcFormatRFC3339 specIsJobFinished
           memGetScheduledTimeForJob mergeSortSlice memGetReference
           failingSetControllerReference
           reportRequest replaceWorld replaceCronJob (stillRunning replaceCronJob)
           (memStatusUpdate (store replaceWorld)
              (memObserved replaceCronJob (stillRunning replaceCronJob))).1
           (unixTime 1609459200) (unixTime 1609459260)
           (ErrOther "no kind is registered for the type CronJob")).
  - reflexivity.
  - vm_compute. reflexivity.
  - vm_compute. reflexivity.
  - discriminate.
  - vm_compute. reflexivity.
  - reflexivity.
  - discriminate.
  - reflexivity.
Defined.

(** The running job is replaced by nothing. *)
Example replace_without_scheme :
  map describe
      (trace (Reconcile MemStore memGet memList memStatusUpdate memDelete memCreate
                        (fun _ => newYear) demoParseStandard utcFormatRFC3339
                        specIsJobFinished memGetScheduledTimeForJob mergeSortSlice
                        memGetReference failingSetControllerReference
                        reportRequest replaceWorld).2)
  = ["get report"; "list jobs of report"; "update status of report";
     "delete report-1609459140"; "construct for 1609459200"].
Proof. vm_compute. reflexivity. Qed.

(** C9 on the suspended cron job with two jobs running and two failed, of
    which it keeps one. *)
Lemma reconcile_suspended_witness :
  (memReconcile newYear reportRequest suspendedBusyWorld).1 = Some (ctrl.empty, None) /\
  length (toPrune mergeSortSlice (batch.FailedJobsHistoryLimit (batch.Spec suspendedCronJob))
                  (failedJobs (memClassify twoRunningTwoFailed))) = 1%nat /\
  exists errs1 errs2,
    trace (memReconcile newYear reportRequest suspendedBusyWorld).2
    = trace suspendedBusyWorld
      ++ opening reportRequest (memObserved suspendedCronJob twoRunningTwoFailed) None
      ++ pruningOf mergeSortSlice suspendedCronJob (memClassify twoRunningTwoFailed)
           errs1 errs2 /\
    length errs1
    = length (toPrune mergeSortSlice
                      (batch.FailedJobsHistoryLimit (batch.Spec suspendedCronJob))
                      (failedJobs (memClassify twoRunningTwoFailed))) /\
    length errs2
    = length (toPrune mergeSortSlice
                      (batch.SuccessfulJobsHistoryLimit (batch.Spec suspendedCronJob))
                      (successfulJobs (memClassify twoRunningTwoFailed))) /\
    createsNothing (pruningOf mergeSortSlice suspendedCronJob
                      (memClassify twoRunningTwoFailed) errs1 errs2) /\
    ticks (memReconcile newYear reportRequest suspendedBusyWorld).2 = ticks suspendedBusyWorld.
Proof.
  destruct (reconcile_suspended MemStore memGet memList memStatusUpdate memDelete memCreate
              (fun _ => newYear) demoParseStandard utcFormatRFC3339 specIsJobFinished
              memGetScheduledTimeForJob mergeSortSlice memGetReference
              memSetControllerReference reportRequest suspendedBusyWorld
              suspendedCronJob twoRunningTwoFailed
              (memStatusUpdate (store suspendedBusyWorld)
                 (memObserved suspendedCronJob twoRunningTwoFailed)).1)
    as (_ & _ & _ & _ & Hrun & Hpruned).
  - reflexivity.
  - vm_compute. reflexivity.
  - reflexivity.
  - vm_compute. reflexivity.
  - exact mergeSortSlice_sorts.
  - vm_compute. split_and!; (discriminate || reflexivity).
  - vm_compute. split_and!; (discriminate || reflexivity).
  - split; [exact (f_equal fst Hrun)|]. split; [vm_compute; reflexivity|]. exact Hpruned.
Defined.

(** Suspended, the cron job still loses the older of its failed jobs, and
    its status names the two jobs running. *)
Example suspended_still_prunes :
  map describe (trace (memReconcile newYear reportRequest suspendedBusyWorld).2)
  = ["get report"; "list jobs of report"; "update status of report";
     "delete report-1609458960"] /\
  map kbatch.Name (jobs (store (memReconcile newYear reportRequest suspendedBusyWorld).2))
  = ["report-1609459080"; "report-1609459140"; "report-1609459020"] /\
  map refName (batch.Active (batch.Status (stored (memReconcile newYear reportRequest
                                                     suspendedBusyWorld).2)))
  = ["report-1609459080"; "report-1609459140"].
Proof. vm_compute. repeat split. Qed.

(** C8 on the cron job that replaces the run of 23:59, still going. *)
Lemma reconcile_replace_deletes_first_witness :
  exists pruned errs,
    let deletes :=
      zip_with EvDelete (activeJobs (memClassify (stillRunning replaceCronJob))) errs in
    deletesOf
      (mergeSortSlice startTimeLess (failedJobs (memClassify (stillRunning replaceCronJob)))
       ++ mergeSortSlice startTimeLess
            (successfulJobs (memClassify (stillRunning replaceCronJob)))) pruned /\
    (length errs <= length (activeJobs (memClassify (stillRunning replaceCronJob))))%nat /\
    ((length errs = length (activeJobs (memClassify (stillRunning replaceCronJob))) /\
      Forall quiet errs /\
      exists rest,
        trace (memReconcile newYear reportRequest replaceWorld).2
        = trace replaceWorld
          ++ opening reportRequest (memObserved replaceCronJob (stillRunning replaceCronJob))
               None
          ++ pruned ++ deletes ++ EvConstruct (unixTime 1609459200) :: rest /\
        match memConstructJob (memObserved replaceCronJob (stillRunning replaceCronJob))
                              (unixTime 1609459200) with
        | Err _ =>
            rest = [] /\
            (memReconcile newYear reportRequest replaceWorld).1
            = Some (ctrl.mkResult false (time.Sub (unixTime 1609459260) newYear), None)
        | Ok job =>
            exists err,
              rest = [EvCreate job err] /\
              (memReconcile newYear reportRequest replaceWorld).1
              = Some (match err with
                      | Some _ => (ctrl.empty, err)
                      | None =>
                          (ctrl.mkResult false (time.Sub (unixTime 1609459260) newYear), None)
                      end)
        end) \/
     (exists errs0 e,
        errs = errs0 ++ [Some e] /\ Forall quiet errs0 /\ e <> ErrNotFound /\
        trace (memReconcile newYear reportRequest replaceWorld).2
        = trace replaceWorld
          ++ opening reportRequest (memObserved replaceCronJob (stillRunning replaceCronJob))
               None
          ++ pruned ++ deletes /\
        createsNothing
          (opening reportRequest (memObserved replaceCronJob (stillRunning replaceCronJob))
             None ++ pruned ++ deletes) /\
        (memReconcile newYear reportRequest replaceWorld).1 = Some (ctrl.empty, Some e))).
Proof.
  apply (reconcile_replace_deletes_first MemStore memGet memList memStatusUpdate memDelete
           memCreate (fun _ => newYear) demoParseStandard utcFormatRFC3339 specIsJobFinished
           memGetScheduledTimeForJob mergeSortSlice memGetReference memSetControllerReference
           reportRequest replaceWorld replaceCronJob (stillRunning replaceCronJob)
           (memStatusUpdate (store replaceWorld)
              (memObserved replaceCronJob (stillRunning replaceCronJob))).1
           (unixTime 1609459200) (unixTime 1609459260)).
  - reflexivity.
  - vm_compute. reflexivity.
  - vm_compute. reflexivity.
  - discriminate.
  - vm_compute. reflexivity.
  - reflexivity.
  - reflexivity.
Defined.

(** The run of 23:59 is deleted before the job of midnight is made. *)
Example replace_running_job :
  map describe (trace (memReconcile newYear reportRequest replaceWorld).2)
  = ["get report"; "list jobs of report"; "update status of report";
     "delete report-1609459140"; "construct for 1609459200"; "create report-1609459200"] /\
  map kbatch.Name (jobs (store (memReconcile newYear reportRequest replaceWorld).2))
  = ["report-1609459200"].
Proof. vm_compute. split; reflexivity. Qed.

(** X19 on the cron job that replaces the run still going. *)
Lemma reconcile_deletes_only_listed_witness :
  exists evs,
    trace (memReconcile newYear reportRequest replaceWorld).2 = trace replaceWorld ++ evs /\
    forall job err,
      EvDelete job err ∈ evs ->
      exists cronJob childJobs,
        memGet (store replaceWorld) (ctrl.Namespace reportRequest) (ctrl.Name reportRequest)
        = Ok cronJob /\
        memList (store replaceWorld) (ctrl.Namespace reportRequest) (ctrl.Name reportRequest)
        = Ok childJobs /\
        job ∈ childJobs /\
        (finishedType specIsJobFinished job = kbatch.JobFailed \/
         finishedType specIsJobFinished job = kbatch.JobComplete \/
         finishedType specIsJobFinished job = "" /\
         batch.ConcurrencyPolicy (batch.Spec cronJob) = ReplaceConcurrent).
Proof.
  apply (reconcile_deletes_only_listed MemStore memGet memList memStatusUpdate memDelete
           memCreate (fun _ => newYear) demoParseStandard utcFormatRFC3339 specIsJobFinished
           memGetScheduledTimeForJob mergeSortSlice memGetReference memSetControllerReference
           reportRequest replaceWorld).
  exact mergeSortSlice_sorts.
Defined.

(** X20 a minute and a half after the run of midnight, which has a
    child: the run a job is constructed for is the one of 00:01. *)
Lemma reconcile_starts_only_new_runs_witness :
  exists evs,
    trace (memReconcile (unixTime 1609459290) reportRequest keepingWorld).2
    = trace keepingWorld ++ evs /\
    forall missedRun,
      EvConstruct missedRun ∈ evs ->
      missedRun <= unixTime 1609459290 /\
      tooLate keepingCronJob missedRun (unixTime 1609459290) = false /\
      (forall job t, job ∈ midnightDone keepingCronJob ->
                     memGetScheduledTimeForJob job = Ok (Some t) -> t < missedRun) /\
      (mostRecentTime (memClassify (midnightDone keepingCronJob)) = None ->
       batch.CreationTimestamp keepingCronJob < missedRun).
Proof.
  apply (reconcile_starts_only_new_runs MemStore memGet memList memStatusUpdate memDelete
           memCreate (fun _ => unixTime 1609459290) demoParseStandard utcFormatRFC3339
           specIsJobFinished memGetScheduledTimeForJob mergeSortSlice memGetReference
           memSetControllerReference
           reportRequest keepingWorld keepingCronJob (midnightDone keepingCronJob)
           (everyPeriod Minute)).
  - reflexivity.
  - vm_compute. reflexivity.
  - reflexivity.
  - exact everyMinute_later.
Defined.

(** The run of 00:01 is started beside the finished one of midnight. *)
Example second_run_started :
  map describe (trace (memReconcile (unixTime 1609459290) reportRequest keepingWorld).2)
  = ["get report"; "list jobs of report"; "update status of report";
     "construct for 1609459260"; "create report-1609459260"].
Proof. vm_compute. reflexivity. Qed.

(** ** More on the status *)

Section StatusMore.

Variable GetReference : kbatch.Job -> result ObjectReference.

Lemma activeReferences_elem jobs r :
  r ∈ activeReferences GetReference jobs <-> exists j, j ∈ jobs /\ GetReference j = Ok r.
Proof.
  induction jobs as [|job jobs IH]; simpl.
  - split; [intros H; inversion H|]. intros (j & Hj & _). inversion Hj.
  - destruct (GetReference job) as [jobRef|e] eqn:Href.
    + rewrite elem_of_cons, IH. split.
      * intros [->|(j & Hj & Hr)]; [exists job; split; [left|exact Href]|].
        exists j. split; [now right|exact Hr].
      * intros (j & Hj & Hr). apply elem_of_cons in Hj as [->|Hj]; [left; congruence|].
        right. eauto.
    + rewrite IH. split.
      * intros (j & Hj & Hr). exists j. split; [now right|exact Hr].
      * intros (j & Hj & Hr). apply elem_of_cons in Hj as [->|Hj]; [congruence|]. eauto.
Qed.

Lemma activeReferences_at_most jobs :
  (length (activeReferences GetReference jobs) <= length jobs)%nat.
Proof.
  induction jobs as [|job jobs IH]; simpl; [lia|].
  destruct (GetReference job); simpl; lia.
Qed.

(** X21.  The status a reconcile writes is made anew from the children:
    the last schedule time is the most recent time of the classifier, and
    the active list holds the references of the active jobs whose reference
    could be made, one for each when none fails and fewer otherwise.  What
    the fetched cron job had in its status is dropped; its name, namespace,
    creation time and spec are written back as they were. *)
Theorem observed_rebuilds_status cronJob c :
  let written := observed GetReference cronJob c in
  batch.Name written = batch.Name cronJob /\
  batch.Namespace written = batch.Namespace cronJob /\
  batch.CreationTimestamp written = batch.CreationTimestamp cronJob /\
  batch.Spec written = batch.Spec cronJob /\
  batch.LastScheduleTime (batch.Status written) = mostRecentTime c /\
  (forall r, r ∈ batch.Active (batch.Status written)
             <-> exists j, j ∈ activeJobs c /\ GetReference j = Ok r) /\
  (length (batch.Active (batch.Status written)) <= length (activeJobs c))%nat /\
  ((forall j, j ∈ activeJobs c -> exists r, GetReference j = Ok r) ->
   length (batch.Active (batch.Status written)) = length (activeJobs c)) /\
  forall status,
    observed GetReference
             (batch.mkCronJob (batch.Name cronJob) (batch.Namespace cronJob)
                              (batch.CreationTimestamp cronJob) (batch.Spec cronJob) status) c
    = written.
Proof.
  cbv zeta. unfold observed. cbn.
  split_and!; try reflexivity.
  - intros r. apply activeReferences_elem.
  - apply activeReferences_at_most.
  - apply activeReferences_length.
Qed.

End StatusMore.
